(** * ImageProcessingService: a shallow embedding

    The Python service [backend/services/ImageProcessingService.py] is
    embedded function by function.  Python values that reach the service
    through its [settings] argument are modelled by the inductive [value]
    (None, bool, int, str and dict; dicts keep their insertion order),
    exceptions by the record [exn] and fallible code by the type [result].
    Calls into Pillow (decode, encode, resample, EXIF transpose), the file
    system and the clock are the fields of the class [Codec].  Floats are the
    rationals they denote, with every operation rounded as binary64 rounds
    (module [B64]).  The module [Objects] follows the settings dicts as
    shared objects, where the aliasing of [DEFAULT_SETTINGS] shows. *)

From Stdlib Require Import ZArith NArith List String Ascii Bool Lia.
From Stdlib Require Import QArith Qround Qpower Lqa.
Import ListNotations.
Open Scope string_scope.
Open Scope Z_scope.

Set Implicit Arguments.

(** ** Python values *)

#[local] Unset Elimination Schemes.
Inductive value : Type :=
| VNone
| VBool (b : bool)
| VInt (z : Z)
| VStr (s : string)
| VDict (items : list (string * value)).
#[local] Set Elimination Schemes.

(** Induction on values, with the hypothesis for every value held in a
    dict. *)
Section ValueInduction.

Variable P : value -> Prop.
Hypothesis HNone : P VNone.
Hypothesis HBool : forall b, P (VBool b).
Hypothesis HInt : forall z, P (VInt z).
Hypothesis HStr : forall s, P (VStr s).
Hypothesis HDict : forall items, Forall (fun entry => P (snd entry)) items -> P (VDict items).

Fixpoint value_nested_ind (v : value) : P v :=
  match v with
  | VNone => HNone
  | VBool b => HBool b
  | VInt z => HInt z
  | VStr s => HStr s
  | VDict items =>
      HDict
        ((fix all (its : list (string * value)) : Forall (fun entry => P (snd entry)) its :=
            match its with
            | [] => Forall_nil _
            | entry :: rest => Forall_cons entry (value_nested_ind (snd entry)) (all rest)
            end) items)
  end.

End ValueInduction.

(** A dict is the list of its items in insertion order; a key occurs once. *)
Definition dict := list (string * value).

Definition keys (d : dict) : list string := map fst d.

(** [d.get(key)] *)
Fixpoint dict_get (key : string) (d : dict) : option value :=
  match d with
  | [] => None
  | (k, v) :: rest => if String.eqb key k then Some v else dict_get key rest
  end.

(** [d[key] = v]: an existing key keeps its position, a new one goes last. *)
Fixpoint dict_set (key : string) (v : value) (d : dict) : dict :=
  match d with
  | [] => [(key, v)]
  | (k, w) :: rest =>
      if String.eqb key k then (k, v) :: rest else (k, w) :: dict_set key v rest
  end.

(** Python truth value ([if x:], [not x], [x or y]). *)
Definition truthy (v : value) : bool :=
  match v with
  | VNone => false
  | VBool b => b
  | VInt z => negb (z =? 0)
  | VStr s => negb (String.eqb s "")
  | VDict items => match items with [] => false | _ => true end
  end.

(** ** Exceptions *)

Record exn : Type := Exn { exn_type : string; exn_msg : string }.

Inductive result (A : Type) : Type :=
| Ok (a : A)
| Raise (e : exn).
Arguments Ok {A} a.
Arguments Raise {A} e.

Definition bind {A B} (c : result A) (k : A -> result B) : result B :=
  match c with
  | Ok a => k a
  | Raise e => Raise e
  end.

Notation "x <- c ;; k" := (bind c (fun x => k))
  (at level 61, c at next level, right associativity).
Notation "' pat <- c ;; k" := (bind c (fun x => match x with pat => k end))
  (at level 61, pat pattern, c at next level, right associativity).

Definition TypeError (msg : string) : exn := Exn "TypeError" msg.
(** [str(KeyError(key))] is the [repr] of the key: the key between single
    quotes, for the keys the service uses. *)
Definition KeyError (key : string) : exn := Exn "KeyError" ("'" ++ key ++ "'").
Definition AttributeError (msg : string) : exn := Exn "AttributeError" msg.
Definition ZeroDivisionError (msg : string) : exn := Exn "ZeroDivisionError" msg.

(** [type(v).__name__] *)
Definition type_name (v : value) : string :=
  match v with
  | VNone => "NoneType"
  | VBool _ => "bool"
  | VInt _ => "int"
  | VStr _ => "str"
  | VDict _ => "dict"
  end.

(** The text of the AttributeError for a missing method. *)
Definition no_attribute (v : value) (name : string) : exn :=
  AttributeError ("'" ++ type_name v ++ "' object has no attribute '" ++ name ++ "'").

(** [v[key]] for an arbitrary value [v] and a string [key]; a string is
    indexed by integers only (the text is the one of Python 3.11). *)
Definition subscript (v : value) (key : string) : result value :=
  match v with
  | VDict d =>
      match dict_get key d with
      | Some x => Ok x
      | None => Raise (KeyError key)
      end
  | VStr _ => Raise (TypeError "string indices must be integers, not 'str'")
  | _ => Raise (TypeError ("'" ++ type_name v ++ "' object is not subscriptable"))
  end.

(** [v[key] = x] for an arbitrary value [v]. *)
Definition store_item (v : value) (key : string) (x : value) : result value :=
  match v with
  | VDict d => Ok (VDict (dict_set key x d))
  | _ => Raise (TypeError ("'" ++ type_name v ++ "' object does not support item assignment"))
  end.

(** [v.get(key, default)] for an arbitrary value [v]. *)
Definition get_default (v : value) (key : string) (default : value) : result value :=
  match v with
  | VDict d =>
      match dict_get key d with
      | Some x => Ok x
      | None => Ok default
      end
  | _ => Raise (no_attribute v "get")
  end.

(** ** Strings *)

(** [str.lower()] on code points below 256: A-Z and the Latin-1 capitals. *)
Definition lower_char (c : ascii) : ascii :=
  let n := nat_of_ascii c in
  if ((65 <=? n) && (n <=? 90))%nat then ascii_of_nat (n + 32)
  else if ((192 <=? n) && (n <=? 222) && negb (n =? 215))%nat then ascii_of_nat (n + 32)
  else c.

Fixpoint lower (s : string) : string :=
  match s with
  | EmptyString => EmptyString
  | String c rest => String (lower_char c) (lower rest)
  end.

(** ** Class constants *)

(** [OUTPUT_FORMATS]: the entry for ['original'] holds [None]. *)
Definition OUTPUT_FORMATS : list (string * option string) :=
  [ ("jpeg", Some "JPEG");
    ("jpg", Some "JPEG");
    ("png", Some "PNG");
    ("webp", Some "WEBP");
    ("gif", Some "GIF");
    ("original", None) ].

Fixpoint table_get {A} (key : string) (t : list (string * A)) : option A :=
  match t with
  | [] => None
  | (k, v) :: rest => if String.eqb key k then Some v else table_get key rest
  end.

Definition DEFAULT_SETTINGS : dict :=
  [ ("mode", VStr "auto");
    ("targetFileSize", VInt (150 * 1024));
    ("compression", VDict [ ("enabled", VBool true);
                            ("quality", VInt 85);
                            ("maxWidth", VInt 1920);
                            ("maxHeight", VInt 1080) ]);
    ("format", VDict [ ("outputFormat", VStr "webp");
                       ("convertToWebp", VBool true) ]);
    ("optimization", VDict [ ("removeMetadata", VBool true);
                             ("progressive", VBool true);
                             ("autoOrient", VBool true) ]);
    ("resize", VDict [ ("enabled", VBool false);
                       ("width", VNone);
                       ("height", VNone);
                       ("maintainAspectRatio", VBool true) ]) ].

(** ** [_deep_merge] *)

(** One pass of the loop body over [override.items()], with the recursive
    call on nested dicts. [merge_items] takes the override as a value so that
    the recursion is structural on it. *)
Fixpoint merge_items (base : dict) (override : value) {struct override} : dict :=
  match override with
  | VDict items =>
      (fix loop (result : dict) (its : list (string * value)) {struct its} : dict :=
         match its with
         | [] => result
         | (key, v) :: rest =>
             loop
               (match dict_get key result, v with
                | Some (VDict b), VDict _ => dict_set key (VDict (merge_items b v)) result
                | _, _ => dict_set key v result
                end)
               rest
         end) base items
  | _ => base
  end.

Definition _deep_merge (base override : dict) : dict :=
  merge_items base (VDict override).

(** What one iteration of the loop stores under [key]. *)
Definition merged_entry (old : option value) (v : value) : value :=
  match old, v with
  | Some (VDict b), VDict o => VDict (_deep_merge b o)
  | _, _ => v
  end.

(** ** [_determine_output_format] *)

(** [original_format] is [image.format]: [None] or a string.  The table's
    only [None] entry is the one for ['original'], which the test above it
    has already taken; that branch is kept to make the match total. *)
Definition _determine_output_format
    (original_format : option string) (format_settings : value) : result string :=
  requested <- get_default format_settings "outputFormat" (VStr "webp") ;;
  match requested with
  | VStr s =>
      let output_format := lower s in
      if String.eqb output_format "original" then
        match original_format with
        | Some f => if String.eqb f "" then Ok "JPEG" else Ok f
        | None => Ok "JPEG"
        end
      else
        match table_get output_format OUTPUT_FORMATS with
        | Some (Some f) => Ok f
        | Some None => Raise (TypeError "OUTPUT_FORMATS['original'] is None")
        | None => Ok "WEBP"
        end
  | _ => Raise (no_attribute requested "lower")
  end.

(** ** Python floats

    A float is the rational it denotes.  Each operation rounds the exact
    result to the nearest number with a 53-bit significand, ties to even, as
    IEEE 754 binary64 does in its normal range (the quotients and products of
    pixel counts and byte sizes that the service forms stay in that range;
    overflow, subnormals, infinities and NaN are outside the model). *)
Module B64.

(** floor(log2 a) for a positive rational *)
Definition ilog2 (a : Q) : Z :=
  let e0 := Z.log2 (Qnum a) - Z.log2 (Zpos (Qden a)) in
  if Qle_bool (2 ^ e0)%Q a then e0 else e0 - 1.

Definition round_half_even (s : Q) : Z :=
  let f := Qfloor s in
  match Qcompare (s - inject_Z f) (1 # 2) with
  | Lt => f
  | Gt => f + 1
  | Eq => if Z.even f then f else f + 1
  end.

Definition rne_pos (a : Q) : Q :=
  let e := ilog2 a in
  Qred (inject_Z (round_half_even (a * 2 ^ (52 - e))) * 2 ^ (e - 52)).

(** round to nearest, ties to even *)
Definition rne (x : Q) : Q :=
  match Qcompare x 0 with
  | Eq => 0%Q
  | Gt => rne_pos x
  | Lt => (- rne_pos (- x))%Q
  end.

(** [float(z)] *)
Definition of_int (z : Z) : Q := rne (inject_Z z).

Definition mul (x y : Q) : Q := rne (x * y).
Definition sub (x y : Q) : Q := rne (x - y).

(** [a / b] on ints: the correctly rounded quotient *)
Definition true_div (a b : Z) : result Q :=
  if b =? 0 then Raise (ZeroDivisionError "division by zero")
  else Ok (rne (inject_Z a / inject_Z b)).

(** [int(x)]: truncation toward zero *)
Definition to_int (x : Q) : Z := Z.quot (Qnum x) (Zpos (Qden x)).

(** [min(x, y)] *)
Definition min (x y : Q) : Q := if Qle_bool x y then x else y.

(** [z * x] for an int [z] and a float [x] *)
Definition int_mul (z : Z) (x : Q) : Q := mul (of_int z) x.

(** [z > x] for an int [z] and a float [x] (Python compares exactly) *)
Definition int_gt (z : Z) (x : Q) : bool := negb (Qle_bool (inject_Z z) x).

(** [round(x, 2)]: the nearest multiple of 1/100 to the exact value of
    [x], ties to even, then the float nearest to that decimal. *)
Definition round2 (x : Q) : Q :=
  rne (inject_Z (round_half_even (x * 100)) / 100).

(** the relative error of one rounding is at most 2^-53 *)
Definition eps : Q := 1 # 9007199254740992.

End B64.

(** An int where Python expects a number: [bool] is a subclass of [int]. *)
Definition as_number (v : value) : result Z :=
  match v with
  | VInt z => Ok z
  | VBool b => Ok (if b then 1 else 0)
  | _ => Raise (TypeError "unsupported operand type(s)")
  end.

(** [v == 'auto'] and the like *)
Definition is_str (v : value) (s : string) : bool :=
  match v with
  | VStr t => String.eqb t s
  | _ => false
  end.

(** [s[k1][k2] = x]; the write is seen through [s]. *)
Definition set_nested (s : value) (k1 k2 : string) (x : value) : result value :=
  inner <- subscript s k1 ;;
  inner' <- store_item inner k2 x ;;
  store_item s k1 inner'.

(** [s[k1][k2]] *)
Definition get_nested (s : value) (k1 k2 : string) : result value :=
  inner <- subscript s k1 ;;
  subscript inner k2.

(** ** Images *)

(** One pixel: a value per band. *)
Definition pixel := list Z.

Record Image : Type := mkImage {
  im_format : option string;          (* image.format *)
  im_mode : string;                   (* image.mode *)
  im_width : Z;
  im_height : Z;                      (* image.size *)
  im_data : list pixel;               (* image.getdata() *)
  im_info : list (string * string);   (* EXIF and other auxiliary metadata *)
  im_animated : bool                  (* hasattr(image, 'is_animated') and image.is_animated *)
}.

Definition im_size (im : Image) : Z * Z := (im_width im, im_height im).

(** [Image.new(mode, size, color)] *)
Definition Image_new (mode : string) (size : Z * Z) (color : pixel) : Image :=
  {| im_format := None;
     im_mode := mode;
     im_width := fst size;
     im_height := snd size;
     im_data := repeat color (Z.to_nat (fst size * snd size));
     im_info := [];
     im_animated := false |}.

(** [image.putdata(data)] with as many pixels as the image holds *)
Definition putdata (im : Image) (data : list pixel) : Image :=
  {| im_format := im_format im;
     im_mode := im_mode im;
     im_width := im_width im;
     im_height := im_height im;
     im_data := data;
     im_info := im_info im;
     im_animated := im_animated im |}.

(** Pillow's number of bands per mode; [Image.new] without a colour fills
    every band with 0. *)
Definition bands (mode : string) : nat :=
  if existsb (String.eqb mode) ["LA"; "PA"; "La"] then 2
  else if existsb (String.eqb mode) ["RGB"; "YCbCr"; "LAB"; "HSV"] then 3
  else if existsb (String.eqb mode) ["RGBA"; "CMYK"; "RGBX"; "RGBa"] then 4
  else 1.

Definition zero_pixel (mode : string) : pixel := repeat 0 (bands mode).

(** Pillow's modes whose last band is an alpha band: RGBA, LA and PA
    (palette with alpha), and their premultiplied forms RGBa and La. *)
Definition has_alpha_band (mode : string) : bool :=
  existsb (String.eqb mode) ["RGBA"; "LA"; "PA"; "RGBa"; "La"].

(** [image.split()[-1]]: the last band *)
Definition last_band (im : Image) : list Z := map (fun px => last px 0) (im_data im).

(** Where the input comes from: an [io.BytesIO] or a path. *)
Inductive source : Type :=
| Stream (content : list Z)
| FilePath (path : string).

(** ** The codec and the environment

    What the service asks of Pillow, the file system and the clock. *)
Class Codec : Type := {
  (** [Image.open] *)
  Image_open : source -> result Image;
  (** [ImageOps.exif_transpose] *)
  exif_transpose : Image -> result Image;
  (** pixel data of [image.resize((w, h), LANCZOS)] *)
  resample : Image -> Z -> Z -> result (list pixel);
  (** byte length of [image.save(io.BytesIO(), format=..., **kwargs)] *)
  save_buffer : Image -> string -> dict -> result N;
  (** [image.save(path, format=..., save_all=..., **kwargs)] followed by
      [path.stat().st_size] *)
  save_file : string -> Image -> string -> bool -> dict -> result N;
  (** pixel data after [background.paste(image, mask=...)] *)
  paste_data : Image -> Image -> list Z -> list pixel;
  (** [x ** 0.5] for a float [x >= 0] *)
  pow_half : Q -> Q;
  (** [uuid.uuid4().hex] *)
  uuid_hex : string;
  (** [int(time.time() * 1000)] in decimal *)
  timestamp : string;
  (** [Path(p).stem] *)
  path_stem : string -> string;
  (** [self.output_dir / name], as [str] *)
  output_path_of : string -> string
}.

(** ** The service *)

Section Service.

Context `{Codec}.

(** [image.resize((w, h), Image.Resampling.LANCZOS)]: a new image of the
    requested size, same mode and info, not tied to a file. *)
Definition Image_resize (image : Image) (w h : Z) : result Image :=
  data <- resample image w h ;;
  Ok {| im_format := None;
        im_mode := im_mode image;
        im_width := w;
        im_height := h;
        im_data := data;
        im_info := im_info image;
        im_animated := false |}.

Definition _get_image_size (image : Image) : result Z :=
  n <- save_buffer image
         (match im_format image with
          | Some f => if String.eqb f "" then "JPEG" else f
          | None => "JPEG"
          end) [] ;;
  Ok (Z.of_N n).

Definition _auto_orient (image : Image) : Image :=
  match exif_transpose image with
  | Ok transposed => transposed
  | Raise _ => image
  end.

Definition _resize_image (image : Image) (resize_settings : value) : result Image :=
  target_width <- get_default resize_settings "width" VNone ;;
  target_height <- get_default resize_settings "height" VNone ;;
  maintain_aspect <- get_default resize_settings "maintainAspectRatio" (VBool true) ;;
  if negb (truthy target_width) && negb (truthy target_height) then Ok image
  else
    let current_width := im_width image in
    let current_height := im_height image in
    '(new_width, new_height) <-
      (if truthy maintain_aspect then
         if truthy target_width && truthy target_height then
           tw <- as_number target_width ;;
           rw <- B64.true_div tw current_width ;;
           th <- as_number target_height ;;
           rh <- B64.true_div th current_height ;;
           let ratio := B64.min rw rh in
           Ok (B64.to_int (B64.int_mul current_width ratio),
               B64.to_int (B64.int_mul current_height ratio))
         else if truthy target_width then
           tw <- as_number target_width ;;
           ratio <- B64.true_div tw current_width ;;
           Ok (tw, B64.to_int (B64.int_mul current_height ratio))
         else
           th <- as_number target_height ;;
           ratio <- B64.true_div th current_height ;;
           Ok (B64.to_int (B64.int_mul current_width ratio), th)
       else
         nw <- (if truthy target_width then as_number target_width
                else Ok current_width) ;;
         nh <- (if truthy target_height then as_number target_height
                else Ok current_height) ;;
         Ok (nw, nh)) ;;
    Image_resize image new_width new_height.

Definition _compress_image (image : Image) (compression_settings : value) : result Image :=
  max_width <- get_default compression_settings "maxWidth" (VInt 1920) ;;
  max_height <- get_default compression_settings "maxHeight" (VInt 1080) ;;
  let current_width := im_width image in
  let current_height := im_height image in
  mw <- as_number max_width ;;
  fits <- (if current_width <=? mw then
             mh <- as_number max_height ;; Ok (current_height <=? mh)
           else Ok false) ;;
  if (fits : bool) then Ok image
  else
    rw <- B64.true_div mw current_width ;;
    mh <- as_number max_height ;;
    rh <- B64.true_div mh current_height ;;
    let ratio := B64.min rw rh in
    Image_resize image (B64.to_int (B64.int_mul current_width ratio))
                       (B64.to_int (B64.int_mul current_height ratio)).

Definition _get_save_kwargs (output_format : string) (settings : value) : result dict :=
  if String.eqb output_format "JPEG" || String.eqb output_format "WEBP" then
    quality <- get_nested settings "compression" "quality" ;;
    let kwargs := [("quality", quality); ("optimize", VBool true)] in
    if String.eqb output_format "JPEG" then
      progressive <- get_nested settings "optimization" "progressive" ;;
      Ok (kwargs ++ [("progressive", progressive)])%list
    else Ok kwargs
  else if String.eqb output_format "PNG" then Ok [("optimize", VBool true)]
  else Ok [].

(** *** Auto mode *)

(** The outcome of the search loop: the number of times the loop encoded
    and measured the image, and what the loop left (image and quality) or
    the exception that ended it. *)
Record search : Type := mkSearch {
  rounds : nat;
  found : result (Image * Z)
}.

Definition one_more (s : search) : search :=
  {| rounds := S (rounds s); found := found s |}.

(** The last branch of the loop body: the dimensions to try next.
    [(target_size / current_size) ** 0.5] is complex for a negative
    quotient, and [int()] of the product then raises. *)
Definition scaled_dimensions (image : Image) (target_size current_size : Z)
    : result (Z * Z) :=
  quotient <- B64.true_div target_size current_size ;;
  if Qle_bool 0 quotient then
    let scale_factor := pow_half quotient in
    Ok (Z.max 300 (B64.to_int (B64.int_mul (im_width image) scale_factor)),
        Z.max 200 (B64.to_int (B64.int_mul (im_height image) scale_factor)))
  else Raise (TypeError "int() argument must be a string, a bytes-like object or a real number, not 'complex'").

(** [for iteration in range(n)]: the loop body, then the remaining
    iterations.  [break] ends the recursion. *)
Fixpoint search_loop (n : nat) (target_size : value) (image : Image) (quality : Z)
    : search :=
  match n with
  | O => {| rounds := 0; found := Ok (image, quality) |}
  | S n' =>
      match save_buffer image "WEBP"
              [("quality", VInt quality); ("optimize", VBool true)] with
      | Raise e => {| rounds := 1; found := Raise e |}
      | Ok bytes =>
          let current_size := Z.of_N bytes in
          match as_number target_size with
          | Raise e => {| rounds := 1; found := Raise e |}
          | Ok target =>
              if current_size <=? target then
                {| rounds := 1; found := Ok (image, quality) |}
              else if B64.int_gt current_size (B64.int_mul target (3 # 2))
                      && (quality >? 30) then
                one_more (search_loop n' target_size image (Z.max 30 (quality - 15)))
              else if (current_size >? target) && (quality >? 20) then
                one_more (search_loop n' target_size image (Z.max 20 (quality - 5)))
              else
                match scaled_dimensions image target current_size with
                | Raise e => {| rounds := 1; found := Raise e |}
                | Ok (new_width, new_height) =>
                    if (new_width <? im_width image) && (new_height <? im_height image) then
                      match Image_resize image new_width new_height with
                      | Raise e => {| rounds := 1; found := Raise e |}
                      | Ok resized =>
                          one_more (search_loop n' target_size resized
                                      (Z.min 85 (quality + 10)))
                      end
                    else {| rounds := 1; found := Ok (image, quality) |}
                end
          end
      end
  end.

Definition max_iterations : nat := 10.

(** Lines 318-330: the forced settings. *)
Definition force_auto_settings (settings : value) : result value :=
  s1 <- set_nested settings "format" "outputFormat" (VStr "webp") ;;
  s2 <- set_nested s1 "optimization" "removeMetadata" (VBool true) ;;
  s3 <- set_nested s2 "optimization" "autoOrient" (VBool true) ;;
  set_nested s3 "optimization" "progressive" (VBool true).

(** Lines 332-347: auto-orient, then the resize of a very large image.
    The result is the image the search loop starts from. *)
Definition auto_prepare (image : Image) : result Image :=
  let image := _auto_orient image in
  let width := im_width image in
  let height := im_height image in
  if (width >? 2048) || (height >? 2048) then
    rw <- B64.true_div 2048 width ;;
    rh <- B64.true_div 2048 height ;;
    let ratio := B64.min rw rh in
    Image_resize image (B64.to_int (B64.int_mul width ratio))
                       (B64.to_int (B64.int_mul height ratio))
  else Ok image.

Definition _process_auto_mode (image : Image) (settings : value)
    : result (Image * value) :=
  target_size <- get_default settings "targetFileSize" (VInt (150 * 1024)) ;;
  settings <- force_auto_settings settings ;;
  image <- auto_prepare image ;;
  '(image, quality) <- found (search_loop max_iterations target_size image 95) ;;
  settings <- set_nested settings "compression" "quality" (VInt quality) ;;
  settings <- set_nested settings "compression" "enabled" (VBool true) ;;
  Ok (image, settings).

(** *** Manual mode (lines 126-137) *)

Definition manual_mode (image : Image) (settings : value) : result Image :=
  auto_orient <- get_nested settings "optimization" "autoOrient" ;;
  let image := if truthy auto_orient then _auto_orient image else image in
  resize_enabled <- get_nested settings "resize" "enabled" ;;
  image <- (if truthy resize_enabled then
              resize_settings <- subscript settings "resize" ;;
              _resize_image image resize_settings
            else Ok image) ;;
  compression_enabled <- get_nested settings "compression" "enabled" ;;
  if truthy compression_enabled then
    compression_settings <- subscript settings "compression" ;;
    _compress_image image compression_settings
  else Ok image.

(** Lines 121-137: the dispatch on [mode]. *)
Definition run_mode (image : Image) (settings : value) : result (Image * value) :=
  mode <- get_default settings "mode" VNone ;;
  if is_str mode "auto" then _process_auto_mode image settings
  else
    image <- manual_mode image settings ;;
    Ok (image, settings).

(** *** Metadata removal (lines 158-170) *)

Definition white : pixel := [255; 255; 255].

Definition strip_metadata (image : Image) : Image :=
  if String.eqb (im_mode image) "RGBA" || String.eqb (im_mode image) "LA" then
    let background := Image_new "RGB" (im_size image) white in
    putdata background (paste_data background image (last_band image))
  else
    let new_image := Image_new (im_mode image) (im_size image) (zero_pixel (im_mode image)) in
    putdata new_image (im_data image).

(** *** [process_image] *)

Record FileInfo : Type := mkFileInfo {
  fi_format : option string;
  fi_size : Z * Z;
  fi_file_size : Z
}.

(** The returned dict: its [success: True] and [success: False] shapes. *)
Inductive ProcessingResult : Type :=
| Success (output_path output_filename : string)
          (original processed : FileInfo)
          (settings_used : value)
          (compression_ratio : Q)
| Failure (error error_type : string).

Definition compression_ratio_of (final_file_size original_file_size : Z) : result Q :=
  if original_file_size >? 0 then
    quotient <- B64.true_div final_file_size original_file_size ;;
    Ok (B64.round2 (B64.mul (B64.sub 1 quotient) 100))
  else Ok 0%Q.

Definition extension_of (output_format : string) : string :=
  if String.eqb output_format "JPEG" then "jpg" else lower output_format.

(** Lines 101-104: the defaults, merged with the caller's settings when
    these are truthy. [defaults] is the content of the class attribute
    [DEFAULT_SETTINGS] when the call starts. *)
Definition resolve_settings (defaults : dict) (settings : value) : result value :=
  if truthy settings then
    match settings with
    | VDict override => Ok (VDict (_deep_merge defaults override))
    | _ => Raise (no_attribute settings "items")
    end
  else Ok (VDict defaults).

(** Lines 107-113 *)
Definition original_filename_of (input_path : source) : string :=
  match input_path with
  | Stream _ => "image_" ++ uuid_hex
  | FilePath p => path_stem p
  end.

(** Lines 146-149 *)
Definition output_filename_of (output_filename : option string)
    (original_filename output_format : string) : string :=
  match output_filename with
  | Some name =>
      if String.eqb name "" then
        original_filename ++ "_" ++ timestamp ++ "." ++ extension_of output_format
      else name
  | None => original_filename ++ "_" ++ timestamp ++ "." ++ extension_of output_format
  end.

(** Lines 157-170 *)
Definition remove_metadata_if_requested (settings : value) (image : Image)
    : result Image :=
  remove_metadata <- get_nested settings "optimization" "removeMetadata" ;;
  Ok (if truthy remove_metadata then strip_metadata image else image).

(** Lines 173-177: whether the save passes [save_all=True]. *)
Definition save_all_frames (output_format : string) (image : Image) : bool :=
  String.eqb output_format "GIF" && im_animated image.

(** The body of the [try] block. *)
Definition process_image_body (defaults : dict) (input_path : source)
    (settings : value) (output_filename : option string) : result ProcessingResult :=
  processing_settings <- resolve_settings defaults settings ;;
  image <- Image_open input_path ;;
  let original_filename := original_filename_of input_path in
  let original_format := im_format image in
  let original_size := im_size image in
  original_file_size <- _get_image_size image ;;
  '(image, processing_settings) <- run_mode image processing_settings ;;
  format_settings <- subscript processing_settings "format" ;;
  output_format <- _determine_output_format original_format format_settings ;;
  let output_filename :=
    output_filename_of output_filename original_filename output_format in
  let output_path := output_path_of output_filename in
  save_kwargs <- _get_save_kwargs output_format processing_settings ;;
  image <- remove_metadata_if_requested processing_settings image ;;
  final_file_size <-
    save_file output_path image output_format
      (save_all_frames output_format image) save_kwargs ;;
  let final_file_size := Z.of_N final_file_size in
  compression_ratio <- compression_ratio_of final_file_size original_file_size ;;
  Ok (Success output_path output_filename
        (mkFileInfo original_format original_size original_file_size)
        (mkFileInfo (Some output_format) (im_size image) final_file_size)
        processing_settings
        compression_ratio).

(** [try: ... except Exception as e: return {...}] *)
Definition process_image_with (defaults : dict) (input_path : source)
    (settings : value) (output_filename : option string) : ProcessingResult :=
  match process_image_body defaults input_path settings output_filename with
  | Ok record => record
  | Raise e => Failure (exn_msg e) (exn_type e)
  end.

Definition process_image : source -> value -> option string -> ProcessingResult :=
  process_image_with DEFAULT_SETTINGS.

(** *** Vocabulary of the properties *)

(** What a successful run went through, stage by stage. *)
Record run : Type := mkRun {
  r_settings : value;        (* the merged settings *)
  r_opened : Image;          (* the decoded input *)
  r_original_size : Z;       (* [_get_image_size] of it *)
  r_image : Image;           (* the image the mode stage returned *)
  r_settings_used : value;   (* the settings the mode stage returned *)
  r_format : string;         (* the resolved output format *)
  r_kwargs : dict;           (* the save parameters *)
  r_saved : Image;           (* the image handed to the final save *)
  r_bytes : N;               (* size of the written file *)
  r_ratio : Q
}.

Definition r_filename (input_path : source) (name : option string) (r : run) : string :=
  output_filename_of name (original_filename_of input_path) (r_format r).

Definition stages (defaults : dict) (input_path : source) (settings : value)
    (name : option string) (r : run) : Prop :=
  resolve_settings defaults settings = Ok (r_settings r) /\
  Image_open input_path = Ok (r_opened r) /\
  _get_image_size (r_opened r) = Ok (r_original_size r) /\
  run_mode (r_opened r) (r_settings r) = Ok (r_image r, r_settings_used r) /\
  (exists format_settings,
      subscript (r_settings_used r) "format" = Ok format_settings /\
      _determine_output_format (im_format (r_opened r)) format_settings
      = Ok (r_format r)) /\
  _get_save_kwargs (r_format r) (r_settings_used r) = Ok (r_kwargs r) /\
  remove_metadata_if_requested (r_settings_used r) (r_image r) = Ok (r_saved r) /\
  save_file (output_path_of (r_filename input_path name r)) (r_saved r) (r_format r)
    (save_all_frames (r_format r) (r_saved r)) (r_kwargs r) = Ok (r_bytes r) /\
  compression_ratio_of (Z.of_N (r_bytes r)) (r_original_size r) = Ok (r_ratio r).

Definition record_of (input_path : source) (name : option string) (r : run)
    : ProcessingResult :=
  Success (output_path_of (r_filename input_path name r))
          (r_filename input_path name r)
          (mkFileInfo (im_format (r_opened r)) (im_size (r_opened r)) (r_original_size r))
          (mkFileInfo (Some (r_format r)) (im_size (r_saved r)) (Z.of_N (r_bytes r)))
          (r_settings_used r)
          (r_ratio r).

Definition mode_is_auto (settings : value) : bool :=
  match get_default settings "mode" VNone with
  | Ok mode => is_str mode "auto"
  | Raise _ => false
  end.

(** The fields auto mode assigns. *)
Definition auto_written : list (string * string) :=
  [ ("format", "outputFormat");
    ("optimization", "removeMetadata");
    ("optimization", "autoOrient");
    ("optimization", "progressive");
    ("compression", "quality");
    ("compression", "enabled") ].

(** The two modes whose last band the service uses as a paste mask:
    [image.mode in ('RGBA', 'LA')]. *)
Definition alpha_mode (image : Image) : Prop :=
  im_mode image = "RGBA" \/ im_mode image = "LA".

(** The settings of the scenario, merged into the defaults. *)
Definition scenario_override : dict :=
  [ ("mode", VStr "manual");
    ("resize", VDict [ ("enabled", VBool true);
                       ("width", VInt 800);
                       ("maintainAspectRatio", VBool true) ]) ].

Definition scenario_merged : dict := _deep_merge DEFAULT_SETTINGS scenario_override.

(** When the loop ends without an exception, one of three things holds.
    [converged]: the returned image, encoded at the returned quality, fits
    the target.  [exhausted]: all the iterations were used.  [stuck]: the
    encoding is above the target at quality 20 and the dimensions the loop
    computed are not both smaller than the current ones. *)
Definition converged (target_size : value) (image : Image) (quality : Z) : Prop :=
  exists (bytes : N) (target : Z),
    save_buffer image "WEBP" [("quality", VInt quality); ("optimize", VBool true)]
    = Ok bytes /\
    as_number target_size = Ok target /\
    Z.of_N bytes <= target.

Definition stuck (target_size : value) (image : Image) (quality : Z) : Prop :=
  exists (bytes : N) (target new_width new_height : Z),
    save_buffer image "WEBP" [("quality", VInt quality); ("optimize", VBool true)]
    = Ok bytes /\
    as_number target_size = Ok target /\
    target < Z.of_N bytes /\
    quality = 20 /\
    scaled_dimensions image target (Z.of_N bytes) = Ok (new_width, new_height) /\
    (im_width image <= new_width \/ im_height image <= new_height).

End Service.

(** ** The settings as shared objects

    [process_image] copies the class attribute [DEFAULT_SETTINGS] with
    [{**d}] and [_deep_merge] copies with [dict.copy()]: both copies are
    shallow, so the dicts nested in the result may be the very objects nested
    in the class attribute.  This module follows the dict objects through the
    statements of [process_image] and [_process_auto_mode] that create, read
    or assign settings.  A dict object is a list of entries, an entry holds
    an atom or the address of another dict object, and a store maps addresses
    to objects. *)
Module Objects.

Inductive cell : Type :=
| Atom (v : value)
| Ref (address : nat).

Definition object := list (string * cell).
Definition store := list object.

(** Computations that read and write the store and may raise; the store
    keeps the writes made before an exception. *)
Definition M (A : Type) : Type := store -> result A * store.

Definition ret {A} (a : A) : M A := fun st => (Ok a, st).
Definition raise {A} (e : exn) : M A := fun st => (Raise e, st).
Definition lift {A} (c : result A) : M A := fun st => (c, st).

Definition bindM {A B} (c : M A) (k : A -> M B) : M B :=
  fun st =>
    match c st with
    | (Ok a, st') => k a st'
    | (Raise e, st') => (Raise e, st')
    end.

Notation "x <~ c ;; k" := (bindM c (fun x => k))
  (at level 61, c at next level, right associativity).

Definition alloc (o : object) : M nat :=
  fun st => (Ok (List.length st), (st ++ [o])%list).

Definition get_object (address : nat) : M object :=
  fun st =>
    match nth_error st address with
    | Some o => (Ok o, st)
    | None => (Raise (Exn "ReferenceError" "no such object"), st)
    end.

Fixpoint replace_nth (n : nat) (o : object) (st : store) : store :=
  match st, n with
  | [], _ => []
  | _ :: rest, O => o :: rest
  | x :: rest, S n' => x :: replace_nth n' o rest
  end.

Fixpoint obj_get (key : string) (o : object) : option cell :=
  match o with
  | [] => None
  | (k, c) :: rest => if String.eqb key k then Some c else obj_get key rest
  end.

Fixpoint obj_set (key : string) (c : cell) (o : object) : object :=
  match o with
  | [] => [(key, c)]
  | (k, w) :: rest =>
      if String.eqb key k then (k, c) :: rest else (k, w) :: obj_set key c rest
  end.

(** [d[key] = c] on the object at [address] *)
Definition set_item (address : nat) (key : string) (c : cell) : M unit :=
  o <~ get_object address ;;
  fun st => (Ok tt, replace_nth address (obj_set key c o) st).

(** A value of the caller enters the store: its dicts become objects. *)
Fixpoint load (v : value) {struct v} : M cell :=
  match v with
  | VDict items =>
      entries <~
        (fix load_items (its : list (string * value)) {struct its} : M object :=
           match its with
           | [] => ret []
           | (key, x) :: rest =>
               c <~ load x ;;
               others <~ load_items rest ;;
               ret ((key, c) :: others)
           end) items ;;
      address <~ alloc entries ;;
      ret (Ref address)
  | _ => ret (Atom v)
  end.

(** [d.copy()] and [{**d}]: a new object with the same entries *)
Definition copy (address : nat) : M nat :=
  o <~ get_object address ;;
  alloc o.

(** [_deep_merge(base, override)], [base] an object of the store and
    [override] the caller's value. *)
Fixpoint _deep_merge (base : nat) (override : value) {struct override} : M nat :=
  match override with
  | VDict items =>
      result <~ copy base ;;
      _ <~
        (fix loop (its : list (string * value)) {struct its} : M unit :=
           match its with
           | [] => ret tt
           | (key, v) :: rest =>
               o <~ get_object result ;;
               _ <~
                 match obj_get key o, v with
                 | Some (Ref b), VDict _ =>
                     merged <~ _deep_merge b v ;;
                     set_item result key (Ref merged)
                 | _, _ =>
                     c <~ load v ;;
                     set_item result key c
                 end ;;
               loop rest
           end) items ;;
      ret result
  | _ => raise (no_attribute override "items")
  end.

(** [s[k1][k2] = x] *)
Definition set_nested (s : nat) (k1 k2 : string) (x : value) : M unit :=
  o <~ get_object s ;;
  match obj_get k1 o with
  | Some (Ref inner) => set_item inner k2 (Atom x)
  | Some (Atom v) =>
      raise (TypeError ("'" ++ type_name v ++ "' object does not support item assignment"))
  | None => raise (KeyError k1)
  end.

(** The value of an entry where only atoms are meaningful (a target size,
    a mode): a dict stands for itself only by its type. *)
Definition atom_of (c : option cell) (default : value) : value :=
  match c with
  | Some (Atom v) => v
  | Some (Ref _) => VDict []
  | None => default
  end.

(** The value an entry denotes, followed through [depth] levels of
    nested dicts. *)
Fixpoint read (depth : nat) (st : store) (c : cell) : value :=
  match c with
  | Atom v => v
  | Ref address =>
      match depth, nth_error st address with
      | S d, Some o => VDict (map (fun entry => (fst entry, read d st (snd entry))) o)
      | _, _ => VDict []
      end
  end.

(** The store when the class is defined: the nested dicts of
    [DEFAULT_SETTINGS] are objects 0 to 3 and the attribute itself is
    object 4. *)
Definition initial_store : store := snd (load (VDict DEFAULT_SETTINGS) []).
Definition DEFAULT_SETTINGS : nat := 4.

Section Service.

Context `{Codec}.

Definition _process_auto_mode (image : Image) (settings : nat) : M (Image * nat) :=
  o <~ get_object settings ;;
  let target_size := atom_of (obj_get "targetFileSize" o) (VInt (150 * 1024)) in
  _ <~ set_nested settings "format" "outputFormat" (VStr "webp") ;;
  _ <~ set_nested settings "optimization" "removeMetadata" (VBool true) ;;
  _ <~ set_nested settings "optimization" "autoOrient" (VBool true) ;;
  _ <~ set_nested settings "optimization" "progressive" (VBool true) ;;
  image <~ lift (auto_prepare image) ;;
  found_pair <~ lift (found (search_loop max_iterations target_size image 95)) ;;
  _ <~ set_nested settings "compression" "quality" (VInt (snd found_pair)) ;;
  _ <~ set_nested settings "compression" "enabled" (VBool true) ;;
  ret (fst found_pair, settings).

(** Lines 100-124 of [process_image]: the settings are created, the
    image is opened and measured, and auto mode runs.  Manual mode only
    reads the settings, so its branch leaves the store as it is. *)
Definition process_image_settings (input_path : source) (settings : value) : M nat :=
  processing_settings <~ copy DEFAULT_SETTINGS ;;
  processing_settings <~
    (if truthy settings then _deep_merge processing_settings settings
     else ret processing_settings) ;;
  image <~ lift (Image_open input_path) ;;
  _ <~ lift (_get_image_size image) ;;
  o <~ get_object processing_settings ;;
  if is_str (atom_of (obj_get "mode" o) VNone) "auto" then
    pair <~ _process_auto_mode image processing_settings ;;
    ret (snd pair)
  else ret processing_settings.

End Service.

End Objects.

(** [later] extends [earlier]: the objects that existed are unchanged and
    new ones follow. *)
Definition extends (earlier later : Objects.store) : Prop :=
  exists added : Objects.store, later = (earlier ++ added)%list.

(** Lines 102-104 of [process_image] on the settings objects: the copy of
    the class attribute and the merge. *)
Definition create_settings (settings : value) : Objects.M nat :=
  Objects.bindM (Objects.copy Objects.DEFAULT_SETTINGS)
    (fun processing_settings =>
       if truthy settings then Objects._deep_merge processing_settings settings
       else Objects.ret processing_settings).

(** The store after a call that ended auto mode at [quality], as seen from
    the class attribute. *)
Definition shared_compression (quality : Z) : Objects.object :=
  [ ("enabled", Objects.Atom (VBool true));
    ("quality", Objects.Atom (VInt quality));
    ("maxWidth", Objects.Atom (VInt 1920));
    ("maxHeight", Objects.Atom (VInt 1080)) ].

(** * A concrete codec

    A small deterministic codec on which the service can be run.  A stream
    [[w; h]] decodes to an RGB image of that size and [[w; h; 1]] to an RGBA
    one, both with an EXIF entry, and [[1; 1; 2]] to a one-pixel PA image; an
    encoding takes three bytes per pixel, scaled by [quality / 1000] for WEBP
    and JPEG. *)
Module Demo.

Definition decoded (mode : string) (w h : Z) : Image :=
  {| im_format := Some "PNG";
     im_mode := mode;
     im_width := w;
     im_height := h;
     im_data := [];
     im_info := [("exif", "Orientation=1")];
     im_animated := false |}.

(** A one-pixel palette image with an alpha band, as a palette TIFF with
    an alpha channel decodes: palette index 7, alpha 128. *)
Definition palette_alpha : Image :=
  {| im_format := Some "TIFF";
     im_mode := "PA";
     im_width := 1;
     im_height := 1;
     im_data := [[7; 128]];
     im_info := [("dpi", "72")];
     im_animated := false |}.

Definition open (input_path : source) : result Image :=
  match input_path with
  | Stream [w; h] => Ok (decoded "RGB" w h)
  | Stream [w; h; 1] => Ok (decoded "RGBA" w h)
  | Stream [1; 1; 2] => Ok palette_alpha
  | Stream _ => Raise (Exn "UnidentifiedImageError" "cannot identify image file")
  | FilePath p => Raise (Exn "FileNotFoundError" p)
  end.

Definition encoded_size (image : Image) (format : string) (kwargs : dict) : N :=
  let raw := im_width image * im_height image * 3 in
  Z.to_N
    (match dict_get "quality" kwargs with
     | Some (VInt quality) => raw * quality / 1000
     | _ => raw
     end).

Definition resampled (image : Image) (w h : Z) : result (list pixel) :=
  if (w <=? 0) || (h <=? 0) then
    Raise (Exn "ValueError" "height and width must be > 0")
  else Ok [].

Definition written (path : string) (image : Image) (format : string)
    (save_all : bool) (kwargs : dict) : result N :=
  if String.eqb path "./processed_images/." then
    Raise (Exn "IsADirectoryError" path)
  else Ok (encoded_size image format kwargs).

(** a square root to about nine decimal places *)
Definition square_root (x : Q) : Q :=
  Z.sqrt (Qnum x * 2 ^ 60 / Zpos (Qden x)) # 2 ^ 30.

Definition codec : Codec :=
  {| Image_open := open;
     exif_transpose := fun image => Ok image;
     resample := resampled;
     save_buffer := fun image format kwargs => Ok (encoded_size image format kwargs);
     save_file := written;
     paste_data := fun background image mask => im_data background;
     pow_half := square_root;
     uuid_hex := "0f8fad5bd9cb469fa16570867728950e";
     timestamp := "1700000000000";
     path_stem := fun p => p;
     output_path_of := fun name => "./processed_images/" ++ name |}.

End Demo.

(** The demo codec for files whose EXIF orientation asks for a quarter
    turn (orientation 6 or 8): [ImageOps.exif_transpose] returns a new image
    with width and height swapped and without the orientation entry.  The
    demo images carry no pixel data, so there is nothing to permute. *)
Module Rotated.

Definition transposed (image : Image) : result Image :=
  Ok {| im_format := None;
        im_mode := im_mode image;
        im_width := im_height image;
        im_height := im_width image;
        im_data := im_data image;
        im_info := [];
        im_animated := false |}.

Definition codec : Codec :=
  {| Image_open := Demo.open;
     exif_transpose := transposed;
     resample := Demo.resampled;
     save_buffer := fun image format kwargs => Ok (Demo.encoded_size image format kwargs);
     save_file := Demo.written;
     paste_data := fun background image mask => im_data background;
     pow_half := Demo.square_root;
     uuid_hex := "0f8fad5bd9cb469fa16570867728950e";
     timestamp := "1700000000000";
     path_stem := fun p => p;
     output_path_of := fun name => "./processed_images/" ++ name |}.

End Rotated.

(** A caller who asks for PNG and switches the three optimisations off. *)
Definition png_no_optimization : value :=
  VDict [ ("format", VDict [("outputFormat", VStr "png")]);
          ("optimization", VDict [ ("removeMetadata", VBool false);
                                   ("autoOrient", VBool false);
                                   ("progressive", VBool false) ]) ].

Definition large : Image := Demo.decoded "RGB" 2000 1500.

(** An image that fits the default target at quality 95. *)
Definition small : Image := Demo.decoded "RGB" 400 300.

(** An image above the 2048 x 2048 of the first resize. *)
Definition huge : Image := Demo.decoded "RGB" 4000 3000.

(** Resize settings with both target dimensions. *)
Definition box : value := VDict [("width", VInt 800); ("height", VInt 800)].

(** Resize settings that give up the aspect ratio. *)
Definition exact_size : value :=
  VDict [("width", VInt 640); ("maintainAspectRatio", VBool false)].

(** A caller who only switches to manual mode. *)
Definition manual_only : value := VDict [("mode", VStr "manual")].

(** Manual settings that ask for a width above [maxWidth]. *)
Definition wide_resize : value :=
  VDict (_deep_merge DEFAULT_SETTINGS
           [ ("mode", VStr "manual");
             ("resize", VDict [("enabled", VBool true); ("width", VInt 3000)]) ]).

(** * Properties *)

(** ** Dict lookups *)

Lemma dict_get_set_same (key : string) (v : value) (d : dict) :
  dict_get key (dict_set key v d) = Some v.
Proof.
  induction d as [| [k w] rest IH]; simpl.
  - now rewrite String.eqb_refl.
  - destruct (String.eqb key k) eqn:E; simpl; rewrite E; auto.
Qed.

Lemma dict_get_set_other (key key' : string) (v : value) (d : dict) :
  key <> key' -> dict_get key (dict_set key' v d) = dict_get key d.
Proof.
  intros Hne. induction d as [| [k w] rest IH]; simpl.
  - destruct (String.eqb_spec key key'); [contradiction | reflexivity].
  - destruct (String.eqb_spec key' k) as [-> | Hk]; simpl.
    + destruct (String.eqb_spec key k); [contradiction | reflexivity].
    + destruct (String.eqb key k); auto.
Qed.

Lemma dict_get_absent (key : string) (d : dict) :
  ~ In key (keys d) -> dict_get key d = None.
Proof.
  induction d as [| [k w] rest IH]; simpl; intros Hnot; [reflexivity |].
  destruct (String.eqb_spec key k) as [-> | Hk].
  - exfalso. apply Hnot. now left.
  - apply IH. intros Hin. apply Hnot. now right.
Qed.

(** ** [_deep_merge] *)

Lemma _deep_merge_nil (base : dict) : _deep_merge base [] = base.
Proof. reflexivity. Qed.

Lemma _deep_merge_cons (base : dict) (key : string) (v : value) (rest : dict) :
  _deep_merge base ((key, v) :: rest) =
  _deep_merge (dict_set key (merged_entry (dict_get key base) v) base) rest.
Proof.
  unfold _deep_merge, merged_entry. simpl.
  destruct (dict_get key base) as [[| | | | b] |]; destruct v; reflexivity.
Qed.

Lemma _deep_merge_lookup (override base : dict) (key : string) :
  NoDup (keys override) ->
  dict_get key (_deep_merge base override) =
  match dict_get key override with
  | None => dict_get key base
  | Some v => Some (merged_entry (dict_get key base) v)
  end.
Proof.
  revert base. induction override as [| [k v] rest IH]; intros base Hnd.
  - reflexivity.
  - rewrite _deep_merge_cons. inversion Hnd as [| ? ? Hnotin Hnd']; subst.
    rewrite IH by assumption. simpl.
    destruct (String.eqb_spec key k) as [-> | Hk].
    + rewrite (dict_get_absent k rest Hnotin). apply dict_get_set_same.
    + rewrite (dict_get_set_other _ _ Hk). reflexivity.
Qed.

(** C6: merging the empty override returns the defaults; after a merge a
    key absent from the override keeps its default value, a key at which
    both sides hold dicts holds their recursive merge, and any other
    overridden key holds the override value; overriding one leaf [b] under
    [a] leaves the siblings of [b] and the other top-level keys untouched. *)
Theorem deep_merge_laws :
  (forall D : dict, _deep_merge D [] = D) /\
  (forall (D override : dict) (key : string),
      NoDup (keys override) ->
      dict_get key (_deep_merge D override) =
      match dict_get key override with
      | None => dict_get key D
      | Some v =>
          match dict_get key D, v with
          | Some (VDict b), VDict o => Some (VDict (_deep_merge b o))
          | _, _ => Some v
          end
      end) /\
  (forall (D sub : dict) (a b : string) (x : value),
      dict_get a D = Some (VDict sub) ->
      exists merged : dict,
        dict_get a (_deep_merge D [(a, VDict [(b, x)])]) = Some (VDict merged) /\
        dict_get b merged = Some (merged_entry (dict_get b sub) x) /\
        (forall sibling, sibling <> b -> dict_get sibling merged = dict_get sibling sub) /\
        (forall other, other <> a ->
           dict_get other (_deep_merge D [(a, VDict [(b, x)])]) = dict_get other D)).
Proof.
  split; [| split].
  - exact _deep_merge_nil.
  - intros D override key Hnd. rewrite _deep_merge_lookup by assumption.
    destruct (dict_get key override) as [v |]; [| reflexivity].
    unfold merged_entry.
    destruct (dict_get key D) as [[| | | | b] |]; destruct v; reflexivity.
  - intros D sub a b x Ha.
    assert (E : _deep_merge sub [(b, x)] =
                dict_set b (merged_entry (dict_get b sub) x) sub)
      by now rewrite _deep_merge_cons, _deep_merge_nil.
    exists (_deep_merge sub [(b, x)]).
    rewrite (_deep_merge_cons D), _deep_merge_nil, Ha.
    change (merged_entry (Some (VDict sub)) (VDict [(b, x)]))
      with (VDict (_deep_merge sub [(b, x)])).
    repeat split.
    + apply dict_get_set_same.
    + rewrite E. apply dict_get_set_same.
    + intros sibling Hne. rewrite E. now apply dict_get_set_other.
    + intros other Hne. now apply dict_get_set_other.
Qed.

(** ** [_determine_output_format] *)

(** C7: with requested name [s] (compared after [lower()]), ['original']
    returns the original format itself when that is a non-empty string and
    JPEG when it is missing or empty; jpeg and jpg give JPEG, png PNG, webp
    WEBP, gif GIF, and every other name gives WEBP. *)
Theorem determine_output_format_table :
  forall (X : option string) (format_settings : dict) (s : string),
    dict_get "outputFormat" format_settings = Some (VStr s) ->
    (lower s = "original" ->
       (forall f, X = Some f -> f <> "" ->
          _determine_output_format X (VDict format_settings) = Ok f) /\
       (X = None \/ X = Some "" ->
          _determine_output_format X (VDict format_settings) = Ok "JPEG")) /\
    (lower s = "jpeg" \/ lower s = "jpg" ->
       _determine_output_format X (VDict format_settings) = Ok "JPEG") /\
    (lower s = "png" -> _determine_output_format X (VDict format_settings) = Ok "PNG") /\
    (lower s = "webp" -> _determine_output_format X (VDict format_settings) = Ok "WEBP") /\
    (lower s = "gif" -> _determine_output_format X (VDict format_settings) = Ok "GIF") /\
    (~ In (lower s) ["original"; "jpeg"; "jpg"; "png"; "webp"; "gif"] ->
       _determine_output_format X (VDict format_settings) = Ok "WEBP").
Proof.
  intros X d s Hget.
  unfold _determine_output_format, get_default. rewrite Hget. cbn [bind].
  repeat split.
  - intros f -> Hf. rewrite H. cbn.
    destruct (String.eqb_spec f ""); [contradiction | reflexivity].
  - intros [-> | ->]; rewrite H; reflexivity.
  - intros [-> | ->]; reflexivity.
  - intros ->; reflexivity.
  - intros ->; reflexivity.
  - intros ->; reflexivity.
  - intros Hnot.
    assert (Hk : forall k, In k ["original"; "jpeg"; "jpg"; "png"; "webp"; "gif"] ->
                           String.eqb (lower s) k = false).
    { intros k Hin. destruct (String.eqb_spec (lower s) k) as [E | _]; [| reflexivity].
      exfalso. apply Hnot. now rewrite E. }
    cbn [table_get OUTPUT_FORMATS].
    rewrite !Hk by (simpl; tauto). reflexivity.
Qed.

(** ** Rounding

    One rounding moves a positive number by at most a factor [1 +- 2^-53];
    [int()] of a non-negative float is its floor. *)

Unset Implicit Arguments.

Lemma pow2_pos (k : Z) : (0 < 2 ^ k)%Q.
Proof. apply Qpower_0_lt. reflexivity. Qed.

Lemma two_neq0 : ~ (2 == 0)%Q.
Proof. discriminate. Qed.

Lemma ilog2_lower (a : Q) : (0 < a)%Q -> (2 ^ B64.ilog2 a <= a)%Q.
Proof.
  intros Ha. unfold B64.ilog2.
  destruct (Qle_bool _ a) eqn:E.
  - now apply Qle_bool_iff.
  - clear E. destruct a as [n d]. cbn [Qnum Qden] in *.
    assert (Hn : 0 < n) by (unfold Qlt in Ha; simpl in Ha; lia).
    pose proof (Z.log2_spec n Hn) as [Hn1 _].
    pose proof (Z.log2_spec (Zpos d) (Pos2Z.is_pos d)) as [_ Hd2].
    pose proof (Z.log2_nonneg n) as Hln.
    pose proof (Z.log2_nonneg (Zpos d)) as Hld.
    set (ln := Z.log2 n) in *. set (ld := Z.log2 (Zpos d)) in *.
    replace (ln - ld - 1) with (ln - (ld + 1)) by lia.
    rewrite Qpower_minus by apply two_neq0.
    change 2%Q with (inject_Z 2).
    rewrite <- (Zpower_Qpower 2 ln) by lia.
    rewrite <- (Zpower_Qpower 2 (ld + 1)) by lia.
    assert (Hp : 0 < 2 ^ (ld + 1)) by (apply Z.pow_pos_nonneg; lia).
    apply Qle_shift_div_r.
    + unfold Qlt; simpl; lia.
    + unfold Qle, Qmult, inject_Z; simpl. nia.
Qed.

Lemma round_half_even_bounds (s : Q) :
  (s - (1 # 2) <= inject_Z (B64.round_half_even s) <= s + (1 # 2))%Q.
Proof.
  unfold B64.round_half_even.
  pose proof (Qfloor_le s) as Hlo. pose proof (Qlt_floor s) as Hhi.
  rewrite inject_Z_plus in Hhi. change (inject_Z 1) with 1%Q in Hhi.
  destruct (Qcompare _ _) eqn:C.
  - apply Qeq_alt in C. destruct (Z.even (Qfloor s)).
    + lra.
    + rewrite inject_Z_plus. change (inject_Z 1) with 1%Q. lra.
  - apply Qlt_alt in C. lra.
  - apply Qgt_alt in C. rewrite inject_Z_plus. change (inject_Z 1) with 1%Q. lra.
Qed.

Lemma rne_pos_bounds (a : Q) :
  (0 < a)%Q ->
  (a * (1 - B64.eps) <= B64.rne_pos a <= a * (1 + B64.eps))%Q.
Proof.
  intros Ha. unfold B64.rne_pos. rewrite Qred_correct.
  pose proof (ilog2_lower a Ha) as He.
  set (e := B64.ilog2 a) in *.
  pose proof (round_half_even_bounds (a * 2 ^ (52 - e))) as Hm.
  set (M := inject_Z (B64.round_half_even (a * 2 ^ (52 - e)))) in *.
  assert (HP : (2 ^ (52 - e) * 2 ^ (e - 52) == 1)%Q).
  { rewrite <- Qpower_plus by apply two_neq0.
    replace (52 - e + (e - 52)) with 0 by lia. reflexivity. }
  assert (HE : (2 ^ (e - 52) == 2 ^ e * (2 * B64.eps))%Q).
  { replace (e - 52) with (e + -52) by lia.
    rewrite Qpower_plus by apply two_neq0.
    assert (E2 : (2 ^ (-52) == 2 * B64.eps)%Q) by reflexivity.
    rewrite E2. reflexivity. }
  pose proof (pow2_pos (e - 52)) as Hq.
  pose proof (pow2_pos (52 - e)) as Hp.
  pose proof (pow2_pos e) as Hpe.
  assert (Hu : (0 < B64.eps)%Q) by reflexivity.
  set (P := (2 ^ (52 - e))%Q) in *. set (P' := (2 ^ (e - 52))%Q) in *.
  set (E := (2 ^ e)%Q) in *. set (u := B64.eps) in *.
  assert (H1 : ((a * P - (1 # 2)) * P' <= M * P')%Q)
    by (apply Qmult_le_compat_r; lra).
  assert (H2 : (M * P' <= (a * P + (1 # 2)) * P')%Q)
    by (apply Qmult_le_compat_r; lra).
  assert (H3 : (a * P * P' == a)%Q) by (rewrite <- Qmult_assoc, HP; ring).
  assert (H4 : (E * u <= a * u)%Q) by (apply Qmult_le_compat_r; lra).
  assert (H5 : ((a * P - (1 # 2)) * P' == a * P * P' - (1 # 2) * P')%Q) by ring.
  assert (H6 : ((a * P + (1 # 2)) * P' == a * P * P' + (1 # 2) * P')%Q) by ring.
  assert (H7 : (a * (1 - u) == a - a * u)%Q) by ring.
  assert (H8 : (a * (1 + u) == a + a * u)%Q) by ring.
  assert (H9 : (E * (2 * u) == 2 * (E * u))%Q) by ring.
  split; lra.
Qed.

Lemma rne_bounds (x : Q) :
  (0 < x)%Q -> (x * (1 - B64.eps) <= B64.rne x <= x * (1 + B64.eps))%Q.
Proof.
  intros Hx. unfold B64.rne.
  assert (E : Qcompare x 0 = Gt) by (now apply Qgt_alt).
  rewrite E. now apply rne_pos_bounds.
Qed.

Lemma rne_positive (x : Q) : (0 < x)%Q -> (0 < B64.rne x)%Q.
Proof.
  intros Hx. destruct (rne_bounds x Hx) as [Hlo _].
  assert (H1 : (0 < x * (1 - B64.eps))%Q) by (apply Qmult_lt_0_compat; [assumption | reflexivity]).
  lra.
Qed.

Lemma to_int_floor (x : Q) :
  (0 <= x)%Q -> (inject_Z (B64.to_int x) <= x < inject_Z (B64.to_int x) + 1)%Q.
Proof.
  intros Hx.
  assert (E : B64.to_int x = Qfloor x).
  { destruct x as [n d]. unfold B64.to_int, Qfloor. cbn [Qnum Qden].
    apply Z.quot_div_nonneg; [| reflexivity].
    unfold Qle in Hx. cbn in Hx. lia. }
  rewrite E. split; [apply Qfloor_le |].
  pose proof (Qlt_floor x) as Hlt. now rewrite inject_Z_plus in Hlt.
Qed.

Lemma three_roundings_up (K hd pd : Q) :
  (K < 1125899906842624)%Q -> (0 < K)%Q ->
  (pd <= K * ((1 + B64.eps) * (1 + B64.eps) * (1 + B64.eps)))%Q ->
  (hd <= pd)%Q -> (hd < K + 1)%Q.
Proof. unfold B64.eps. intros. lra. Qed.

Lemma three_roundings_down (K hd pd : Q) :
  (K < 1125899906842624)%Q -> (0 < K)%Q ->
  (K * ((1 - B64.eps) * (1 - B64.eps) * (1 - B64.eps)) <= pd)%Q ->
  (pd < hd)%Q -> (K - 1 < hd)%Q.
Proof. unfold B64.eps. intros. lra. Qed.

(** The proportional dimension: with [h = int(c * (t / d))], [h] is the
    exact quotient [c * t / d] rounded down, or one less. *)
Lemma scaled_dimension_tolerance (c t d : Z) :
  0 < c -> 0 < t -> 0 < d -> c * t < 2 ^ 50 ->
  let h := B64.to_int (B64.int_mul c (B64.rne (inject_Z t / inject_Z d))) in
  h * d <= c * t <= (h + 1) * d.
Proof.
  intros Hc Ht Hd HK h.
  assert (Hcq : (0 < inject_Z c)%Q) by (rewrite <- (Zlt_Qlt 0); exact Hc).
  assert (Htq : (0 < inject_Z t)%Q) by (rewrite <- (Zlt_Qlt 0); exact Ht).
  assert (Hdq : (0 < inject_Z d)%Q) by (rewrite <- (Zlt_Qlt 0); exact Hd).
  assert (HKq : (inject_Z c * inject_Z t < 1125899906842624)%Q).
  { rewrite <- inject_Z_mult. change 1125899906842624%Q with (inject_Z (2 ^ 50)).
    rewrite <- Zlt_Qlt. exact HK. }
  set (q := (inject_Z t / inject_Z d)%Q).
  assert (Hq : (0 < q)%Q).
  { unfold q. apply Qlt_shift_div_l; [assumption |]. lra. }
  assert (Hqd : (q * inject_Z d == inject_Z t)%Q).
  { unfold q. field. intros E. rewrite E in Hdq. discriminate. }
  pose proof (rne_bounds q Hq) as [Hrlo Hrhi].
  pose proof (rne_positive q Hq) as Hrpos.
  pose proof (rne_bounds (inject_Z c) Hcq) as [Hclo Hchi].
  pose proof (rne_positive (inject_Z c) Hcq) as Hcpos.
  set (r := B64.rne q) in *. set (cf := B64.rne (inject_Z c)) in *.
  assert (Hprod : (0 < cf * r)%Q) by (now apply Qmult_lt_0_compat).
  pose proof (rne_bounds (cf * r) Hprod) as [Hplo Hphi].
  pose proof (rne_positive (cf * r) Hprod) as Hppos.
  set (p := B64.rne (cf * r)) in *.
  assert (Hh : (inject_Z h <= p < inject_Z h + 1)%Q).
  { apply to_int_floor. apply Qlt_le_weak. exact Hppos. }
  destruct Hh as [Hhlo Hhhi].
  assert (He1 : (0 < 1 - B64.eps)%Q) by reflexivity.
  assert (He2 : (0 < 1 + B64.eps)%Q) by reflexivity.
  (* upper bound on p * d *)
  assert (Hup1 : (cf * r <= inject_Z c * (1 + B64.eps) * (q * (1 + B64.eps)))%Q).
  { apply Qmult_le_compat_nonneg; split; lra. }
  assert (Hup2 : (p * inject_Z d
                  <= inject_Z c * (1 + B64.eps) * (q * (1 + B64.eps)) * (1 + B64.eps) * inject_Z d)%Q).
  { apply Qmult_le_compat_r; [| lra].
    apply Qle_trans with (cf * r * (1 + B64.eps))%Q; [exact Hphi |].
    apply Qmult_le_compat_r; [exact Hup1 | lra]. }
  assert (Hup3 : (inject_Z c * (1 + B64.eps) * (q * (1 + B64.eps)) * (1 + B64.eps) * inject_Z d
                  == inject_Z c * inject_Z t * ((1 + B64.eps) * (1 + B64.eps) * (1 + B64.eps)))%Q).
  { rewrite <- Hqd. ring. }
  (* lower bound on p * d *)
  assert (Hlo1 : (inject_Z c * (1 - B64.eps) * (q * (1 - B64.eps)) <= cf * r)%Q).
  { apply Qmult_le_compat_nonneg; split; try lra.
    - apply Qmult_le_0_compat; lra.
    - apply Qmult_le_0_compat; lra. }
  assert (Hlo2 : (inject_Z c * (1 - B64.eps) * (q * (1 - B64.eps)) * (1 - B64.eps) * inject_Z d
                  <= p * inject_Z d)%Q).
  { apply Qmult_le_compat_r; [| lra].
    apply Qle_trans with (cf * r * (1 - B64.eps))%Q; [| exact Hplo].
    apply Qmult_le_compat_r; [exact Hlo1 | lra]. }
  assert (Hlo3 : (inject_Z c * (1 - B64.eps) * (q * (1 - B64.eps)) * (1 - B64.eps) * inject_Z d
                  == inject_Z c * inject_Z t * ((1 - B64.eps) * (1 - B64.eps) * (1 - B64.eps)))%Q).
  { rewrite <- Hqd. ring. }
  assert (Hhd1 : (inject_Z h * inject_Z d <= p * inject_Z d)%Q)
    by (apply Qmult_le_compat_r; lra).
  assert (Hhd2 : (p * inject_Z d < (inject_Z h + 1) * inject_Z d)%Q)
    by (apply Qmult_lt_compat_r; lra).
  set (K := (inject_Z c * inject_Z t)%Q) in *.
  assert (HK0 : (0 < K)%Q) by (now apply Qmult_lt_0_compat).
  assert (HKz : (inject_Z (c * t) == K)%Q) by (unfold K; now rewrite inject_Z_mult).
  rewrite Hup3 in Hup2. rewrite Hlo3 in Hlo2.
  clear Hup1 Hup3 Hlo1 Hlo3 Hplo Hphi Hrlo Hrhi Hclo Hchi.
  split.
  - assert (Hz : (inject_Z (h * d) < inject_Z (c * t + 1))%Q).
    { rewrite inject_Z_plus, HKz, inject_Z_mult. change (inject_Z 1) with 1%Q.
      eapply three_roundings_up; [exact HKq | exact HK0 | exact Hup2 | exact Hhd1]. }
    rewrite <- Zlt_Qlt in Hz. lia.
  - assert (Hz : (inject_Z (c * t - 1) < inject_Z ((h + 1) * d))%Q).
    { unfold Z.sub. rewrite inject_Z_plus, HKz, inject_Z_mult, inject_Z_plus.
      change (inject_Z (-1)) with (-1)%Q. change (inject_Z 1) with 1%Q.
      eapply three_roundings_down; [exact HKq | exact HK0 | exact Hlo2 | exact Hhd2]. }
    rewrite <- Zlt_Qlt in Hz. lia.
Qed.

Set Implicit Arguments.

(** ** Nested settings *)

Lemma set_nested_get_same (s s' : value) (k1 k2 : string) (x : value) :
  set_nested s k1 k2 x = Ok s' -> get_nested s' k1 k2 = Ok x.
Proof.
  unfold set_nested, get_nested, subscript, store_item.
  destruct s as [| | | | d]; try discriminate. cbn [bind].
  destruct (dict_get k1 d) as [[| | | | inner] |]; try discriminate.
  cbn [bind]. intros [= <-].
  now rewrite dict_get_set_same; cbn [bind]; rewrite dict_get_set_same.
Qed.

Lemma set_nested_get_other (s s' : value) (k1 k2 k1' k2' : string) (x : value) :
  set_nested s k1 k2 x = Ok s' ->
  k1' <> k1 \/ k2' <> k2 ->
  get_nested s' k1' k2' = get_nested s k1' k2'.
Proof.
  unfold set_nested, get_nested, subscript, store_item.
  destruct s as [| | | | d]; try discriminate. cbn [bind].
  destruct (dict_get k1 d) as [[| | | | inner] |] eqn:E1; try discriminate.
  cbn [bind]. intros [= <-] Hne.
  destruct (String.eqb_spec k1' k1) as [-> | H1].
  - destruct Hne as [Hne | Hne]; [contradiction |].
    rewrite dict_get_set_same, E1. cbn [bind].
    now rewrite dict_get_set_other.
  - now rewrite dict_get_set_other.
Qed.

Lemma set_nested_top_other (s s' : value) (k1 k2 k : string) (x : value) :
  set_nested s k1 k2 x = Ok s' ->
  k <> k1 ->
  subscript s' k = subscript s k.
Proof.
  unfold set_nested, subscript, store_item.
  destruct s as [| | | | d]; try discriminate. cbn [bind].
  destruct (dict_get k1 d) as [[| | | | inner] |]; try discriminate.
  cbn [bind]. intros [= <-] Hne. now rewrite dict_get_set_other.
Qed.

Lemma bind_ok {A B} (c : result A) (k : A -> result B) (b : B) :
  bind c k = Ok b -> exists a, c = Ok a /\ k a = Ok b.
Proof. destruct c as [a | e]; simpl; [eauto | discriminate]. Qed.

Section Properties.

Context `{Codec}.

(** ** The search loop of auto mode *)

Lemma Image_resize_size (image resized : Image) (w h : Z) :
  Image_resize image w h = Ok resized ->
  im_width resized = w /\ im_height resized = h.
Proof.
  unfold Image_resize. intros Hr. apply bind_ok in Hr as (data & _ & [= <-]).
  now split.
Qed.

Lemma rounds_one_more (s : search) : rounds (one_more s) = S (rounds s).
Proof. reflexivity. Qed.

Lemma found_one_more (s : search) : found (one_more s) = found s.
Proof. reflexivity. Qed.

Lemma search_loop_rounds (n : nat) (target_size : value) :
  forall (image : Image) (quality : Z),
    (rounds (search_loop n target_size image quality) <= n)%nat.
Proof.
  induction n as [| n IH]; intros image quality; simpl; [lia |].
  destruct (save_buffer _ _ _) as [bytes | e]; simpl; [| lia].
  destruct (as_number target_size) as [target | e]; simpl; [| lia].
  destruct (Z.of_N bytes <=? target); simpl; [lia |].
  destruct (B64.int_gt _ _ && _); [rewrite rounds_one_more; specialize (IH image (Z.max 30 (quality - 15))); lia |].
  destruct ((_ >? _) && _); [rewrite rounds_one_more; specialize (IH image (Z.max 20 (quality - 5))); lia |].
  destruct (scaled_dimensions _ _ _) as [[new_width new_height] | e]; simpl; [| lia].
  destruct ((_ <? _) && _); simpl; [| lia].
  destruct (Image_resize _ _ _) as [resized | e]; simpl; [| lia].
  specialize (IH resized (Z.min 85 (quality + 10))). lia.
Qed.

(** C2: whatever the image, the codec and the target (any value: a
    positive, zero or negative int, or something that is not a number),
    the search loop of auto mode is a bounded [for] loop that encodes and
    measures at most 10 times. *)
Theorem auto_mode_at_most_10_rounds :
  forall (target_size : value) (image : Image) (quality : Z),
    (rounds (search_loop max_iterations target_size image quality) <= 10)%nat.
Proof. intros. apply search_loop_rounds. Qed.

Lemma scaled_dimensions_floor (image : Image) (target current : Z) (w h : Z) :
  scaled_dimensions image target current = Ok (w, h) -> 300 <= w /\ 200 <= h.
Proof.
  unfold scaled_dimensions. intros Hs.
  apply bind_ok in Hs as (quotient & _ & Hs).
  destruct (Qle_bool 0 quotient); [| discriminate].
  injection Hs as <- <-. lia.
Qed.

(** Takes the loop body apart, one goal per way through it. *)
Ltac loop_step IH :=
  simpl;
  destruct (save_buffer _ _ _) as [bytes | e]; simpl; [| discriminate];
  destruct (as_number _) as [target | e]; simpl; [| discriminate];
  destruct (Z.of_N bytes <=? target); simpl;
  [ intros [= <- <-]
  | destruct (B64.int_gt _ _ && _);
    [ rewrite found_one_more; intros Hf; apply IH in Hf
    | destruct ((_ >? _) && _);
      [ rewrite found_one_more; intros Hf; apply IH in Hf
      | destruct (scaled_dimensions _ _ _) as [[new_width new_height] | e] eqn:Hdims;
        simpl; [| discriminate];
        destruct ((new_width <? _) && (new_height <? _)) eqn:Hlt; simpl;
        [ destruct (Image_resize _ _ _) as [resized | e] eqn:Hres; simpl; [| discriminate];
          intros Hf; apply IH in Hf
        | intros [= <- <-] ] ] ] ].

Lemma search_loop_quality (n : nat) (target_size : value) :
  forall (image image' : Image) (quality quality' : Z),
    20 <= quality ->
    found (search_loop n target_size image quality) = Ok (image', quality') ->
    20 <= quality'.
Proof.
  induction n as [| n IH]; intros image image' quality quality' Hq.
  - simpl. now intros [= <- <-].
  - loop_step IH; lia.
Qed.

Lemma search_loop_floor (n : nat) (target_size : value) :
  forall (image image' : Image) (quality quality' : Z),
    300 <= im_width image /\ 200 <= im_height image ->
    found (search_loop n target_size image quality) = Ok (image', quality') ->
    300 <= im_width image' /\ 200 <= im_height image'.
Proof.
  induction n as [| n IH]; intros image image' quality quality' Hdim.
  - simpl. now intros [= <- <-].
  - loop_step IH; auto.
    apply scaled_dimensions_floor in Hdims.
    apply Image_resize_size in Hres as [-> ->]. exact Hdims.
Qed.

Lemma search_loop_small (n : nat) (target_size : value) :
  forall (image image' : Image) (quality quality' : Z),
    im_width image < 300 \/ im_height image < 200 ->
    found (search_loop n target_size image quality) = Ok (image', quality') ->
    image' = image.
Proof.
  induction n as [| n IH]; intros image image' quality quality' Hdim.
  - simpl. now intros [= <- <-].
  - loop_step IH; auto;
      exfalso; apply scaled_dimensions_floor in Hdims;
      apply andb_prop in Hlt as [Hw Hh];
      apply Z.ltb_lt in Hw, Hh; lia.
Qed.

(** C1: when auto mode returns, the quality it has recorded in
    [compression.quality] is at least 20; if the image the loop started
    from (after auto-orientation and the resize of very large images) was
    at least 300 wide and 200 high, so is the returned image, and if it
    was below one of the two floors the returned image is that very image,
    dimensions untouched. *)
Theorem auto_mode_floors :
  forall (image start image' : Image) (settings settings' : value),
    auto_prepare image = Ok start ->
    _process_auto_mode image settings = Ok (image', settings') ->
    (exists quality : Z,
        get_nested settings' "compression" "quality" = Ok (VInt quality) /\
        20 <= quality) /\
    (300 <= im_width start /\ 200 <= im_height start ->
     300 <= im_width image' /\ 200 <= im_height image') /\
    (im_width start < 300 \/ im_height start < 200 ->
     image' = start).
Proof.
  intros image start image' settings settings' Hprep Hauto.
  unfold _process_auto_mode in Hauto.
  apply bind_ok in Hauto as (target_size & _ & Hauto).
  apply bind_ok in Hauto as (forced & _ & Hauto).
  rewrite Hprep in Hauto. cbn [bind] in Hauto.
  apply bind_ok in Hauto as ([found_image quality] & Hloop & Hauto).
  apply bind_ok in Hauto as (s1 & Hs1 & Hauto).
  apply bind_ok in Hauto as (s2 & Hs2 & [= <- <-]).
  split; [| split].
  - exists quality. split.
    + erewrite set_nested_get_other; [| exact Hs2 | right; discriminate].
      eapply set_nested_get_same; exact Hs1.
    + eapply search_loop_quality; [| exact Hloop]; lia.
  - intros Hdim. eapply search_loop_floor; [exact Hdim | exact Hloop].
  - intros Hdim. eapply search_loop_small; [exact Hdim | exact Hloop].
Qed.

(** ** [process_image] *)

Lemma process_image_body_ok (defaults : dict) (input_path : source)
    (settings : value) (name : option string) (record : ProcessingResult) :
  process_image_body defaults input_path settings name = Ok record ->
  exists r : run,
    stages defaults input_path settings name r /\ record = record_of input_path name r.
Proof.
  unfold process_image_body. intros Hb.
  apply bind_ok in Hb as (ps & Hps & Hb).
  apply bind_ok in Hb as (opened & Hopen & Hb).
  apply bind_ok in Hb as (size0 & Hsize & Hb).
  apply bind_ok in Hb as ([image used] & Hmode & Hb).
  apply bind_ok in Hb as (fs & Hfs & Hb).
  apply bind_ok in Hb as (fmt & Hfmt & Hb).
  apply bind_ok in Hb as (kwargs & Hkw & Hb).
  apply bind_ok in Hb as (saved & Hstrip & Hb).
  apply bind_ok in Hb as (bytes & Hsave & Hb).
  apply bind_ok in Hb as (ratio & Hratio & [= <-]).
  exists (mkRun ps opened size0 image used fmt kwargs saved bytes ratio).
  unfold stages, record_of, r_filename. cbn.
  repeat split; eauto.
Qed.

Lemma process_image_body_stages (defaults : dict) (input_path : source)
    (settings : value) (name : option string) (r : run) :
  stages defaults input_path settings name r ->
  process_image_body defaults input_path settings name = Ok (record_of input_path name r).
Proof.
  unfold stages, process_image_body, record_of, r_filename.
  intros (Hps & Hopen & Hsize & Hmode & (fs & Hfs & Hfmt) & Hkw & Hstrip & Hsave & Hratio).
  rewrite Hps; cbn [bind]. rewrite Hopen; cbn [bind]. rewrite Hsize; cbn [bind].
  rewrite Hmode; cbn [bind]. rewrite Hfs; cbn [bind]. rewrite Hfmt; cbn [bind].
  rewrite Hkw; cbn [bind]. rewrite Hstrip; cbn [bind]. rewrite Hsave; cbn [bind].
  rewrite Hratio; cbn [bind]. reflexivity.
Qed.

(** C3: [process_image] always returns a record.  Either every stage went
    through and the record is the success record, or some stage raised and
    the record is the failure record carrying that exception's message and
    the name of its type; this holds in particular for a failure of the
    decoder, of the mode stage (resizes and trial encodes) and of the final
    save onto the file system. *)
Theorem process_image_catches_all :
  forall (defaults : dict) (input_path : source) (settings : value)
         (name : option string),
    ((exists r : run,
         stages defaults input_path settings name r /\
         process_image_with defaults input_path settings name
         = record_of input_path name r) \/
     (exists e : exn,
         process_image_body defaults input_path settings name = Raise e /\
         process_image_with defaults input_path settings name
         = Failure (exn_msg e) (exn_type e))) /\
    (forall ps e,
        resolve_settings defaults settings = Ok ps ->
        Image_open input_path = Raise e ->
        process_image_with defaults input_path settings name
        = Failure (exn_msg e) (exn_type e)) /\
    (forall ps opened size0 e,
        resolve_settings defaults settings = Ok ps ->
        Image_open input_path = Ok opened ->
        _get_image_size opened = Ok size0 ->
        run_mode opened ps = Raise e ->
        process_image_with defaults input_path settings name
        = Failure (exn_msg e) (exn_type e)) /\
    (forall ps opened size0 image used fs fmt kwargs saved e,
        resolve_settings defaults settings = Ok ps ->
        Image_open input_path = Ok opened ->
        _get_image_size opened = Ok size0 ->
        run_mode opened ps = Ok (image, used) ->
        subscript used "format" = Ok fs ->
        _determine_output_format (im_format opened) fs = Ok fmt ->
        _get_save_kwargs fmt used = Ok kwargs ->
        remove_metadata_if_requested used image = Ok saved ->
        save_file
          (output_path_of (output_filename_of name (original_filename_of input_path) fmt))
          saved fmt (save_all_frames fmt saved) kwargs = Raise e ->
        process_image_with defaults input_path settings name
        = Failure (exn_msg e) (exn_type e)).
Proof.
  intros defaults input_path settings name.
  split; [| split; [| split]].
  - unfold process_image_with.
    destruct (process_image_body defaults input_path settings name) as [record | e] eqn:Hb.
    + left. apply process_image_body_ok in Hb as (r & Hr & ->). eauto.
    + right. eauto.
  - intros ps e Hps Hopen. unfold process_image_with, process_image_body.
    rewrite Hps; cbn [bind]. rewrite Hopen. reflexivity.
  - intros ps opened size0 e Hps Hopen Hsize Hmode.
    unfold process_image_with, process_image_body.
    rewrite Hps; cbn [bind]. rewrite Hopen; cbn [bind]. rewrite Hsize; cbn [bind].
    rewrite Hmode. reflexivity.
  - intros ps opened size0 image used fs fmt kwargs saved e
      Hps Hopen Hsize Hmode Hfs Hfmt Hkw Hstrip Hsave.
    unfold process_image_with, process_image_body.
    rewrite Hps; cbn [bind]. rewrite Hopen; cbn [bind]. rewrite Hsize; cbn [bind].
    rewrite Hmode; cbn [bind]. rewrite Hfs; cbn [bind]. rewrite Hfmt; cbn [bind].
    rewrite Hkw; cbn [bind]. rewrite Hstrip; cbn [bind]. rewrite Hsave. reflexivity.
Qed.

(** ** Settings in the two modes *)

Lemma auto_mode_writes (image image' : Image) (settings settings' : value) :
  _process_auto_mode image settings = Ok (image', settings') ->
  exists (quality : Z) (s1 s2 s3 s4 s5 : value),
    set_nested settings "format" "outputFormat" (VStr "webp") = Ok s1 /\
    set_nested s1 "optimization" "removeMetadata" (VBool true) = Ok s2 /\
    set_nested s2 "optimization" "autoOrient" (VBool true) = Ok s3 /\
    set_nested s3 "optimization" "progressive" (VBool true) = Ok s4 /\
    set_nested s4 "compression" "quality" (VInt quality) = Ok s5 /\
    set_nested s5 "compression" "enabled" (VBool true) = Ok settings'.
Proof.
  unfold _process_auto_mode, force_auto_settings. intros Hauto.
  apply bind_ok in Hauto as (target_size & _ & Hauto).
  apply bind_ok in Hauto as (s4 & Hforce & Hauto).
  apply bind_ok in Hforce as (s1 & H1 & Hforce).
  apply bind_ok in Hforce as (s2 & H2 & Hforce).
  apply bind_ok in Hforce as (s3 & H3 & H4).
  apply bind_ok in Hauto as (start & _ & Hauto).
  apply bind_ok in Hauto as ([found_image quality] & _ & Hauto).
  apply bind_ok in Hauto as (s5 & H5 & Hauto).
  apply bind_ok in Hauto as (s6 & H6 & [= _ <-]).
  exists quality, s1, s2, s3, s4, s5. auto 10.
Qed.

(** A returning auto mode, step by step. *)
Lemma auto_mode_inversion (image image' : Image) (settings settings' : value) :
  _process_auto_mode image settings = Ok (image', settings') ->
  exists (target_size : value) (start : Image) (quality : Z) (s1 s2 s3 s4 s5 : value),
    get_default settings "targetFileSize" (VInt (150 * 1024)) = Ok target_size /\
    auto_prepare image = Ok start /\
    found (search_loop max_iterations target_size start 95) = Ok (image', quality) /\
    set_nested settings "format" "outputFormat" (VStr "webp") = Ok s1 /\
    set_nested s1 "optimization" "removeMetadata" (VBool true) = Ok s2 /\
    set_nested s2 "optimization" "autoOrient" (VBool true) = Ok s3 /\
    set_nested s3 "optimization" "progressive" (VBool true) = Ok s4 /\
    set_nested s4 "compression" "quality" (VInt quality) = Ok s5 /\
    set_nested s5 "compression" "enabled" (VBool true) = Ok settings'.
Proof.
  unfold _process_auto_mode, force_auto_settings. intros Hauto.
  apply bind_ok in Hauto as (target_size & Htarget & Hauto).
  apply bind_ok in Hauto as (s4 & Hforce & Hauto).
  apply bind_ok in Hforce as (s1 & H1 & Hforce).
  apply bind_ok in Hforce as (s2 & H2 & Hforce).
  apply bind_ok in Hforce as (s3 & H3 & H4).
  apply bind_ok in Hauto as (start & Hstart & Hauto).
  apply bind_ok in Hauto as ([found_image quality] & Hloop & Hauto).
  apply bind_ok in Hauto as (s5 & H5 & Hauto).
  apply bind_ok in Hauto as (s6 & H6 & [= <- <-]).
  exists target_size, start, quality, s1, s2, s3, s4, s5. auto 12.
Qed.

Lemma run_mode_auto (image image' : Image) (settings settings' : value) :
  mode_is_auto settings = true ->
  run_mode image settings = Ok (image', settings') ->
  _process_auto_mode image settings = Ok (image', settings').
Proof.
  unfold mode_is_auto, run_mode.
  destruct (get_default settings "mode" VNone) as [mode | e]; [| discriminate].
  cbn [bind]. now intros ->.
Qed.

Lemma run_mode_manual (image image' : Image) (settings settings' : value) :
  mode_is_auto settings = false ->
  run_mode image settings = Ok (image', settings') ->
  manual_mode image settings = Ok image' /\ settings' = settings.
Proof.
  unfold mode_is_auto, run_mode.
  destruct (get_default settings "mode" VNone) as [mode | e]; [| discriminate].
  cbn [bind]. intros -> Hm.
  apply bind_ok in Hm as (im & Hm & [= <- <-]). auto.
Qed.

Lemma webp_requested (original_format : option string) (settings format_settings : value) :
  get_nested settings "format" "outputFormat" = Ok (VStr "webp") ->
  subscript settings "format" = Ok format_settings ->
  _determine_output_format original_format format_settings = Ok "WEBP".
Proof.
  unfold get_nested. intros Hget Hfs. rewrite Hfs in Hget. cbn [bind] in Hget.
  unfold subscript in Hget.
  destruct format_settings as [| | | | d]; try discriminate.
  destruct (dict_get "outputFormat" d) as [x |] eqn:E; [| discriminate].
  injection Hget as ->.
  unfold _determine_output_format, get_default. rewrite E. reflexivity.
Qed.

(** C4: when the merged settings say [mode: auto] and the mode stage
    returns, the settings it returns hold [format.outputFormat = 'webp']
    and [True] for [optimization.removeMetadata], [optimization.autoOrient]
    and [optimization.progressive], whatever the caller had put there, and
    the format the pipeline then resolves is WEBP. *)
Theorem auto_mode_forces_webp :
  forall (defaults : dict) (input_path : source) (settings : value)
         (name : option string) (r : run),
    stages defaults input_path settings name r ->
    mode_is_auto (r_settings r) = true ->
    r_format r = "WEBP" /\
    get_nested (r_settings_used r) "format" "outputFormat" = Ok (VStr "webp") /\
    get_nested (r_settings_used r) "optimization" "removeMetadata" = Ok (VBool true) /\
    get_nested (r_settings_used r) "optimization" "autoOrient" = Ok (VBool true) /\
    get_nested (r_settings_used r) "optimization" "progressive" = Ok (VBool true).
Proof.
  intros defaults input_path settings name r
    (_ & _ & _ & Hmode & (fs & Hfs & Hfmt) & _) Hauto.
  apply (run_mode_auto _ _ Hauto) in Hmode.
  apply auto_mode_writes in Hmode
    as (quality & s1 & s2 & s3 & s4 & s5 & H1 & H2 & H3 & H4 & H5 & H6).
  assert (Hwebp : get_nested (r_settings_used r) "format" "outputFormat"
                  = Ok (VStr "webp")).
  { erewrite set_nested_get_other; [| exact H6 | left; discriminate].
    erewrite set_nested_get_other; [| exact H5 | left; discriminate].
    erewrite set_nested_get_other; [| exact H4 | left; discriminate].
    erewrite set_nested_get_other; [| exact H3 | left; discriminate].
    erewrite set_nested_get_other; [| exact H2 | left; discriminate].
    eapply set_nested_get_same; exact H1. }
  split; [| split; [| split; [| split]]].
  - rewrite (webp_requested _ _ Hwebp Hfs) in Hfmt. now injection Hfmt.
  - exact Hwebp.
  - erewrite set_nested_get_other; [| exact H6 | left; discriminate].
    erewrite set_nested_get_other; [| exact H5 | left; discriminate].
    erewrite set_nested_get_other; [| exact H4 | right; discriminate].
    erewrite set_nested_get_other; [| exact H3 | right; discriminate].
    eapply set_nested_get_same; exact H2.
  - erewrite set_nested_get_other; [| exact H6 | left; discriminate].
    erewrite set_nested_get_other; [| exact H5 | left; discriminate].
    erewrite set_nested_get_other; [| exact H4 | right; discriminate].
    eapply set_nested_get_same; exact H3.
  - erewrite set_nested_get_other; [| exact H6 | left; discriminate].
    erewrite set_nested_get_other; [| exact H5 | left; discriminate].
    eapply set_nested_get_same; exact H4.
Qed.

Lemma not_written (k1 k2 a b : string) (rest : list (string * string)) :
  ~ In (k1, k2) ((a, b) :: rest) -> (k1 <> a \/ k2 <> b) /\ ~ In (k1, k2) rest.
Proof.
  intros Hnot. split.
  - destruct (string_dec k1 a) as [-> | Hne]; [| now left].
    right. intros ->. apply Hnot. now left.
  - intros Hin. apply Hnot. now right.
Qed.

Ltac top_key :=
  let E := fresh in
  intros E;
  match goal with
  | Hnot : ~ In _ _ |- _ => apply Hnot; rewrite E; simpl; auto 6
  end.

(** C5, as the code has it: in manual mode the settings the pipeline
    returns are the merged settings, unchanged; in auto mode they differ
    from the merged settings at most in the six fields that auto mode
    assigns ([format.outputFormat], [optimization.removeMetadata],
    [optimization.autoOrient], [optimization.progressive],
    [compression.quality], [compression.enabled]): every other nested
    field and every other top-level entry reads as it did after the
    merge.  And auto mode does assign the six: they read ['webp'], [True]
    four times, and the quality the search loop returned. *)
Theorem pipeline_settings_frame :
  forall (defaults : dict) (input_path : source) (settings : value)
         (name : option string) (r : run),
    stages defaults input_path settings name r ->
    (mode_is_auto (r_settings r) = false -> r_settings_used r = r_settings r) /\
    (forall k1 k2 : string,
        ~ In (k1, k2) auto_written ->
        get_nested (r_settings_used r) k1 k2 = get_nested (r_settings r) k1 k2) /\
    (forall k : string,
        ~ In k ["format"; "optimization"; "compression"] ->
        subscript (r_settings_used r) k = subscript (r_settings r) k) /\
    (mode_is_auto (r_settings r) = true ->
     exists (quality : Z) (target_size : value) (start : Image),
       get_default (r_settings r) "targetFileSize" (VInt (150 * 1024)) = Ok target_size /\
       auto_prepare (r_opened r) = Ok start /\
       found (search_loop max_iterations target_size start 95) = Ok (r_image r, quality) /\
       get_nested (r_settings_used r) "format" "outputFormat" = Ok (VStr "webp") /\
       get_nested (r_settings_used r) "optimization" "removeMetadata" = Ok (VBool true) /\
       get_nested (r_settings_used r) "optimization" "autoOrient" = Ok (VBool true) /\
       get_nested (r_settings_used r) "optimization" "progressive" = Ok (VBool true) /\
       get_nested (r_settings_used r) "compression" "enabled" = Ok (VBool true) /\
       get_nested (r_settings_used r) "compression" "quality" = Ok (VInt quality)).
Proof.
  intros defaults input_path settings name r (_ & _ & _ & Hmode & _).
  destruct (mode_is_auto (r_settings r)) eqn:Hauto.
  - apply (run_mode_auto _ _ Hauto) in Hmode.
    apply auto_mode_inversion in Hmode
      as (target_size & start & quality & s1 & s2 & s3 & s4 & s5
          & Htarget & Hstart & Hloop & H1 & H2 & H3 & H4 & H5 & H6).
    split; [discriminate | split; [| split]].
    + intros k1 k2 Hnot. unfold auto_written in Hnot.
      apply not_written in Hnot as [N1 Hnot].
      apply not_written in Hnot as [N2 Hnot].
      apply not_written in Hnot as [N3 Hnot].
      apply not_written in Hnot as [N4 Hnot].
      apply not_written in Hnot as [N5 Hnot].
      apply not_written in Hnot as [N6 _].
      erewrite set_nested_get_other; [| exact H6 | exact N6].
      erewrite set_nested_get_other; [| exact H5 | exact N5].
      erewrite set_nested_get_other; [| exact H4 | exact N4].
      erewrite set_nested_get_other; [| exact H3 | exact N3].
      erewrite set_nested_get_other; [| exact H2 | exact N2].
      eapply set_nested_get_other; [exact H1 | exact N1].
    + intros k Hnot.
      erewrite set_nested_top_other; [| exact H6 | top_key].
      erewrite set_nested_top_other; [| exact H5 | top_key].
      erewrite set_nested_top_other; [| exact H4 | top_key].
      erewrite set_nested_top_other; [| exact H3 | top_key].
      erewrite set_nested_top_other; [| exact H2 | top_key].
      eapply set_nested_top_other; [exact H1 | top_key].
    + intros _. exists quality, target_size, start.
      split; [exact Htarget |]. split; [exact Hstart |]. split; [exact Hloop |].
      split; [| split; [| split; [| split; [| split]]]].
      * erewrite set_nested_get_other; [| exact H6 | left; discriminate].
        erewrite set_nested_get_other; [| exact H5 | left; discriminate].
        erewrite set_nested_get_other; [| exact H4 | left; discriminate].
        erewrite set_nested_get_other; [| exact H3 | left; discriminate].
        erewrite set_nested_get_other; [| exact H2 | left; discriminate].
        eapply set_nested_get_same; exact H1.
      * erewrite set_nested_get_other; [| exact H6 | left; discriminate].
        erewrite set_nested_get_other; [| exact H5 | left; discriminate].
        erewrite set_nested_get_other; [| exact H4 | right; discriminate].
        erewrite set_nested_get_other; [| exact H3 | right; discriminate].
        eapply set_nested_get_same; exact H2.
      * erewrite set_nested_get_other; [| exact H6 | left; discriminate].
        erewrite set_nested_get_other; [| exact H5 | left; discriminate].
        erewrite set_nested_get_other; [| exact H4 | right; discriminate].
        eapply set_nested_get_same; exact H3.
      * erewrite set_nested_get_other; [| exact H6 | left; discriminate].
        erewrite set_nested_get_other; [| exact H5 | left; discriminate].
        eapply set_nested_get_same; exact H4.
      * eapply set_nested_get_same; exact H6.
      * erewrite set_nested_get_other; [| exact H6 | right; discriminate].
        eapply set_nested_get_same; exact H5.
  - apply (run_mode_manual _ _ Hauto) in Hmode as [_ ->].
    split; [reflexivity |]. split; [reflexivity |]. split; [reflexivity |].
    discriminate.
Qed.

(** ** Metadata removal *)

Lemma alpha_mode_test (image : Image) :
  alpha_mode image <->
  String.eqb (im_mode image) "RGBA" || String.eqb (im_mode image) "LA" = true.
Proof.
  unfold alpha_mode. rewrite orb_true_iff, !String.eqb_eq. reflexivity.
Qed.

(** X17, what the code does for C8: when [optimization.removeMetadata] is
    truthy in the settings the mode stage returned (auto or manual alike),
    the image handed to the final save is the stripped image.  Stripping an
    image of mode RGBA or LA gives an RGB image: the paste of the image,
    with its last band as mask, onto a background that is white everywhere;
    any other mode gives an image of the same mode with the same pixel
    values.  In both cases the size is kept and no metadata is attached. *)
Theorem metadata_stripped_before_save :
  (forall image : Image,
      let background := Image_new "RGB" (im_size image) white in
      (alpha_mode image ->
         im_mode (strip_metadata image) = "RGB" /\
         im_data (strip_metadata image)
         = paste_data background image (last_band image) /\
         Forall (eq white) (im_data background)) /\
      (~ alpha_mode image ->
         im_mode (strip_metadata image) = im_mode image /\
         im_data (strip_metadata image) = im_data image) /\
      im_size (strip_metadata image) = im_size image /\
      im_info (strip_metadata image) = [] /\
      im_format (strip_metadata image) = None) /\
  (forall (defaults : dict) (input_path : source) (settings : value)
          (name : option string) (r : run) (remove_metadata : value),
      stages defaults input_path settings name r ->
      get_nested (r_settings_used r) "optimization" "removeMetadata"
      = Ok remove_metadata ->
      truthy remove_metadata = true ->
      r_saved r = strip_metadata (r_image r) /\
      save_file (output_path_of (r_filename input_path name r))
        (strip_metadata (r_image r)) (r_format r)
        (save_all_frames (r_format r) (strip_metadata (r_image r))) (r_kwargs r)
      = Ok (r_bytes r)).
Proof.
  split.
  - intros image background. unfold strip_metadata.
    split; [| split].
    + intros Ha. apply alpha_mode_test in Ha. rewrite Ha. cbn.
      repeat split. apply Forall_forall. intros px Hin.
      now apply repeat_spec in Hin.
    + intros Hn.
      destruct (String.eqb (im_mode image) "RGBA" || String.eqb (im_mode image) "LA")
        eqn:E; [exfalso; apply Hn; now apply alpha_mode_test |].
      now cbn.
    + destruct (String.eqb (im_mode image) "RGBA" || String.eqb (im_mode image) "LA");
        cbn; repeat split; now destruct image.
  - intros defaults input_path settings name r rm
      (_ & _ & _ & _ & _ & _ & Hstrip & Hsave & _) Hrm Htruthy.
    unfold remove_metadata_if_requested in Hstrip.
    rewrite Hrm in Hstrip. cbn [bind] in Hstrip. rewrite Htruthy in Hstrip.
    injection Hstrip as Hsaved. rewrite <- Hsaved in Hsave |- *. auto.
Qed.

(** ** The reported sizes *)

(** C10: the [file_size] reported for the original is the length of a
    fresh in-memory encoding of the decoded image, in the image's own
    format or JPEG when it has none; the bytes of the input enter only
    through the decoder.  The reported ratio is
    [round((1 - final / original) * 100, 2)], or 0 when that size is 0. *)
Theorem original_size_is_reencoded :
  (forall (defaults : dict) (input_path : source) (settings : value)
          (name : option string)
          (out fname : string) (original processed : FileInfo)
          (used : value) (ratio : Q),
      process_image_with defaults input_path settings name
      = Success out fname original processed used ratio ->
      exists (opened : Image) (n : N),
        Image_open input_path = Ok opened /\
        save_buffer opened
          (match im_format opened with
           | Some f => if String.eqb f "" then "JPEG" else f
           | None => "JPEG"
           end) [] = Ok n /\
        fi_file_size original = Z.of_N n /\
        ratio =
        (if Z.of_N n =? 0 then 0%Q
         else B64.round2
                (B64.mul
                   (B64.sub 1 (B64.rne (inject_Z (fi_file_size processed)
                                        / inject_Z (Z.of_N n))))
                   100))) /\
  (forall (defaults : dict) (content content' : list Z) (settings : value)
          (name : option string),
      Image_open (Stream content) = Image_open (Stream content') ->
      process_image_with defaults (Stream content) settings name
      = process_image_with defaults (Stream content') settings name).
Proof.
  split.
  - intros defaults input_path settings name out fname original processed used ratio.
    unfold process_image_with.
    destruct (process_image_body defaults input_path settings name)
      as [record | e] eqn:Hb; [| discriminate].
    intros ->. apply process_image_body_ok in Hb as (r & Hr & Hrec).
    destruct Hr as (_ & Hopen & Hsize & _ & _ & _ & _ & _ & Hratio).
    unfold record_of in Hrec. injection Hrec as -> -> -> -> -> ->.
    unfold _get_image_size in Hsize.
    apply bind_ok in Hsize as (n & Hn & [= Hsz]).
    exists (r_opened r), n. cbn [fi_file_size].
    repeat split; auto.
    unfold compression_ratio_of in Hratio. rewrite <- Hsz in Hratio.
    destruct (Z.of_N n >? 0) eqn:Hpos.
    + apply Z.gtb_lt in Hpos.
      destruct (Z.eqb_spec (Z.of_N n) 0) as [E | _]; [lia |].
      unfold B64.true_div in Hratio.
      destruct (Z.eqb_spec (Z.of_N n) 0) as [E | _]; [lia |].
      cbn [bind] in Hratio. now injection Hratio.
    + assert (E : Z.of_N n = 0) by (rewrite Z.gtb_ltb, Z.ltb_ge in Hpos; lia).
      rewrite E. now injection Hratio.
  - intros defaults content content' settings name Hopen.
    unfold process_image_with, process_image_body, original_filename_of.
    now rewrite Hopen.
Qed.

(** ** Resizing *)

Lemma resize_by_width (image : Image) (rs th m : value) (tw : Z) :
  get_default rs "width" VNone = Ok (VInt tw) -> 0 < tw ->
  get_default rs "height" VNone = Ok th -> truthy th = false ->
  get_default rs "maintainAspectRatio" (VBool true) = Ok m -> truthy m = true ->
  im_width image <> 0 ->
  _resize_image image rs =
  Image_resize image tw
    (B64.to_int (B64.int_mul (im_height image)
                   (B64.rne (inject_Z tw / inject_Z (im_width image))))).
Proof.
  intros Hw Htw Hh Hth Hm Htm Hcw. unfold _resize_image.
  rewrite Hw, Hh, Hm. cbn [bind]. rewrite Hth, Htm. cbn [truthy].
  destruct (Z.eqb_spec tw 0) as [E | _]; [lia |]. cbn [negb andb as_number bind].
  unfold B64.true_div.
  destruct (Z.eqb_spec (im_width image) 0) as [E | _]; [contradiction |].
  reflexivity.
Qed.

Lemma resize_by_height (image : Image) (rs tw m : value) (th : Z) :
  get_default rs "width" VNone = Ok tw -> truthy tw = false ->
  get_default rs "height" VNone = Ok (VInt th) -> 0 < th ->
  get_default rs "maintainAspectRatio" (VBool true) = Ok m -> truthy m = true ->
  im_height image <> 0 ->
  _resize_image image rs =
  Image_resize image
    (B64.to_int (B64.int_mul (im_width image)
                   (B64.rne (inject_Z th / inject_Z (im_height image)))))
    th.
Proof.
  intros Hw Htw Hh Hth Hm Htm Hch. unfold _resize_image.
  rewrite Hw, Hh, Hm. cbn [bind]. rewrite Htw, Htm. cbn [truthy].
  destruct (Z.eqb_spec th 0) as [E | _]; [lia |]. cbn [negb andb as_number bind].
  unfold B64.true_div.
  destruct (Z.eqb_spec (im_height image) 0) as [E | _]; [contradiction |].
  reflexivity.
Qed.

Lemma strip_metadata_size (image : Image) :
  im_size (strip_metadata image) = im_size image.
Proof.
  unfold strip_metadata.
  destruct (String.eqb (im_mode image) "RGBA" || String.eqb (im_mode image) "LA");
    now destruct image.
Qed.

Lemma remove_metadata_size (settings : value) (image saved : Image) :
  remove_metadata_if_requested settings image = Ok saved ->
  im_size saved = im_size image.
Proof.
  unfold remove_metadata_if_requested. intros Hr.
  apply bind_ok in Hr as (rm & _ & [= <-]).
  destruct (truthy rm); [apply strip_metadata_size | reflexivity].
Qed.

Lemma scenario_manual_mode (image image' : Image) :
  im_size (_auto_orient image) = (1600, 1200) ->
  manual_mode image (VDict scenario_merged) = Ok image' ->
  im_size image' = (800, 600).
Proof.
  intros Hsize. unfold im_size in Hsize. injection Hsize as Hw Hh.
  unfold manual_mode.
  change (get_nested (VDict scenario_merged) "optimization" "autoOrient")
    with (Ok (VBool true)).
  change (get_nested (VDict scenario_merged) "resize" "enabled")
    with (Ok (VBool true)).
  change (get_nested (VDict scenario_merged) "compression" "enabled")
    with (Ok (VBool true)).
  cbn [bind truthy].
  set (rs := VDict [("enabled", VBool true); ("width", VInt 800);
                    ("height", VNone); ("maintainAspectRatio", VBool true)]).
  change (subscript (VDict scenario_merged) "resize") with (Ok rs).
  cbn [bind].
  rewrite (@resize_by_width (_auto_orient image) rs VNone (VBool true) 800)
    by (try reflexivity; lia).
  rewrite Hw, Hh.
  replace (B64.to_int (B64.int_mul 1200 (B64.rne (inject_Z 800 / inject_Z 1600))))
    with 600 by (vm_compute; reflexivity).
  intros Hm. apply bind_ok in Hm as (resized & Hres & Hm).
  apply Image_resize_size in Hres as [Hrw Hrh].
  set (cs := VDict [("enabled", VBool true); ("quality", VInt 85);
                    ("maxWidth", VInt 1920); ("maxHeight", VInt 1080)]) in *.
  change (subscript (VDict scenario_merged) "compression") with (Ok cs) in Hm.
  cbn [bind] in Hm. unfold _compress_image in Hm.
  change (get_default cs "maxWidth" (VInt 1920)) with (Ok (VInt 1920)) in Hm.
  change (get_default cs "maxHeight" (VInt 1080)) with (Ok (VInt 1080)) in Hm.
  cbn [bind as_number] in Hm. rewrite Hrw, Hrh in Hm. cbn in Hm.
  injection Hm as <-. unfold im_size. now rewrite Hrw, Hrh.
Qed.

(** C9, as the code has it: with [maintainAspectRatio] on and only one
    target dimension given, the resized image has exactly that dimension,
    and the other one is the proportional value rounded down, or one pixel
    less (the quotient and the product are rounded as floats before
    [int()]); this for positive dimensions whose product stays below 2^50.
    With the settings of the scenario, whose [autoOrient] is on by default,
    an input that is 1600x1200 once oriented comes out as exactly
    800x600. *)
Theorem resize_keeps_aspect_ratio :
  (forall (image resized : Image) (rs th m : value) (tw : Z),
      get_default rs "width" VNone = Ok (VInt tw) -> 0 < tw ->
      get_default rs "height" VNone = Ok th -> truthy th = false ->
      get_default rs "maintainAspectRatio" (VBool true) = Ok m -> truthy m = true ->
      0 < im_width image -> 0 < im_height image ->
      im_height image * tw < 2 ^ 50 ->
      _resize_image image rs = Ok resized ->
      im_width resized = tw /\
      im_height resized * im_width image <= im_height image * im_width resized /\
      im_height image * im_width resized <= (im_height resized + 1) * im_width image) /\
  (forall (image resized : Image) (rs tw m : value) (th : Z),
      get_default rs "width" VNone = Ok tw -> truthy tw = false ->
      get_default rs "height" VNone = Ok (VInt th) -> 0 < th ->
      get_default rs "maintainAspectRatio" (VBool true) = Ok m -> truthy m = true ->
      0 < im_width image -> 0 < im_height image ->
      im_width image * th < 2 ^ 50 ->
      _resize_image image rs = Ok resized ->
      im_height resized = th /\
      im_width resized * im_height image <= im_width image * im_height resized /\
      im_width image * im_height resized <= (im_width resized + 1) * im_height image) /\
  (forall (input_path : source) (name : option string) (opened : Image)
          (out fname : string) (original processed : FileInfo)
          (used : value) (ratio : Q),
      Image_open input_path = Ok opened ->
      im_size (_auto_orient opened) = (1600, 1200) ->
      process_image input_path (VDict scenario_override) name
      = Success out fname original processed used ratio ->
      fi_size processed = (800, 600)).
Proof.
  split; [| split].
  - intros image resized rs th m tw Hw Htw Hh Hth Hm Htm Hcw Hch Hbound Hres.
    erewrite resize_by_width in Hres; try eassumption; try lia.
    apply Image_resize_size in Hres as [-> ->].
    pose proof (scaled_dimension_tolerance (im_height image) tw (im_width image)
                  Hch Htw Hcw Hbound) as Htol.
    cbv zeta in Htol. lia.
  - intros image resized rs tw m th Hw Htw Hh Hth Hm Htm Hcw Hch Hbound Hres.
    erewrite resize_by_height in Hres; try eassumption; try lia.
    apply Image_resize_size in Hres as [-> ->].
    pose proof (scaled_dimension_tolerance (im_width image) th (im_height image)
                  Hcw Hth Hch Hbound) as Htol.
    cbv zeta in Htol. lia.
  - intros input_path name opened out fname original processed used ratio
      Hopen Hsize.
    unfold process_image, process_image_with.
    destruct (process_image_body _ _ _ _) as [record | e] eqn:Hb; [| discriminate].
    intros ->. apply process_image_body_ok in Hb as (r & Hst & Hrec).
    unfold record_of in Hrec. injection Hrec as _ _ _ -> _ _. cbn [fi_size].
    destruct Hst as (Hps & Hopen' & _ & Hmode & _ & _ & Hstrip & _).
    rewrite Hopen in Hopen'. injection Hopen' as Hopened.
    unfold resolve_settings in Hps. cbn [truthy scenario_override] in Hps.
    injection Hps as Hps. fold scenario_override scenario_merged in Hps.
    rewrite <- Hps, <- Hopened in Hmode.
    apply run_mode_manual in Hmode as [Hmanual _]; [| reflexivity].
    rewrite (remove_metadata_size _ _ Hstrip).
    now apply (scenario_manual_mode opened).
Qed.

End Properties.

(** * The theorems at concrete inputs *)

(** A run of the demo codec that succeeds has gone through its stages. *)
Lemma demo_run (input_path : source) (settings : value) (name : option string) :
  (exists record,
      @process_image_body Demo.codec DEFAULT_SETTINGS input_path settings name = Ok record) ->
  exists r : run,
    @stages Demo.codec DEFAULT_SETTINGS input_path settings name r /\
    @process_image Demo.codec input_path settings name
    = @record_of Demo.codec input_path name r.
Proof.
  intros [record Hb].
  destruct (@process_image_body_ok Demo.codec _ _ _ _ _ Hb) as (r & Hst & Hrec).
  exists r. split; [exact Hst |].
  unfold process_image, process_image_with. now rewrite Hb, Hrec.
Defined.

Lemma auto_mode_floors_witness :
  exists (image' : Image) (settings' : value),
    @auto_prepare Demo.codec large = Ok large /\
    @_process_auto_mode Demo.codec large (VDict DEFAULT_SETTINGS) = Ok (image', settings') /\
    (exists quality : Z,
        get_nested settings' "compression" "quality" = Ok (VInt quality) /\
        20 <= quality) /\
    (300 <= im_width large /\ 200 <= im_height large ->
     300 <= im_width image' /\ 200 <= im_height image') /\
    (im_width large < 300 \/ im_height large < 200 -> image' = large).
Proof.
  assert (Hprep : @auto_prepare Demo.codec large = Ok large) by reflexivity.
  destruct (@_process_auto_mode Demo.codec large (VDict DEFAULT_SETTINGS))
    as [[image' settings'] | e] eqn:Hauto.
  - exists image', settings'.
    split; [exact Hprep |]. split; [reflexivity |].
    exact (@auto_mode_floors Demo.codec large large image'
             (VDict DEFAULT_SETTINGS) settings' Hprep Hauto).
  - vm_compute in Hauto. discriminate Hauto.
Defined.

Lemma process_image_catches_all_witness :
  @resolve_settings DEFAULT_SETTINGS VNone = Ok (VDict DEFAULT_SETTINGS) /\
  @Image_open Demo.codec (Stream [])
  = Raise (Exn "UnidentifiedImageError" "cannot identify image file") /\
  @process_image_with Demo.codec DEFAULT_SETTINGS (Stream []) VNone None
  = Failure "cannot identify image file" "UnidentifiedImageError".
Proof.
  split; [reflexivity |]. split; [reflexivity |].
  exact (proj1 (proj2 (@process_image_catches_all Demo.codec DEFAULT_SETTINGS
                         (Stream []) VNone None))
           (VDict DEFAULT_SETTINGS)
           (Exn "UnidentifiedImageError" "cannot identify image file")
           eq_refl eq_refl).
Defined.

Lemma auto_mode_forces_webp_witness :
  exists r : run,
    @stages Demo.codec DEFAULT_SETTINGS (Stream [400; 300]) png_no_optimization None r /\
    mode_is_auto (r_settings r) = true /\
    get_nested (r_settings r) "format" "outputFormat" = Ok (VStr "png") /\
    get_nested (r_settings r) "optimization" "removeMetadata" = Ok (VBool false) /\
    r_format r = "WEBP" /\
    get_nested (r_settings_used r) "format" "outputFormat" = Ok (VStr "webp") /\
    get_nested (r_settings_used r) "optimization" "removeMetadata" = Ok (VBool true) /\
    get_nested (r_settings_used r) "optimization" "autoOrient" = Ok (VBool true) /\
    get_nested (r_settings_used r) "optimization" "progressive" = Ok (VBool true).
Proof.
  destruct (@demo_run (Stream [400; 300]) png_no_optimization None) as (r & Hst & _).
  { eexists. vm_compute. reflexivity. }
  exists r. split; [exact Hst |].
  assert (Hps : r_settings r
                = VDict (_deep_merge DEFAULT_SETTINGS
                           [ ("format", VDict [("outputFormat", VStr "png")]);
                             ("optimization", VDict [ ("removeMetadata", VBool false);
                                                      ("autoOrient", VBool false);
                                                      ("progressive", VBool false) ]) ])).
  { destruct Hst as (Hps & _). cbn in Hps. now injection Hps. }
  assert (Hauto : mode_is_auto (r_settings r) = true) by (now rewrite Hps).
  split; [exact Hauto |].
  split; [now rewrite Hps |]. split; [now rewrite Hps |].
  exact (@auto_mode_forces_webp Demo.codec DEFAULT_SETTINGS (Stream [400; 300])
           png_no_optimization None r Hst Hauto).
Defined.

(** Evaluates the left-hand side of an equation, leaving the right one as
    it is written. *)
Ltac compute_lhs H :=
  match type of H with
  | ?lhs = _ =>
      let v := eval vm_compute in lhs in
      replace lhs with v in H by (vm_compute; reflexivity)
  end.

Lemma pipeline_settings_frame_witness :
  exists r : run,
    @stages Demo.codec DEFAULT_SETTINGS (Stream [400; 300]) png_no_optimization None r /\
    (mode_is_auto (r_settings r) = false -> r_settings_used r = r_settings r) /\
    (forall k1 k2 : string,
        ~ In (k1, k2) auto_written ->
        get_nested (r_settings_used r) k1 k2 = get_nested (r_settings r) k1 k2) /\
    (forall k : string,
        ~ In k ["format"; "optimization"; "compression"] ->
        subscript (r_settings_used r) k = subscript (r_settings r) k) /\
    (mode_is_auto (r_settings r) = true ->
     exists (quality : Z) (target_size : value) (start : Image),
       get_default (r_settings r) "targetFileSize" (VInt (150 * 1024)) = Ok target_size /\
       @auto_prepare Demo.codec (r_opened r) = Ok start /\
       found (@search_loop Demo.codec max_iterations target_size start 95)
       = Ok (r_image r, quality) /\
       get_nested (r_settings_used r) "format" "outputFormat" = Ok (VStr "webp") /\
       get_nested (r_settings_used r) "optimization" "removeMetadata" = Ok (VBool true) /\
       get_nested (r_settings_used r) "optimization" "autoOrient" = Ok (VBool true) /\
       get_nested (r_settings_used r) "optimization" "progressive" = Ok (VBool true) /\
       get_nested (r_settings_used r) "compression" "enabled" = Ok (VBool true) /\
       get_nested (r_settings_used r) "compression" "quality" = Ok (VInt quality)).
Proof.
  destruct (@demo_run (Stream [400; 300]) png_no_optimization None) as (r & Hst & _).
  { eexists. vm_compute. reflexivity. }
  exists r. split; [exact Hst |].
  exact (@pipeline_settings_frame Demo.codec DEFAULT_SETTINGS (Stream [400; 300])
           png_no_optimization None r Hst).
Defined.

(** C5 as stated fails twice.  Auto mode assigns more fields than
    [compression.quality] and [format.outputFormat]: a caller's
    [removeMetadata: False] comes back as [True].  And the nested dicts of
    [DEFAULT_SETTINGS] are shared with the working settings: after one call
    without settings, on an image that already fits at quality 95, the class
    attribute reads [compression.quality = 95] where it read 85. *)
Lemma settings_mutated_counterexample :
  (exists r : run,
      @stages Demo.codec DEFAULT_SETTINGS (Stream [400; 300]) png_no_optimization None r /\
      ~ In ("optimization", "removeMetadata")
           [("compression", "quality"); ("format", "outputFormat")] /\
      get_nested (r_settings r) "optimization" "removeMetadata" = Ok (VBool false) /\
      get_nested (r_settings_used r) "optimization" "removeMetadata" = Ok (VBool true)) /\
  (Objects.read 2 Objects.initial_store (Objects.Ref Objects.DEFAULT_SETTINGS)
   = VDict DEFAULT_SETTINGS /\
   get_nested (VDict DEFAULT_SETTINGS) "compression" "quality" = Ok (VInt 85) /\
   get_nested
     (Objects.read 2
        (snd (@Objects.process_image_settings Demo.codec (Stream [400; 300]) VNone
                Objects.initial_store))
        (Objects.Ref Objects.DEFAULT_SETTINGS))
     "compression" "quality" = Ok (VInt 95)).
Proof.
  split.
  - destruct (@demo_run (Stream [400; 300]) png_no_optimization None) as (r & Hst & _).
    { eexists. vm_compute. reflexivity. }
    exists r. split; [exact Hst |].
    destruct Hst as (Hps & Hopen & _ & Hmode & _).
    cbn in Hps. injection Hps as Hps.
    cbn in Hopen. injection Hopen as Hopen.
    rewrite <- Hps, <- Hopen in Hmode. compute_lhs Hmode.
    injection Hmode as _ Hused.
    split; [| split].
    + cbn. intros [E | [E | []]]; discriminate E.
    + now rewrite <- Hps.
    + now rewrite <- Hused.
  - repeat split; vm_compute; reflexivity.
Qed.

(** C9 as stated fails in its scenario.  Manual mode orients the image
    before it resizes (the default [autoOrient: True] is still in force), so
    a 1600x1200 input whose EXIF orientation asks for a quarter turn is
    1200x1600 when [_resize_image] sees it: width 800 then gives height
    [int(1600 * (800 / 1200))] = 1066, within the default 1920x1080 of the
    compression step, and the record reports 800x1066 for an original of
    1600x1200. *)
Lemma rotated_input_counterexample :
  exists (opened : Image) (out fname : string) (original processed : FileInfo)
         (used : value) (ratio : Q),
    @Image_open Rotated.codec (Stream [1600; 1200]) = Ok opened /\
    im_size opened = (1600, 1200) /\
    get_nested used "resize" "width" = Ok (VInt 800) /\
    get_nested used "resize" "maintainAspectRatio" = Ok (VBool true) /\
    @process_image Rotated.codec (Stream [1600; 1200]) (VDict scenario_override) None
    = Success out fname original processed used ratio /\
    fi_size original = (1600, 1200) /\
    fi_size processed = (800, 1066) /\
    fi_size processed <> (800, 600).
Proof.
  destruct (@process_image Rotated.codec (Stream [1600; 1200]) (VDict scenario_override) None)
    as [out fname original processed used ratio | error error_type] eqn:Hrun;
    [| vm_compute in Hrun; discriminate Hrun].
  exists (Demo.decoded "RGB" 1600 1200), out, fname, original, processed, used, ratio.
  vm_compute in Hrun. injection Hrun as <- <- <- <- <- <-.
  repeat split. discriminate.
Qed.

Lemma deep_merge_laws_witness :
  NoDup (keys [("compression", VDict [("quality", VInt 70)])]) /\
  dict_get "compression"
    (_deep_merge DEFAULT_SETTINGS [("compression", VDict [("quality", VInt 70)])])
  = Some (VDict [ ("enabled", VBool true);
                  ("quality", VInt 70);
                  ("maxWidth", VInt 1920);
                  ("maxHeight", VInt 1080) ]).
Proof.
  assert (Hnd : NoDup (keys [("compression", VDict [("quality", VInt 70)])])).
  { constructor; [intros [] | constructor]. }
  split; [exact Hnd |].
  exact (proj1 (proj2 deep_merge_laws) DEFAULT_SETTINGS
           [("compression", VDict [("quality", VInt 70)])] "compression" Hnd).
Defined.

Lemma determine_output_format_table_witness :
  dict_get "outputFormat" [("outputFormat", VStr "Original")] = Some (VStr "Original") /\
  lower "Original" = "original" /\
  _determine_output_format (Some "PNG") (VDict [("outputFormat", VStr "Original")])
  = Ok "PNG".
Proof.
  split; [reflexivity |]. split; [reflexivity |].
  refine (proj1 (proj1 (@determine_output_format_table (Some "PNG")
                          [("outputFormat", VStr "Original")] "Original" eq_refl)
                   eq_refl)
            "PNG" eq_refl _).
  discriminate.
Defined.

Lemma metadata_stripped_before_save_witness :
  exists r : run,
    @stages Demo.codec DEFAULT_SETTINGS (Stream [400; 300; 1])
      (VDict [("mode", VStr "manual")]) None r /\
    get_nested (r_settings_used r) "optimization" "removeMetadata" = Ok (VBool true) /\
    truthy (VBool true) = true /\
    im_mode (r_image r) = "RGBA" /\
    r_saved r = @strip_metadata Demo.codec (r_image r) /\
    @save_file Demo.codec
      (@output_path_of Demo.codec (@r_filename Demo.codec (Stream [400; 300; 1]) None r))
      (@strip_metadata Demo.codec (r_image r)) (r_format r)
      (save_all_frames (r_format r) (@strip_metadata Demo.codec (r_image r)))
      (r_kwargs r)
    = Ok (r_bytes r).
Proof.
  destruct (@demo_run (Stream [400; 300; 1]) (VDict [("mode", VStr "manual")]) None)
    as (r & Hst & _).
  { eexists. vm_compute. reflexivity. }
  exists r. split; [exact Hst |].
  assert (Hused : r_settings_used r
                  = VDict (_deep_merge DEFAULT_SETTINGS [("mode", VStr "manual")])
                  /\ im_mode (r_image r) = "RGBA").
  { destruct Hst as (Hps & Hopen & _ & Hmode & _).
    cbn in Hps. injection Hps as Hps.
    cbn in Hopen. injection Hopen as Hopen.
    rewrite <- Hps, <- Hopen in Hmode. compute_lhs Hmode.
    injection Hmode as Himage Hused. rewrite <- Hused, <- Himage. split; reflexivity. }
  destruct Hused as [Hused Hrgba].
  assert (Hrm : get_nested (r_settings_used r) "optimization" "removeMetadata"
                = Ok (VBool true)) by (now rewrite Hused).
  split; [exact Hrm |]. split; [reflexivity |]. split; [exact Hrgba |].
  exact (proj2 (@metadata_stripped_before_save Demo.codec) DEFAULT_SETTINGS
           (Stream [400; 300; 1]) (VDict [("mode", VStr "manual")]) None r
           (VBool true) Hst Hrm eq_refl).
Defined.

Lemma resize_keeps_aspect_ratio_witness :
  exists resized : Image,
    get_default (VDict [("width", VInt 29)]) "width" VNone = Ok (VInt 29) /\
    0 < 29 /\
    get_default (VDict [("width", VInt 29)]) "height" VNone = Ok VNone /\
    truthy VNone = false /\
    get_default (VDict [("width", VInt 29)]) "maintainAspectRatio" (VBool true)
    = Ok (VBool true) /\
    truthy (VBool true) = true /\
    0 < im_width (Demo.decoded "RGB" 100 100) /\
    0 < im_height (Demo.decoded "RGB" 100 100) /\
    im_height (Demo.decoded "RGB" 100 100) * 29 < 2 ^ 50 /\
    @_resize_image Demo.codec (Demo.decoded "RGB" 100 100) (VDict [("width", VInt 29)])
    = Ok resized /\
    im_width resized = 29 /\
    im_height resized * 100 <= 100 * im_width resized /\
    100 * im_width resized <= (im_height resized + 1) * 100.
Proof.
  destruct (@_resize_image Demo.codec (Demo.decoded "RGB" 100 100)
              (VDict [("width", VInt 29)])) as [resized | e] eqn:Hres.
  - exists resized.
    assert (Hb : im_height (Demo.decoded "RGB" 100 100) * 29 < 2 ^ 50) by reflexivity.
    repeat (split; [reflexivity |]).
    exact (proj1 (@resize_keeps_aspect_ratio Demo.codec)
             (Demo.decoded "RGB" 100 100) resized (VDict [("width", VInt 29)])
             VNone (VBool true) 29
             eq_refl eq_refl eq_refl eq_refl eq_refl eq_refl eq_refl eq_refl Hb Hres).
  - vm_compute in Hres. discriminate Hres.
Defined.

Lemma original_size_is_reencoded_witness :
  exists (out fname : string) (original processed : FileInfo) (used : value) (ratio : Q),
    @process_image_with Demo.codec DEFAULT_SETTINGS (Stream [400; 300]) VNone None
    = Success out fname original processed used ratio /\
    exists (opened : Image) (n : N),
      @Image_open Demo.codec (Stream [400; 300]) = Ok opened /\
      @save_buffer Demo.codec opened
        (match im_format opened with
         | Some f => if String.eqb f "" then "JPEG" else f
         | None => "JPEG"
         end) [] = Ok n /\
      fi_file_size original = Z.of_N n /\
      ratio =
      (if Z.of_N n =? 0 then 0%Q
       else B64.round2
              (B64.mul
                 (B64.sub 1 (B64.rne (inject_Z (fi_file_size processed)
                                      / inject_Z (Z.of_N n))))
                 100)).
Proof.
  destruct (@process_image_with Demo.codec DEFAULT_SETTINGS (Stream [400; 300]) VNone None)
    as [out fname original processed used ratio | err kind] eqn:Hrun.
  - exists out, fname, original, processed, used, ratio.
    split; [reflexivity |].
    exact (proj1 (@original_size_is_reencoded Demo.codec) DEFAULT_SETTINGS
             (Stream [400; 300]) VNone None out fname original processed used ratio Hrun).
  - vm_compute in Hrun. discriminate Hrun.
Defined.

(** ** Runs of the service *)

(** The call without settings on a 400x300 stream: the first trial encoding
    (34200 bytes) fits the 150 KB target, quality stays 95, and the ratio is
    [round((1 - 34200 / 360000) * 100, 2) = 90.5]. *)
Example default_call :
  @process_image Demo.codec (Stream [400; 300]) VNone None
  = Success
      "./processed_images/image_0f8fad5bd9cb469fa16570867728950e_1700000000000.webp"
      "image_0f8fad5bd9cb469fa16570867728950e_1700000000000.webp"
      (mkFileInfo (Some "PNG") (400, 300) 360000)
      (mkFileInfo (Some "WEBP") (400, 300) 34200)
      (VDict
         [ ("mode", VStr "auto");
           ("targetFileSize", VInt 153600);
           ("compression", VDict [ ("enabled", VBool true);
                                   ("quality", VInt 95);
                                   ("maxWidth", VInt 1920);
                                   ("maxHeight", VInt 1080) ]);
           ("format", VDict [ ("outputFormat", VStr "webp");
                              ("convertToWebp", VBool true) ]);
           ("optimization", VDict [ ("removeMetadata", VBool true);
                                    ("progressive", VBool true);
                                    ("autoOrient", VBool true) ]);
           ("resize", VDict [ ("enabled", VBool false);
                              ("width", VNone);
                              ("height", VNone);
                              ("maintainAspectRatio", VBool true) ]) ])
      (181 # 2).
Proof. vm_compute. reflexivity. Qed.

(** The bound of 10 rounds is reached: a 2000x1500 image goes through the
    qualities 95, 80, 65, 50, 35, 30, 25, 20, is resized once, and the loop
    runs out at quality 20 and 1847x1385. *)
Example ten_rounds_reached :
  let s := @search_loop Demo.codec max_iterations (VInt 153600) large 95 in
  rounds s = 10%nat /\
  exists image, found s = Ok (image, 20) /\ im_size image = (1847, 1385).
Proof. vm_compute. split; [reflexivity |]. eexists. split; reflexivity. Qed.

(** A negative target: after the eight rounds that lower the quality to 20,
    the square root of a negative quotient is complex and [int()] raises. *)
Example negative_target_raises :
  let s := @search_loop Demo.codec max_iterations (VInt (-5)) large 95 in
  rounds s = 8%nat /\
  exists msg, found s = Raise (TypeError msg).
Proof. vm_compute. split; [reflexivity |]. eexists. reflexivity. Qed.

(** Target 0: the loop runs its 10 rounds and ends at the floors. *)
Example zero_target_exhausts :
  let s := @search_loop Demo.codec max_iterations (VInt 0) large 95 in
  rounds s = 10%nat /\
  exists image, found s = Ok (image, 20) /\ im_size image = (300, 200).
Proof. vm_compute. split; [reflexivity |]. eexists. split; reflexivity. Qed.

(** Float rounding is visible: [29 / 100] rounds below 0.29 and
    [100 * 0.29] to 28.999999999999996, so a 100x100 image resized to width
    29 gets height 28. *)
Example one_pixel_less :
  exists resized,
    @_resize_image Demo.codec (Demo.decoded "RGB" 100 100) (VDict [("width", VInt 29)])
    = Ok resized /\
    im_size resized = (29, 28).
Proof. eexists. vm_compute. split; reflexivity. Qed.

(** Settings that replace the [format] dict by a string make auto mode fail
    on its first assignment; the failure is reported, not raised. *)
Example scalar_format_fails :
  @process_image Demo.codec (Stream [400; 300]) (VDict [("format", VStr "png")]) None
  = Failure "'str' object does not support item assignment" "TypeError".
Proof. vm_compute. reflexivity. Qed.

(** C8 at a palette image with alpha: the mode PA has an alpha band but is
    not one of the two modes the stripping step tests for, so the image
    takes the branch commented "for non-transparent images": it keeps its
    mode and its pixel values, alpha band included, and nothing is
    composited onto white.  In manual mode with the default
    [removeMetadata: True] this is the image handed to the final save. *)
Theorem palette_alpha_not_flattened :
  has_alpha_band (im_mode Demo.palette_alpha) = true /\
  (forall codec : Codec,
      im_mode (@strip_metadata codec Demo.palette_alpha) = "PA" /\
      im_data (@strip_metadata codec Demo.palette_alpha) = [[7; 128]] /\
      last_band (@strip_metadata codec Demo.palette_alpha) = [128]) /\
  (exists r : run,
      @stages Demo.codec DEFAULT_SETTINGS (Stream [1; 1; 2])
        (VDict [("mode", VStr "manual")]) None r /\
      get_nested (r_settings_used r) "optimization" "removeMetadata" = Ok (VBool true) /\
      im_mode (r_saved r) = "PA" /\
      last_band (r_saved r) = [128]).
Proof.
  split; [reflexivity |]. split.
  - intros codec. repeat split.
  - destruct (@demo_run (Stream [1; 1; 2]) (VDict [("mode", VStr "manual")]) None)
      as (r & Hst & _).
    { eexists. vm_compute. reflexivity. }
    exists r. split; [exact Hst |].
    destruct Hst as (Hps & Hopen & _ & Hmode & _ & _ & Hstrip & _).
    cbn in Hps. injection Hps as Hps.
    cbn in Hopen. injection Hopen as Hopen.
    rewrite <- Hps, <- Hopen in Hmode. compute_lhs Hmode.
    injection Hmode as Himage Hused.
    rewrite <- Hused, <- Himage in Hstrip. compute_lhs Hstrip.
    injection Hstrip as Hsaved.
    rewrite <- Hused, <- Hsaved. repeat split.
Qed.

(** The two views of the settings agree: what the store holds for the
    working settings after the call is the [settings_used] of the record. *)
Example objects_agree_with_values :
  match @Objects.process_image_settings Demo.codec (Stream [400; 300])
          png_no_optimization Objects.initial_store,
        @process_image Demo.codec (Stream [400; 300]) png_no_optimization None with
  | (Ok address, st), Success _ _ _ _ used _ =>
      Objects.read 2 st (Objects.Ref address) = used
  | _, _ => False
  end.
Proof. vm_compute. reflexivity. Qed.

(** * Further properties *)

Section SearchProperties.

Context `{Codec}.

(** One iteration of the search loop, by cases, with the equations of the
    tests it went through. *)
Ltac search_cases n :=
  cbn [search_loop];
  destruct (save_buffer _ "WEBP" _) as [bytes | e] eqn:Hsave;
    [| cbn [found rounds]; try discriminate];
  [ destruct (as_number _) as [target | e] eqn:Htarget;
      [| cbn [found rounds]; try discriminate];
    [ destruct (Z.of_N bytes <=? target) eqn:Hfit;
      [ cbn [found rounds]
      | destruct (B64.int_gt _ _ && (_ >? 30)) eqn:Hfar;
        [ rewrite ?found_one_more, ?rounds_one_more
        | destruct ((_ >? target) && (_ >? 20)) eqn:Hnear;
          [ rewrite ?found_one_more, ?rounds_one_more
          | destruct (scaled_dimensions _ _ _) as [[new_width new_height] | e] eqn:Hdims;
              [| cbn [found rounds]; try discriminate];
            [ destruct ((new_width <? _) && (new_height <? _)) eqn:Hsmaller;
              [ destruct (Image_resize _ _ _) as [resized | e] eqn:Hres;
                  [| cbn [found rounds]; try discriminate];
                [ rewrite ?found_one_more, ?rounds_one_more | .. ]
              | cbn [found rounds] ]
            | .. ] ] ] ]
    | .. ]
  | .. ].

Lemma Image_resize_keeps (image resized : Image) (w h : Z) :
  Image_resize image w h = Ok resized ->
  im_mode resized = im_mode image /\ im_info resized = im_info image.
Proof.
  unfold Image_resize. intros Hr. apply bind_ok in Hr as (data & _ & [= <-]).
  now split.
Qed.

Lemma search_loop_monotone (n : nat) (target_size : value) :
  forall (image image' : Image) (quality quality' : Z),
    found (search_loop n target_size image quality) = Ok (image', quality') ->
    im_width image' <= im_width image /\
    im_height image' <= im_height image /\
    im_mode image' = im_mode image /\
    im_info image' = im_info image /\
    quality' <= Z.max 85 quality.
Proof.
  induction n as [| n IH]; intros image image' quality quality'.
  - cbn. intros [= <- <-]. repeat split; lia.
  - search_cases n.
    + intros [= <- <-]. repeat split; lia.
    + intros Hf. apply IH in Hf. intuition lia.
    + intros Hf. apply IH in Hf. intuition lia.
    + intros Hf. apply IH in Hf.
      apply andb_prop in Hsmaller as [Hw Hh]. apply Z.ltb_lt in Hw, Hh.
      destruct (Image_resize_size _ _ _ Hres) as [Hrw Hrh].
      destruct (Image_resize_keeps _ _ _ Hres) as [Hrm Hri].
      rewrite Hrw, Hrh, Hrm, Hri in Hf. intuition lia.
    + intros [= <- <-]. repeat split; lia.
Qed.

(** X1: the search loop never enlarges the image and never changes its
    mode or its metadata; the quality it returns is at most the quality it
    started from, or at most 85 once it has resized. *)
Theorem search_loop_shrinks :
  forall (n : nat) (target_size : value) (image image' : Image) (quality quality' : Z),
    found (search_loop n target_size image quality) = Ok (image', quality') ->
    im_width image' <= im_width image /\
    im_height image' <= im_height image /\
    im_mode image' = im_mode image /\
    im_info image' = im_info image /\
    quality' <= Z.max 85 quality.
Proof. intros n target_size. apply search_loop_monotone. Qed.

(** X2: a search that starts at a quality of at least 20 and returns has
    converged, or has used all its iterations, or is stuck at quality 20
    with no smaller size to try. *)
Theorem search_loop_outcome (n : nat) (target_size : value) :
  forall (image image' : Image) (quality quality' : Z),
    20 <= quality ->
    found (search_loop n target_size image quality) = Ok (image', quality') ->
    converged target_size image' quality' \/
    rounds (search_loop n target_size image quality) = n \/
    stuck target_size image' quality'.
Proof.
  induction n as [| n IH]; intros image image' quality quality' Hq.
  - cbn. intros _. right. now left.
  - search_cases n.
    + intros [= <- <-]. left. exists bytes, target.
      apply Z.leb_le in Hfit. auto.
    + intros Hf. apply IH in Hf; [| lia].
      destruct Hf as [Hc | [Hr | Hs]]; [now left | right; left; now rewrite Hr | now right; right].
    + intros Hf. apply IH in Hf; [| lia].
      destruct Hf as [Hc | [Hr | Hs]]; [now left | right; left; now rewrite Hr | now right; right].
    + intros Hf. apply IH in Hf; [| lia].
      destruct Hf as [Hc | [Hr | Hs]]; [now left | right; left; now rewrite Hr | now right; right].
    + intros [= <- <-]. right. right.
      exists bytes, target, new_width, new_height.
      apply Z.leb_gt in Hfit.
      assert (Hq20 : quality = 20).
      { destruct (Z.gtb_spec (Z.of_N bytes) target) as [_ | Hle]; [| lia].
        cbn [andb] in Hnear. destruct (Z.gtb_spec quality 20); [discriminate | lia]. }
      assert (Hno : im_width image <= new_width \/ im_height image <= new_height).
      { apply andb_false_iff in Hsmaller as [Hw | Hh].
        - left. now apply Z.ltb_ge in Hw.
        - right. now apply Z.ltb_ge in Hh. }
      auto 10.
Qed.

Lemma search_loop_fits (n : nat) (target_size : value) (image : Image) (quality : Z)
    (bytes : N) (target : Z) :
  as_number target_size = Ok target ->
  save_buffer image "WEBP" [("quality", VInt quality); ("optimize", VBool true)]
  = Ok bytes ->
  Z.of_N bytes <= target ->
  search_loop (S n) target_size image quality
  = {| rounds := 1; found := Ok (image, quality) |}.
Proof.
  intros Hnum Hsave Hfit. cbn [search_loop]. rewrite Hsave, Hnum.
  apply Z.leb_le in Hfit. now rewrite Hfit.
Qed.

(** X3: if the first trial encoding already fits the target, the loop
    stops after that one encoding and returns the image and the quality it
    was given; auto mode then returns the prepared image and records
    quality 95. *)
Theorem first_round_convergence :
  forall (image start image' : Image) (settings settings' target_size : value)
         (bytes : N) (target : Z),
    auto_prepare image = Ok start ->
    get_default settings "targetFileSize" (VInt (150 * 1024)) = Ok target_size ->
    as_number target_size = Ok target ->
    save_buffer start "WEBP" [("quality", VInt 95); ("optimize", VBool true)]
    = Ok bytes ->
    Z.of_N bytes <= target ->
    search_loop max_iterations target_size start 95
    = {| rounds := 1; found := Ok (start, 95) |} /\
    (_process_auto_mode image settings = Ok (image', settings') ->
     image' = start /\
     get_nested settings' "compression" "quality" = Ok (VInt 95)).
Proof.
  intros image start image' settings settings' target_size bytes target
    Hprep Htarget Hnum Hsave Hfit.
  assert (Hloop : search_loop max_iterations target_size start 95
                  = {| rounds := 1; found := Ok (start, 95) |}).
  { exact (search_loop_fits 9 target_size start 95 Hnum Hsave Hfit). }
  split; [exact Hloop |].
  unfold _process_auto_mode. rewrite Htarget. cbn [bind]. intros Hauto.
  apply bind_ok in Hauto as (forced & _ & Hauto).
  rewrite Hprep in Hauto. cbn [bind] in Hauto.
  rewrite Hloop in Hauto. cbn [found bind] in Hauto.
  apply bind_ok in Hauto as (s1 & Hs1 & Hauto).
  apply bind_ok in Hauto as (s2 & Hs2 & [= <- <-]).
  split; [reflexivity |].
  erewrite set_nested_get_other; [| exact Hs2 | right; discriminate].
  eapply set_nested_get_same; exact Hs1.
Qed.

End SearchProperties.

(** ** Scaling into a box *)

Unset Implicit Arguments.

Lemma min_le_l (x y : Q) : (B64.min x y <= x)%Q.
Proof.
  unfold B64.min. destruct (Qle_bool x y) eqn:E; [apply Qle_refl |].
  destruct (Qlt_le_dec y x) as [Hlt | Hle]; [now apply Qlt_le_weak |].
  apply Qle_bool_iff in Hle. congruence.
Qed.

Lemma min_le_r (x y : Q) : (B64.min x y <= y)%Q.
Proof.
  unfold B64.min. destruct (Qle_bool x y) eqn:E; [| apply Qle_refl].
  now apply Qle_bool_iff.
Qed.

Lemma min_positive (x y : Q) : (0 < x)%Q -> (0 < y)%Q -> (0 < B64.min x y)%Q.
Proof. intros Hx Hy. unfold B64.min. now destruct (Qle_bool x y). Qed.

(** With a ratio of at most [t / c] as a float, [int(c * ratio)] is at most
    [t]: the three roundings cannot carry the product up to [t + 1]. *)
Lemma scaled_within (c t : Z) (ratio : Q) :
  0 < c -> 0 < t -> t < 2 ^ 50 ->
  (0 < ratio)%Q -> (ratio <= B64.rne (inject_Z t / inject_Z c))%Q ->
  B64.to_int (B64.int_mul c ratio) <= t.
Proof.
  intros Hc Ht Hbound Hratio Hle.
  assert (Hcq : (0 < inject_Z c)%Q) by (rewrite <- (Zlt_Qlt 0); exact Hc).
  assert (Htq : (0 < inject_Z t)%Q) by (rewrite <- (Zlt_Qlt 0); exact Ht).
  assert (Htb : (inject_Z t < 1125899906842624)%Q).
  { change 1125899906842624%Q with (inject_Z (2 ^ 50)). rewrite <- Zlt_Qlt. exact Hbound. }
  set (q := (inject_Z t / inject_Z c)%Q) in *.
  assert (Hq : (0 < q)%Q).
  { unfold q. apply Qlt_shift_div_l; [assumption |]. lra. }
  assert (Hcqt : (inject_Z c * q == inject_Z t)%Q).
  { unfold q. field. intros E. rewrite E in Hcq. discriminate. }
  pose proof (rne_bounds q Hq) as [_ Hrhi].
  pose proof (rne_bounds (inject_Z c) Hcq) as [_ Hchi].
  pose proof (rne_positive (inject_Z c) Hcq) as Hcpos.
  unfold B64.int_mul, B64.mul, B64.of_int.
  set (cf := B64.rne (inject_Z c)) in *.
  assert (Hprod : (0 < cf * ratio)%Q) by (now apply Qmult_lt_0_compat).
  pose proof (rne_bounds (cf * ratio) Hprod) as [_ Hphi].
  pose proof (rne_positive (cf * ratio) Hprod) as Hppos.
  set (p := B64.rne (cf * ratio)) in *.
  destruct (to_int_floor p (Qlt_le_weak _ _ Hppos)) as [Hfloor _].
  assert (He : (0 < 1 + B64.eps)%Q) by reflexivity.
  assert (H1 : (cf * ratio <= inject_Z c * (1 + B64.eps) * (q * (1 + B64.eps)))%Q).
  { apply Qmult_le_compat_nonneg; split; lra. }
  assert (H2 : (p <= inject_Z c * (1 + B64.eps) * (q * (1 + B64.eps)) * (1 + B64.eps))%Q).
  { apply Qle_trans with (cf * ratio * (1 + B64.eps))%Q; [exact Hphi |].
    apply Qmult_le_compat_r; [exact H1 | lra]. }
  assert (H3 : (inject_Z c * (1 + B64.eps) * (q * (1 + B64.eps)) * (1 + B64.eps)
                == inject_Z t * ((1 + B64.eps) * (1 + B64.eps) * (1 + B64.eps)))%Q).
  { rewrite <- Hcqt. ring. }
  rewrite H3 in H2.
  assert (Hz : (inject_Z (B64.to_int p) < inject_Z (t + 1))%Q).
  { rewrite inject_Z_plus. change (inject_Z 1) with 1%Q.
    eapply three_roundings_up; [exact Htb | exact Htq | exact H2 | exact Hfloor]. }
  rewrite <- Zlt_Qlt in Hz. lia.
Qed.

Lemma true_div_positive (a b : Z) :
  0 < a -> 0 < b ->
  B64.true_div a b = Ok (B64.rne (inject_Z a / inject_Z b)) /\
  (0 < B64.rne (inject_Z a / inject_Z b))%Q.
Proof.
  intros Ha Hb. unfold B64.true_div.
  destruct (Z.eqb_spec b 0) as [E | _]; [lia |]. split; [reflexivity |].
  apply rne_positive. apply Qlt_shift_div_l.
  - rewrite <- (Zlt_Qlt 0). exact Hb.
  - rewrite Qmult_0_l. rewrite <- (Zlt_Qlt 0). exact Ha.
Qed.

Lemma rne_nonpos (x : Q) : (x <= 0)%Q -> (B64.rne x <= 0)%Q.
Proof.
  intros Hx. unfold B64.rne. destruct (Qcompare x 0) eqn:E.
  - apply Qle_refl.
  - pose proof (rne_positive (- x)) as Hp.
    assert (Hneg : (0 < - x)%Q).
    { apply Qlt_alt in E. lra. }
    apply Hp in Hneg. unfold B64.rne in Hneg.
    assert (Egt : Qcompare (- x) 0 = Gt).
    { apply Qgt_alt. apply Qlt_alt in E. lra. }
    rewrite Egt in Hneg. lra.
  - apply Qgt_alt in E. lra.
Qed.

Lemma to_int_nonpos (x : Q) : (x <= 0)%Q -> B64.to_int x <= 0.
Proof.
  destruct x as [n d]. unfold Qle, B64.to_int. cbn [Qnum Qden]. intros Hn.
  assert (Hn0 : n <= 0) by lia.
  rewrite <- (Z.opp_involutive n), Z.quot_opp_l by lia.
  pose proof (Z.quot_pos (- n) (Zpos d)). lia.
Qed.

(** A scaled dimension is positive only if the dimension and the ratio have
    the same sign. *)
Lemma int_mul_positive (z : Z) (ratio : Q) :
  0 < B64.to_int (B64.int_mul z ratio) ->
  (0 < z /\ (0 < ratio)%Q) \/ (z < 0 /\ (ratio < 0)%Q).
Proof.
  intros Hpos. unfold B64.int_mul, B64.mul, B64.of_int in Hpos.
  assert (Hprod : (0 < B64.rne (inject_Z z) * ratio)%Q).
  { destruct (Qlt_le_dec 0 (B64.rne (inject_Z z) * ratio)) as [Hlt | Hle]; [exact Hlt |].
    apply rne_nonpos, to_int_nonpos in Hle. lia. }
  destruct (Z.lt_trichotomy z 0) as [Hz | [-> | Hz]].
  - right. split; [exact Hz |].
    assert (Hr : (B64.rne (inject_Z z) <= 0)%Q).
    { apply rne_nonpos. change 0%Q with (inject_Z 0). rewrite <- Zle_Qle. lia. }
    destruct (Qlt_le_dec ratio 0) as [Hlt | Hge]; [exact Hlt |]. nra.
  - change (B64.rne (inject_Z 0)) with 0%Q in Hprod. lra.
  - left. split; [exact Hz |].
    assert (Hr : (0 < B64.rne (inject_Z z))%Q).
    { apply rne_positive. rewrite <- (Zlt_Qlt 0). exact Hz. }
    destruct (Qlt_le_dec 0 ratio) as [Hlt | Hge]; [exact Hlt |]. nra.
Qed.

(** Both dimensions scaled by [min(tw / cw, th / ch)] stay within
    [tw] x [th]. *)
Lemma fit_within (cw ch tw th : Z) :
  0 < cw -> 0 < ch -> 0 < tw < 2 ^ 50 -> 0 < th < 2 ^ 50 ->
  let ratio := B64.min (B64.rne (inject_Z tw / inject_Z cw))
                       (B64.rne (inject_Z th / inject_Z ch)) in
  B64.to_int (B64.int_mul cw ratio) <= tw /\
  B64.to_int (B64.int_mul ch ratio) <= th.
Proof.
  intros Hcw Hch [Htw Htwb] [Hth Hthb] ratio.
  destruct (true_div_positive tw cw Htw Hcw) as [_ Hrw].
  destruct (true_div_positive th ch Hth Hch) as [_ Hrh].
  assert (Hpos : (0 < ratio)%Q) by (now apply min_positive).
  split.
  - apply scaled_within; try assumption. apply min_le_l.
  - apply scaled_within; try assumption. apply min_le_r.
Qed.

Set Implicit Arguments.

Section ResizeProperties.

Context `{Codec}.

Lemma compress_image_cases (image : Image) (cs vw vh : value) (mw mh : Z) :
  get_default cs "maxWidth" (VInt 1920) = Ok vw -> as_number vw = Ok mw ->
  get_default cs "maxHeight" (VInt 1080) = Ok vh -> as_number vh = Ok mh ->
  0 < im_width image -> 0 < im_height image ->
  _compress_image image cs =
  if (im_width image <=? mw) && (im_height image <=? mh) then Ok image
  else
    let ratio := B64.min (B64.rne (inject_Z mw / inject_Z (im_width image)))
                         (B64.rne (inject_Z mh / inject_Z (im_height image))) in
    Image_resize image (B64.to_int (B64.int_mul (im_width image) ratio))
                       (B64.to_int (B64.int_mul (im_height image) ratio)).
Proof.
  intros Hvw Hmw Hvh Hmh Hcw Hch. unfold _compress_image.
  rewrite Hvw, Hvh. cbn [bind]. rewrite Hmw. cbn [bind]. rewrite Hmh. cbn [bind].
  unfold B64.true_div.
  destruct (Z.eqb_spec (im_width image) 0) as [E | _]; [lia |].
  destruct (Z.eqb_spec (im_height image) 0) as [E | _]; [lia |].
  destruct (im_width image <=? mw); cbn [bind andb]; [| reflexivity].
  destruct (im_height image <=? mh); reflexivity.
Qed.

(** Without assuming anything of the input's dimensions: an output with
    positive dimensions is within the bounds. *)
Lemma compress_image_within (image image' : Image) (cs vw vh : value) (mw mh : Z) :
  get_default cs "maxWidth" (VInt 1920) = Ok vw -> as_number vw = Ok mw ->
  get_default cs "maxHeight" (VInt 1080) = Ok vh -> as_number vh = Ok mh ->
  0 < mw < 2 ^ 50 -> 0 < mh < 2 ^ 50 ->
  _compress_image image cs = Ok image' ->
  0 < im_width image' -> 0 < im_height image' ->
  im_width image' <= mw /\ im_height image' <= mh.
Proof.
  intros Hvw Hmw Hvh Hmh Hmwb Hmhb. unfold _compress_image.
  rewrite Hvw, Hvh. cbn [bind]. rewrite Hmw, Hmh. cbn [bind].
  assert (Hresize :
    (rw <- B64.true_div mw (im_width image) ;;
     rh <- B64.true_div mh (im_height image) ;;
     Image_resize image
       (B64.to_int (B64.int_mul (im_width image) (B64.min rw rh)))
       (B64.to_int (B64.int_mul (im_height image) (B64.min rw rh)))) = Ok image' ->
    (mw < im_width image \/ mh < im_height image) ->
    0 < im_width image' -> 0 < im_height image' ->
    im_width image' <= mw /\ im_height image' <= mh).
  { unfold B64.true_div.
    destruct (Z.eqb_spec (im_width image) 0) as [E | _]; [discriminate |].
    destruct (Z.eqb_spec (im_height image) 0) as [E | _]; [discriminate |].
    cbn [bind]. intros Hres Hbig. apply Image_resize_size in Hres as [-> ->].
    intros Hw Hh.
    apply int_mul_positive in Hw as Hsw. apply int_mul_positive in Hh as Hsh.
    assert (Hpos : 0 < im_width image /\ 0 < im_height image).
    { destruct Hsw as [[? ?] | [? ?]], Hsh as [[? ?] | [? ?]]; try lia; lra. }
    destruct Hpos. now apply fit_within. }
  destruct (Z.leb_spec (im_width image) mw) as [Hiw | Hiw]; cbn [bind].
  - destruct (Z.leb_spec (im_height image) mh) as [Hih | Hih].
    + intros [= <-]. lia.
    + intros Hres. apply Hresize; [exact Hres | lia].
  - intros Hres. apply Hresize; [exact Hres | lia].
Qed.

(** X4: [_compress_image] returns an image within [maxWidth] x
    [maxHeight]; an image already within the bounds is returned as it is,
    so compressing twice with the same bounds is compressing once. *)
Theorem compress_image_fits :
  forall (image image' : Image) (cs vw vh : value) (mw mh : Z),
    get_default cs "maxWidth" (VInt 1920) = Ok vw -> as_number vw = Ok mw ->
    get_default cs "maxHeight" (VInt 1080) = Ok vh -> as_number vh = Ok mh ->
    0 < mw < 2 ^ 50 -> 0 < mh < 2 ^ 50 ->
    0 < im_width image -> 0 < im_height image ->
    _compress_image image cs = Ok image' ->
    im_width image' <= mw /\
    im_height image' <= mh /\
    (im_width image <= mw -> im_height image <= mh -> image' = image) /\
    _compress_image image' cs = Ok image'.
Proof.
  intros image image' cs vw vh mw mh Hvw Hmw Hvh Hmh Hmwb Hmhb Hcw Hch Hres.
  erewrite compress_image_cases in Hres; try eassumption.
  assert (Hfit : im_width image' <= mw /\ im_height image' <= mh).
  { destruct ((im_width image <=? mw) && (im_height image <=? mh)) eqn:E.
    - injection Hres as <-. apply andb_prop in E as [Ew Eh].
      apply Z.leb_le in Ew, Eh. auto.
    - cbv zeta in Hres. apply Image_resize_size in Hres as [-> ->].
      now apply fit_within. }
  destruct Hfit as [Hw Hh].
  split; [exact Hw |]. split; [exact Hh |]. split.
  - intros Hiw Hih. apply Z.leb_le in Hiw, Hih. rewrite Hiw, Hih in Hres.
    cbn [andb] in Hres. now injection Hres.
  - unfold _compress_image. rewrite Hvw, Hvh. cbn [bind]. rewrite Hmw. cbn [bind].
    apply Z.leb_le in Hw, Hh. rewrite Hw. cbn [bind]. rewrite Hmh. cbn [bind].
    now rewrite Hh.
Qed.

(** X5: with [maintainAspectRatio] on and both target dimensions given,
    the resized image fits within the target box. *)
Theorem resize_fits_box :
  forall (image resized : Image) (rs m : value) (tw th : Z),
    get_default rs "width" VNone = Ok (VInt tw) -> 0 < tw < 2 ^ 50 ->
    get_default rs "height" VNone = Ok (VInt th) -> 0 < th < 2 ^ 50 ->
    get_default rs "maintainAspectRatio" (VBool true) = Ok m -> truthy m = true ->
    0 < im_width image -> 0 < im_height image ->
    _resize_image image rs = Ok resized ->
    im_width resized <= tw /\ im_height resized <= th.
Proof.
  intros image resized rs m tw th Hw Htw Hh Hth Hm Htm Hcw Hch Hres.
  unfold _resize_image in Hres. rewrite Hw, Hh, Hm in Hres. cbn [bind] in Hres.
  rewrite Htm in Hres. cbn [truthy] in Hres.
  destruct (Z.eqb_spec tw 0) as [E | _]; [lia |].
  destruct (Z.eqb_spec th 0) as [E | _]; [lia |].
  cbn [negb andb as_number bind] in Hres. unfold B64.true_div in Hres.
  destruct (Z.eqb_spec (im_width image) 0) as [E | _]; [lia |].
  destruct (Z.eqb_spec (im_height image) 0) as [E | _]; [lia |].
  cbn [bind] in Hres. apply Image_resize_size in Hres as [-> ->].
  now apply fit_within.
Qed.

(** X6: the image the search loop starts from, and therefore the image
    auto mode returns, is at most 2048 x 2048; an oriented image that is
    already within 2048 x 2048 is not resized before the loop. *)
Theorem auto_mode_within_2048 :
  forall (image : Image),
    0 < im_width (_auto_orient image) -> 0 < im_height (_auto_orient image) ->
    (forall start : Image,
        auto_prepare image = Ok start ->
        im_width start <= 2048 /\ im_height start <= 2048 /\
        (im_width (_auto_orient image) <= 2048 ->
         im_height (_auto_orient image) <= 2048 ->
         start = _auto_orient image)) /\
    (forall (settings settings' : value) (image' : Image),
        _process_auto_mode image settings = Ok (image', settings') ->
        im_width image' <= 2048 /\ im_height image' <= 2048).
Proof.
  intros image Hw Hh.
  assert (Hprep : forall start : Image,
             auto_prepare image = Ok start ->
             im_width start <= 2048 /\ im_height start <= 2048 /\
             (im_width (_auto_orient image) <= 2048 ->
              im_height (_auto_orient image) <= 2048 ->
              start = _auto_orient image)).
  { intros start. unfold auto_prepare.
    set (oriented := _auto_orient image) in *.
    destruct (Z.gtb_spec (im_width oriented) 2048) as [Hbig | Hsmall];
      [| destruct (Z.gtb_spec (im_height oriented) 2048) as [Hbig | Hsmall']];
      cbn [orb].
    - unfold B64.true_div.
      destruct (Z.eqb_spec (im_width oriented) 0) as [E | _]; [lia |].
      destruct (Z.eqb_spec (im_height oriented) 0) as [E | _]; [lia |].
      cbn [bind]. intros Hres. apply Image_resize_size in Hres as [-> ->].
      destruct (fit_within (im_width oriented) (im_height oriented) 2048 2048)
        as [Hfw Hfh]; lia.
    - unfold B64.true_div.
      destruct (Z.eqb_spec (im_width oriented) 0) as [E | _]; [lia |].
      destruct (Z.eqb_spec (im_height oriented) 0) as [E | _]; [lia |].
      cbn [bind]. intros Hres. apply Image_resize_size in Hres as [-> ->].
      destruct (fit_within (im_width oriented) (im_height oriented) 2048 2048)
        as [Hfw Hfh]; lia.
    - intros [= <-]. repeat split; lia. }
  split; [exact Hprep |].
  intros settings settings' image' Hauto. unfold _process_auto_mode in Hauto.
  apply bind_ok in Hauto as (target_size & _ & Hauto).
  apply bind_ok in Hauto as (forced & _ & Hauto).
  apply bind_ok in Hauto as (start & Hstart & Hauto).
  apply bind_ok in Hauto as ([found_image quality] & Hloop & Hauto).
  apply bind_ok in Hauto as (s1 & _ & Hauto).
  apply bind_ok in Hauto as (s2 & _ & [= <- _]).
  apply Hprep in Hstart as (Hsw & Hsh & _).
  apply search_loop_monotone in Hloop as (Hlw & Hlh & _). lia.
Qed.

End ResizeProperties.

(** ** Keys of a merge *)

Lemma keys_dict_set (key : string) (v : value) (d : dict) :
  keys (dict_set key v d) = keys d /\ In key (keys d) \/
  keys (dict_set key v d) = (keys d ++ [key])%list /\ ~ In key (keys d).
Proof.
  unfold keys. induction d as [| [k w] rest IH]; cbn [dict_set map fst app].
  - right. split; [reflexivity | intros []].
  - destruct (String.eqb_spec key k) as [-> | Hne]; cbn [map fst].
    + left. split; [reflexivity | now left].
    + destruct IH as [[-> Hin] | [-> Hnot]].
      * left. split; [reflexivity | now right].
      * right. split; [reflexivity |]. intros [E | Hin]; [congruence | contradiction].
Qed.

Lemma keys_deep_merge (override base : dict) :
  exists added : list string,
    keys (_deep_merge base override) = (keys base ++ added)%list /\
    (forall k, In k added -> In k (keys override) /\ ~ In k (keys base)) /\
    (forall k, In k (keys override) -> In k (keys (_deep_merge base override))) /\
    (NoDup (keys base) -> NoDup (keys (_deep_merge base override))).
Proof.
  revert base. induction override as [| [key v] rest IH]; intros base.
  - exists []. rewrite _deep_merge_nil, app_nil_r.
    split; [reflexivity |]. split; [intros k [] |]. split; [intros k [] | auto].
  - rewrite _deep_merge_cons.
    set (entry := merged_entry (dict_get key base) v).
    destruct (IH (dict_set key entry base)) as (added & Hkeys & Hadded & Hall & Hnd).
    change (keys ((key, v) :: rest)) with (key :: keys rest).
    destruct (keys_dict_set key entry base) as [[Hsame Hin] | [Hnew Hnot]].
    + exists added. rewrite Hsame in *.
      split; [exact Hkeys |]. split; [| split].
      * intros k Hk. apply Hadded in Hk as [Hr Hn]. split; [now right | exact Hn].
      * intros k [<- | Hk]; [| now apply Hall].
        rewrite Hkeys. apply in_or_app. now left.
      * exact Hnd.
    + exists (key :: added). rewrite Hnew in *.
      split; [| split; [| split]].
      * rewrite Hkeys, <- app_assoc. reflexivity.
      * intros k [<- | Hk]; [split; [now left | exact Hnot] |].
        apply Hadded in Hk as [Hr Hn]. split; [now right |].
        intros Hb. apply Hn. apply in_or_app. now left.
      * intros k [<- | Hk]; [| now apply Hall].
        rewrite Hkeys. apply in_or_app. left. apply in_or_app. right. now left.
      * intros Hbase. apply Hnd. apply NoDup_app.
        -- exact Hbase.
        -- constructor; [intros [] | constructor].
        -- intros k Hk [<- | []]. contradiction.
Qed.

(** X7: a merge keeps every key of the base, in the base's order and
    before any other key; the keys it adds are the override's keys that the
    base lacks; every key of the override is a key of the result; and a
    base without duplicate keys gives a result without duplicate keys. *)
Theorem deep_merge_keys :
  forall base override : dict,
    exists added : list string,
      keys (_deep_merge base override) = (keys base ++ added)%list /\
      (forall k, In k added -> In k (keys override) /\ ~ In k (keys base)) /\
      (forall k, In k (keys override) -> In k (keys (_deep_merge base override))) /\
      (NoDup (keys base) -> NoDup (keys (_deep_merge base override))).
Proof. intros base override. apply keys_deep_merge. Qed.

(** ** More on [_determine_output_format] *)

Lemma lower_char_idempotent (c : ascii) : lower_char (lower_char c) = lower_char c.
Proof.
  destruct c as [b0 b1 b2 b3 b4 b5 b6 b7].
  destruct b0, b1, b2, b3, b4, b5, b6, b7; reflexivity.
Qed.

Lemma lower_idempotent (s : string) : lower (lower s) = lower s.
Proof.
  induction s as [| c rest IH]; cbn; [reflexivity |].
  now rewrite lower_char_idempotent, IH.
Qed.

(** X8: the requested name is matched without regard to case: a name and
    its lower-case form resolve alike, whatever else the format settings
    hold. *)
Theorem determine_output_format_ignores_case :
  forall (X : option string) (format_settings : dict) (s : string),
    dict_get "outputFormat" format_settings = Some (VStr s) ->
    _determine_output_format X (VDict format_settings)
    = _determine_output_format X (VDict [("outputFormat", VStr (lower s))]).
Proof.
  intros X d s Hget. unfold _determine_output_format, get_default.
  rewrite Hget. cbn [dict_get String.eqb Ascii.eqb Bool.eqb bind].
  now rewrite lower_idempotent.
Qed.

(** X9: [_determine_output_format] returns JPEG, PNG, WEBP or GIF, or the
    non-empty original format; without an [outputFormat] entry it returns
    WEBP; it raises exactly when the entry is not a string, and the
    exception is then the AttributeError of [.lower()] on a value of that
    type (['int' object has no attribute 'lower'] for an int). *)
Theorem determine_output_format_range :
  forall (X : option string) (format_settings : dict),
    (forall f, _determine_output_format X (VDict format_settings) = Ok f ->
       In f ["JPEG"; "PNG"; "WEBP"; "GIF"] \/ (X = Some f /\ f <> "")) /\
    (dict_get "outputFormat" format_settings = None ->
       _determine_output_format X (VDict format_settings) = Ok "WEBP") /\
    (forall e, _determine_output_format X (VDict format_settings) = Raise e <->
       exists v, dict_get "outputFormat" format_settings = Some v /\
                 (forall s, v <> VStr s) /\
                 exn_type e = "AttributeError" /\
                 exn_msg e = "'" ++ type_name v ++ "' object has no attribute 'lower'").
Proof.
  intros X d. unfold _determine_output_format, get_default.
  assert (Htable : forall s, String.eqb (lower s) "original" = false ->
            exists f, table_get (lower s) OUTPUT_FORMATS = Some (Some f)
                      /\ In f ["JPEG"; "PNG"; "WEBP"; "GIF"]
            \/ table_get (lower s) OUTPUT_FORMATS = None).
  { intros s Horig. cbn [table_get OUTPUT_FORMATS]. rewrite Horig.
    repeat match goal with
           | |- context [String.eqb (lower s) ?k] =>
               destruct (String.eqb (lower s) k);
               [eexists; left; split; [reflexivity | cbn; tauto] |]
           end.
    exists "". now right. }
  destruct (dict_get "outputFormat" d) as [v |] eqn:Hget; cbn [bind].
  - destruct v as [| b | z | s | items];
      try (split; [discriminate |]; split; [discriminate |];
           intros e; split;
           [ intros [= <-]; eexists; split; [reflexivity |];
             split; [discriminate | split; reflexivity]
           | intros (v & [= <-] & _ & Ht & Hm); destruct e as [t m];
             cbn in Ht, Hm; now subst ]).
    split; [| split; [discriminate |]].
    + intros f. destruct (String.eqb (lower s) "original") eqn:Horig.
      * destruct X as [g |]; [destruct (String.eqb_spec g "") |];
          intros [= <-]; cbn; auto 10.
      * destruct (Htable s Horig) as (g & [[-> Hin] | ->]); intros [= <-]; auto.
        cbn. tauto.
    + intros e. split.
      * destruct (String.eqb (lower s) "original") eqn:Horig.
        -- destruct X as [g |]; [destruct (String.eqb g "") |]; discriminate.
        -- destruct (Htable s Horig) as (g & [[-> Hin] | ->]); discriminate.
      * intros (v & [= <-] & Hns & _). now destruct (Hns s).
  - split; [| split; [reflexivity |]].
    + intros f [= <-]. cbn. tauto.
    + intros e. split; [discriminate |].
      intros (v & Hv & _). discriminate.
Qed.

Section PipelineProperties.

Context `{Codec}.

(** X10: [_resize_image] at its edges.  With neither target dimension
    truthy (missing, [None] or 0) the image is returned as it is and the
    codec is not asked; with [maintainAspectRatio] off the requested size is
    exactly the given targets, the current dimension standing in for a
    missing one; with it on, a truthy target that is not a number raises
    TypeError and nothing is resized. *)
Theorem resize_image_edges :
  forall (image : Image) (rs vw vh m : value),
    get_default rs "width" VNone = Ok vw ->
    get_default rs "height" VNone = Ok vh ->
    get_default rs "maintainAspectRatio" (VBool true) = Ok m ->
    (truthy vw = false -> truthy vh = false -> _resize_image image rs = Ok image) /\
    (truthy m = false -> truthy vw || truthy vh = true ->
     forall resized, _resize_image image rs = Ok resized ->
       (if truthy vw then as_number vw = Ok (im_width resized)
        else im_width resized = im_width image) /\
       (if truthy vh then as_number vh = Ok (im_height resized)
        else im_height resized = im_height image)) /\
    (truthy m = true -> truthy vw = true ->
     (forall e, as_number vw = Raise e -> _resize_image image rs = Raise e)).
Proof.
  intros image rs vw vh m Hw Hh Hm. unfold _resize_image.
  rewrite Hw, Hh, Hm. cbn [bind]. split; [| split].
  - intros -> ->. reflexivity.
  - intros Htm Hsome resized. rewrite Htm.
    destruct (truthy vw) eqn:Etw, (truthy vh) eqn:Eth; try discriminate;
      cbn [negb andb bind];
      intros Hres.
    + apply bind_ok in Hres as ([nw nh] & Hdim & Hres).
      apply bind_ok in Hdim as (a & Ha & Hdim).
      apply bind_ok in Hdim as (b & Hb & [= <- <-]).
      apply Image_resize_size in Hres as [-> ->]. auto.
    + apply bind_ok in Hres as ([nw nh] & Hdim & Hres).
      apply bind_ok in Hdim as (a & Ha & [= <- <-]).
      apply Image_resize_size in Hres as [-> ->]. auto.
    + apply bind_ok in Hres as ([nw nh] & Hdim & Hres).
      cbn [bind] in Hdim. apply bind_ok in Hdim as (b & Hb & [= <- <-]).
      apply Image_resize_size in Hres as [-> ->]. auto.
  - intros -> -> e He. cbn [negb andb].
    destruct (truthy vh); rewrite He; reflexivity.
Qed.

(** X11: what auto mode hands to the final save.  Whatever the caller's
    settings, a successful auto run writes the stripped image as WEBP with
    [optimize] on and the quality the search returned, between 20 and 95,
    which is also the quality reported in [settings_used]; a file name
    synthesized by the service ends in [.webp]. *)
Theorem auto_mode_final_save :
  forall (defaults : dict) (input_path : source) (settings : value)
         (name : option string) (r : run),
    stages defaults input_path settings name r ->
    mode_is_auto (r_settings r) = true ->
    exists (quality : Z) (target_size : value) (start : Image),
      found (search_loop max_iterations target_size start 95)
      = Ok (r_image r, quality) /\
      20 <= quality <= 95 /\
      get_nested (r_settings_used r) "compression" "quality" = Ok (VInt quality) /\
      r_format r = "WEBP" /\
      r_kwargs r = [("quality", VInt quality); ("optimize", VBool true)] /\
      r_saved r = strip_metadata (r_image r) /\
      r_filename input_path None r
      = original_filename_of input_path ++ "_" ++ timestamp ++ ".webp".
Proof.
  intros defaults input_path settings name r
    (_ & _ & _ & Hmode & (fs & Hfs & Hfmt) & Hkw & Hstrip & _) Hauto.
  apply (run_mode_auto _ _ Hauto) in Hmode.
  apply auto_mode_inversion in Hmode
    as (target_size & start & quality & s1 & s2 & s3 & s4 & s5
        & _ & _ & Hloop & H1 & H2 & H3 & H4 & H5 & H6).
  set (used := r_settings_used r) in *.
  assert (Hwebp : get_nested used "format" "outputFormat" = Ok (VStr "webp")).
  { erewrite set_nested_get_other; [| exact H6 | left; discriminate].
    erewrite set_nested_get_other; [| exact H5 | left; discriminate].
    erewrite set_nested_get_other; [| exact H4 | left; discriminate].
    erewrite set_nested_get_other; [| exact H3 | left; discriminate].
    erewrite set_nested_get_other; [| exact H2 | left; discriminate].
    eapply set_nested_get_same; exact H1. }
  assert (Hrm : get_nested used "optimization" "removeMetadata" = Ok (VBool true)).
  { erewrite set_nested_get_other; [| exact H6 | left; discriminate].
    erewrite set_nested_get_other; [| exact H5 | left; discriminate].
    erewrite set_nested_get_other; [| exact H4 | right; discriminate].
    erewrite set_nested_get_other; [| exact H3 | right; discriminate].
    eapply set_nested_get_same; exact H2. }
  assert (Hq : get_nested used "compression" "quality" = Ok (VInt quality)).
  { erewrite set_nested_get_other; [| exact H6 | right; discriminate].
    eapply set_nested_get_same; exact H5. }
  assert (Hformat : r_format r = "WEBP").
  { rewrite (webp_requested _ _ Hwebp Hfs) in Hfmt. now injection Hfmt. }
  exists quality, target_size, start.
  split; [exact Hloop |]. split.
  { split.
    - eapply search_loop_quality; [| exact Hloop]. lia.
    - apply search_loop_monotone in Hloop. lia. }
  split; [exact Hq |]. split; [exact Hformat |]. split; [| split].
  - rewrite Hformat in Hkw. unfold _get_save_kwargs in Hkw. cbn [String.eqb Ascii.eqb Bool.eqb orb] in Hkw.
    rewrite Hq in Hkw. cbn [bind] in Hkw. now injection Hkw.
  - unfold remove_metadata_if_requested in Hstrip. rewrite Hrm in Hstrip.
    cbn [bind truthy] in Hstrip. now injection Hstrip.
  - unfold r_filename. rewrite Hformat. reflexivity.
Qed.

(** X15: manual mode with [compression.enabled] on ends with
    [_compress_image], so whatever the orientation and resize steps did (a
    resize to a width above [maxWidth], say), an image it returns with
    positive dimensions is within [maxWidth] x [maxHeight]. *)
Theorem manual_mode_capped :
  forall (image image' : Image) (settings enabled cs vw vh : value) (mw mh : Z),
    get_nested settings "compression" "enabled" = Ok enabled ->
    truthy enabled = true ->
    subscript settings "compression" = Ok cs ->
    get_default cs "maxWidth" (VInt 1920) = Ok vw -> as_number vw = Ok mw ->
    get_default cs "maxHeight" (VInt 1080) = Ok vh -> as_number vh = Ok mh ->
    0 < mw < 2 ^ 50 -> 0 < mh < 2 ^ 50 ->
    manual_mode image settings = Ok image' ->
    0 < im_width image' -> 0 < im_height image' ->
    im_width image' <= mw /\ im_height image' <= mh.
Proof.
  intros image image' settings enabled cs vw vh mw mh
    Hen Hten Hcs Hvw Hmw Hvh Hmh Hmwb Hmhb Hrun.
  unfold manual_mode in Hrun.
  apply bind_ok in Hrun as (auto_orient & _ & Hrun).
  apply bind_ok in Hrun as (resize_enabled & _ & Hrun).
  apply bind_ok in Hrun as (resized & _ & Hrun).
  rewrite Hen in Hrun. cbn [bind] in Hrun. rewrite Hten, Hcs in Hrun.
  cbn [bind] in Hrun.
  eapply compress_image_within; eassumption.
Qed.

(** X16: the frames of an animation.  [save_all] is passed to the final
    save only for a GIF output of an image that is animated, and the image a
    metadata removal builds is not: with [optimization.removeMetadata] truthy
    (the default, and always in auto mode) the save is asked for one frame;
    it is asked for all frames only when the image the mode stage returned is
    saved as it is. *)
Theorem stripping_drops_animation :
  forall (defaults : dict) (input_path : source) (settings : value)
         (name : option string) (r : run),
    stages defaults input_path settings name r ->
    (forall remove_metadata : value,
        get_nested (r_settings_used r) "optimization" "removeMetadata"
        = Ok remove_metadata ->
        truthy remove_metadata = true ->
        save_all_frames (r_format r) (r_saved r) = false) /\
    (mode_is_auto (r_settings r) = true ->
     save_all_frames (r_format r) (r_saved r) = false) /\
    (save_all_frames (r_format r) (r_saved r) = true ->
     r_format r = "GIF" /\ r_saved r = r_image r /\ im_animated (r_image r) = true).
Proof.
  intros defaults input_path settings name r Hstages.
  assert (Hstripped : forall image, im_animated (strip_metadata image) = false).
  { intros image. unfold strip_metadata.
    now destruct (String.eqb (im_mode image) "RGBA" || String.eqb (im_mode image) "LA"). }
  pose proof Hstages as (_ & _ & _ & Hmode & (fs & Hfs & Hfmt) & _ & Hstrip & _).
  unfold remove_metadata_if_requested in Hstrip.
  apply bind_ok in Hstrip as (rm & Hrm & [= Hsaved]).
  split; [| split].
  - intros v Hv Htv. rewrite Hrm in Hv. injection Hv as ->.
    rewrite Htv in Hsaved. rewrite <- Hsaved. unfold save_all_frames.
    rewrite Hstripped. apply andb_false_r.
  - intros Hauto. apply (run_mode_auto _ _ Hauto) in Hmode.
    apply auto_mode_inversion in Hmode
      as (target_size & start & quality & s1 & s2 & s3 & s4 & s5
          & _ & _ & _ & H1 & H2 & H3 & H4 & H5 & H6).
    assert (Hwebp : get_nested (r_settings_used r) "format" "outputFormat"
                    = Ok (VStr "webp")).
    { erewrite set_nested_get_other; [| exact H6 | left; discriminate].
      erewrite set_nested_get_other; [| exact H5 | left; discriminate].
      erewrite set_nested_get_other; [| exact H4 | left; discriminate].
      erewrite set_nested_get_other; [| exact H3 | left; discriminate].
      erewrite set_nested_get_other; [| exact H2 | left; discriminate].
      eapply set_nested_get_same; exact H1. }
    rewrite (webp_requested _ _ Hwebp Hfs) in Hfmt. injection Hfmt as <-.
    reflexivity.
  - unfold save_all_frames. intros Hall. apply andb_prop in Hall as [Hgif Hanim].
    apply String.eqb_eq in Hgif.
    destruct (truthy rm); [| now rewrite <- Hsaved in *].
    rewrite <- Hsaved, Hstripped in Hanim. discriminate.
Qed.

End PipelineProperties.

(** ** The settings objects *)

Lemma extends_refl (st : Objects.store) : extends st st.
Proof. exists []. now rewrite app_nil_r. Qed.

Lemma extends_trans (a b c : Objects.store) : extends a b -> extends b c -> extends a c.
Proof. intros [x ->] [y ->]. exists (x ++ y)%list. now rewrite app_assoc. Qed.

Lemma extends_length (a b : Objects.store) :
  extends a b -> (List.length a <= List.length b)%nat.
Proof. intros [x ->]. rewrite length_app. lia. Qed.

Lemma replace_nth_app (st added : Objects.store) (n : nat) (o : Objects.object) :
  (List.length st <= n)%nat ->
  Objects.replace_nth n o (st ++ added)%list
  = (st ++ Objects.replace_nth (n - List.length st) o added)%list.
Proof.
  revert n. induction st as [| x rest IH]; intros n Hn; cbn.
  - now rewrite Nat.sub_0_r.
  - destruct n as [| n]; cbn in Hn; [lia |]. cbn. f_equal. apply IH. lia.
Qed.

Lemma alloc_extends (o : Objects.object) (st : Objects.store) :
  Objects.alloc o st = (Ok (List.length st), (st ++ [o])%list).
Proof. reflexivity. Qed.

(** A write to an object allocated since [base] leaves [base] in place. *)
Lemma set_item_extends (base st : Objects.store) (address : nat) (key : string)
    (c : Objects.cell) :
  extends base st -> (List.length base <= address)%nat ->
  extends base (snd (Objects.set_item address key c st)).
Proof.
  intros [added ->] Hlen. unfold Objects.set_item, Objects.bindM, Objects.get_object.
  destruct (nth_error (base ++ added) address) as [o |]; cbn.
  - rewrite replace_nth_app by exact Hlen. eexists. reflexivity.
  - now exists added.
Qed.

Lemma load_extends (v : value) :
  forall st : Objects.store, extends st (snd (Objects.load v st)).
Proof.
  induction v as [| b | z | s | items IH] using value_nested_ind; intros st;
    try apply extends_refl.
  cbn [Objects.load]. unfold Objects.bindM at 1.
  match goal with
  | |- context [let (r, st') := ?f items st in _] => set (load_items := f)
  end.
  assert (Hitems : forall st0, extends st0 (snd (load_items items st0))).
  { clear st. induction IH as [| [key x] rest Hx _ IHrest]; intros st0.
    - apply extends_refl.
    - cbn in Hx. cbn [load_items]. unfold Objects.bindM at 1.
      specialize (Hx st0). destruct (Objects.load x st0) as [[c | e] st1]; cbn [snd] in *;
        [| exact Hx].
      unfold Objects.bindM at 1. fold load_items.
      specialize (IHrest st1).
      destruct (load_items rest st1) as [[others | e] st2]; cbn [snd Objects.ret] in *;
        eapply extends_trans; eauto. }
  specialize (Hitems st).
  destruct (load_items items st) as [[entries | e] st1]; cbn [snd] in *; [| exact Hitems].
  unfold Objects.bindM, Objects.alloc, Objects.ret. cbn [snd].
  eapply extends_trans; [exact Hitems |]. now exists [entries].
Qed.

Lemma store_loaded (st cur : Objects.store) (v : value) (key : string) (result : nat) :
  extends st cur -> (List.length st <= result)%nat ->
  extends st (snd (Objects.bindM (Objects.load v)
                     (fun c => Objects.set_item result key c) cur)).
Proof.
  intros Hcur Hlen. unfold Objects.bindM at 1.
  pose proof (load_extends v cur) as Hl.
  destruct (Objects.load v cur) as [[c | e] st2]; cbn [snd] in *.
  - apply set_item_extends; [eapply extends_trans; eauto | exact Hlen].
  - eapply extends_trans; eauto.
Qed.

Lemma store_merged (st cur : Objects.store) (v : value) (key : string) (b result : nat) :
  (forall base st0, extends st0 (snd (Objects._deep_merge base v st0))) ->
  extends st cur -> (List.length st <= result)%nat ->
  extends st (snd (Objects.bindM (Objects._deep_merge b v)
                     (fun merged => Objects.set_item result key (Objects.Ref merged)) cur)).
Proof.
  intros Hv Hcur Hlen. unfold Objects.bindM at 1.
  pose proof (Hv b cur) as Hm.
  destruct (Objects._deep_merge b v cur) as [[merged | e] st2]; cbn [snd] in *.
  - apply set_item_extends; [eapply extends_trans; eauto | exact Hlen].
  - eapply extends_trans; eauto.
Qed.

Lemma deep_merge_extends (override : value) :
  forall (base : nat) (st : Objects.store),
    extends st (snd (Objects._deep_merge base override st)).
Proof.
  induction override as [| b | z | s | items IH] using value_nested_ind;
    intros base st; try apply extends_refl.
  cbn [Objects._deep_merge]. unfold Objects.bindM at 1.
  unfold Objects.copy, Objects.bindM at 1, Objects.get_object at 1.
  destruct (nth_error st base) as [o |]; [| apply extends_refl].
  cbn [Objects.alloc]. unfold Objects.bindM at 1.
  match goal with
  | |- context [let (r, st') := ?f items (st ++ [o])%list in _] => set (loop := f)
  end.
  assert (Hloop : forall cur, extends st cur -> extends st (snd (loop items cur))).
  { induction IH as [| [key v] rest Hv _ IHrest]; intros cur Hcur.
    - exact Hcur.
    - cbn [snd] in Hv. cbn [loop]. fold loop.
      unfold Objects.bindM at 1, Objects.get_object at 1.
      destruct (nth_error cur (List.length st)) as [r |]; [| exact Hcur].
      unfold Objects.bindM at 1.
      match goal with
      | |- context [let (r0, st') := ?body cur in _] =>
          assert (Hbody : extends st (snd (body cur)))
      end.
      { destruct (Objects.obj_get key r) as [[a | b] |].
        - now apply store_loaded.
        - destruct v; try (now apply store_loaded). now apply store_merged.
        - now apply store_loaded. }
      match goal with
      | |- context [let (r0, st') := ?body cur in _] =>
          destruct (body cur) as [[[] | e] st2]
      end; cbn [snd] in *; [| exact Hbody].
      apply IHrest. exact Hbody. }
  specialize (Hloop (st ++ [o])%list ltac:(now exists [o])).
  destruct (loop items (st ++ [o])%list) as [[[] | e] st1]; cbn [snd Objects.ret] in *;
    exact Hloop.
Qed.

(** Evaluates the store operation that comes next. *)
Ltac store_step :=
  match goal with
  | |- context [let (r, st) := ?op ?store in _] =>
      let v := eval vm_compute in (op store) in
      change (op store) with v; cbv beta iota
  end.

Section SharedDefaults.
Context `{Codec}.

Lemma default_call_store (input_path : source) (settings : value) (address : nat)
    (st' : Objects.store) :
  truthy settings = false ->
  Objects.process_image_settings input_path settings Objects.initial_store
  = (Ok address, st') ->
  exists quality : Z,
    20 <= quality <= 95 /\
    address = 5%nat /\
    st' = (shared_compression quality :: skipn 1 Objects.initial_store
           ++ [nth 4 Objects.initial_store []])%list.
Proof.
  intros Hfalsy. unfold Objects.process_image_settings. rewrite Hfalsy.
  unfold Objects.bindM at 1.
  change (Objects.copy Objects.DEFAULT_SETTINGS Objects.initial_store)
    with (Ok 5%nat, (Objects.initial_store ++ [nth 4 Objects.initial_store []])%list).
  cbv beta iota. unfold Objects.bindM at 1. unfold Objects.ret at 1.
  unfold Objects.bindM at 1, Objects.lift at 1.
  destruct (Image_open input_path) as [image | e]; [| discriminate].
  unfold Objects.bindM at 1, Objects.lift at 1.
  destruct (_get_image_size image) as [size | e]; [| discriminate].
  unfold Objects.bindM at 1.
  store_step. change (is_str _ "auto") with true. cbv iota.
  unfold Objects.bindM at 1, Objects._process_auto_mode.
  unfold Objects.bindM at 1. store_step.
  unfold Objects.bindM at 1. store_step.
  unfold Objects.bindM at 1. store_step.
  unfold Objects.bindM at 1. store_step.
  unfold Objects.bindM at 1. store_step.
  unfold Objects.bindM at 1, Objects.lift at 1.
  destruct (auto_prepare image) as [start | e]; [| discriminate].
  unfold Objects.bindM at 1, Objects.lift at 1.
  change (Objects.atom_of _ (VInt (150 * 1024))) with (VInt 153600).
  destruct (found (search_loop max_iterations (VInt 153600) start 95))
    as [[found_image quality] | e] eqn:Hloop; [| discriminate].
  cbn [fst snd].
  unfold Objects.bindM at 1. store_step.
  unfold Objects.bindM at 1. store_step.
  unfold Objects.ret. cbn [snd].
  intros [= <- <-]. exists quality. split; [| split; reflexivity].
  split.
  - eapply search_loop_quality; [| exact Hloop]. lia.
  - apply search_loop_monotone in Hloop. lia.
Qed.

(** X12: starting from the settings as the class defines them, a call
    whose settings are falsy ([None], an empty dict) and which ends auto mode
    at some quality leaves that quality in [DEFAULT_SETTINGS['compression']],
    the dict the working settings share with the class attribute; nothing
    else of the class attribute changes; and the settings of a later
    manual-mode call that overrides only [mode] carry that quality. *)
Theorem default_quality_is_overwritten :
  forall (input_path : source) (settings : value) (address : nat)
         (st' : Objects.store),
    truthy settings = false ->
    Objects.process_image_settings input_path settings Objects.initial_store
    = (Ok address, st') ->
    exists quality : Z,
      20 <= quality <= 95 /\
      (Objects.read 2 st' (Objects.Ref Objects.DEFAULT_SETTINGS)
       = VDict (dict_set "compression"
                  (VDict [ ("enabled", VBool true);
                           ("quality", VInt quality);
                           ("maxWidth", VInt 1920);
                           ("maxHeight", VInt 1080) ])
                  DEFAULT_SETTINGS)) /\
      (Objects.read 2 st' (Objects.Ref address)
       = Objects.read 2 st' (Objects.Ref Objects.DEFAULT_SETTINGS)) /\
      (forall (later : source) (address' : nat) (st'' : Objects.store),
          Objects.process_image_settings later (VDict [("mode", VStr "manual")]) st'
          = (Ok address', st'') ->
          get_nested (Objects.read 2 st'' (Objects.Ref address')) "compression" "quality"
          = Ok (VInt quality)).
Proof.
  intros input_path settings address st' Hfalsy Hcall.
  apply (default_call_store _ _ Hfalsy) in Hcall as (quality & Hq & -> & ->).
  exists quality. split; [exact Hq |]. split; [reflexivity |]. split; [reflexivity |].
  intros later address' st''.
  unfold Objects.process_image_settings.
  unfold Objects.bindM at 1. store_step.
  cbn [truthy]. unfold Objects.bindM at 1. store_step.
  unfold Objects.bindM at 1, Objects.lift at 1.
  destruct (Image_open later) as [image | e]; [| discriminate].
  unfold Objects.bindM at 1, Objects.lift at 1.
  destruct (_get_image_size image) as [size | e]; [| discriminate].
  unfold Objects.bindM at 1. store_step.
  change (is_str _ "auto") with false. cbv iota. unfold Objects.ret.
  intros [= <- <-]. reflexivity.
Qed.
End SharedDefaults.

(** ** What merging and manual mode leave alone *)

Lemma deep_merge_result (base : nat) (override : value) (st : Objects.store) (a : nat) :
  fst (Objects._deep_merge base override st) = Ok a -> a = List.length st.
Proof.
  destruct override as [| b | z | s | items]; try discriminate.
  cbn [Objects._deep_merge]. unfold Objects.bindM at 1.
  unfold Objects.copy, Objects.bindM at 1, Objects.get_object at 1.
  destruct (nth_error st base) as [o |]; [| discriminate].
  cbn [Objects.alloc]. unfold Objects.bindM at 1.
  match goal with
  | |- context [let (r, st') := ?f items (st ++ [o])%list in _] =>
      destruct (f items (st ++ [o])%list) as [[[] | e] st1]
  end; cbn; [| discriminate].
  now intros [= <-].
Qed.

(** X13: [_deep_merge] on the settings objects.  Whatever the base and
    the override, the call leaves every object that existed before it as it
    was (the base and the dicts nested in it included) and only adds
    objects; the dict it returns did not exist before the call. *)
Theorem deep_merge_writes_only_new_objects :
  forall (base : nat) (override : value) (st : Objects.store),
    (exists added : Objects.store,
        snd (Objects._deep_merge base override st) = (st ++ added)%list) /\
    (forall a : nat,
        fst (Objects._deep_merge base override st) = Ok a ->
        a = List.length st /\ nth_error st a = None).
Proof.
  intros base override st. split.
  - apply deep_merge_extends.
  - intros a Ha. pose proof (deep_merge_result base override st Ha) as ->.
    split; [reflexivity |]. apply nth_error_None. lia.
Qed.

Lemma create_settings_extends (settings : value) (st : Objects.store) :
  extends st (snd (create_settings settings st)).
Proof.
  unfold create_settings, Objects.bindM, Objects.copy, Objects.bindM, Objects.get_object.
  destruct (nth_error st Objects.DEFAULT_SETTINGS) as [o |]; [| apply extends_refl].
  cbn [Objects.alloc]. destruct (truthy settings).
  - eapply extends_trans; [| apply deep_merge_extends]. now exists [o].
  - now exists [o].
Qed.

Section ManualStore.

Context `{Codec}.

(** X14: creating the working settings only adds objects to the store,
    and when the settings created do not say [mode: 'auto'] the call makes
    no further change: after a manual-mode call, failed or not, every object
    that existed before the call, the class attribute included, is as it
    was. *)
Theorem manual_call_only_adds_objects :
  forall (input_path : source) (settings : value) (st st1 : Objects.store)
         (processing_settings : nat) (o : Objects.object),
    create_settings settings st = (Ok processing_settings, st1) ->
    nth_error st1 processing_settings = Some o ->
    is_str (Objects.atom_of (Objects.obj_get "mode" o) VNone) "auto" = false ->
    snd (Objects.process_image_settings input_path settings st) = st1 /\
    exists added : Objects.store, st1 = (st ++ added)%list.
Proof.
  intros input_path settings st st1 ps o Hcreate Ho Hmode. split.
  - unfold Objects.process_image_settings.
    unfold create_settings in Hcreate. unfold Objects.bindM at 1 in Hcreate.
    unfold Objects.bindM at 1.
    destruct (Objects.copy Objects.DEFAULT_SETTINGS st) as [[copied | e] st0];
      [| discriminate].
    unfold Objects.bindM at 1. rewrite Hcreate.
    unfold Objects.bindM at 1, Objects.lift at 1.
    destruct (Image_open input_path) as [image | e]; [| reflexivity].
    unfold Objects.bindM at 1, Objects.lift at 1.
    destruct (_get_image_size image) as [size | e]; [| reflexivity].
    unfold Objects.bindM at 1, Objects.get_object at 1. rewrite Ho, Hmode.
    reflexivity.
  - pose proof (create_settings_extends settings st) as Hext.
    rewrite Hcreate in Hext. exact Hext.
Qed.

End ManualStore.

(** * Further properties at concrete inputs *)

Lemma search_loop_shrinks_witness :
  exists (image' : Image) (quality' : Z),
    found (@search_loop Demo.codec 10%nat (VInt 153600) large 95) = Ok (image', quality') /\
    im_width image' <= im_width large /\
    im_height image' <= im_height large /\
    im_mode image' = im_mode large /\
    im_info image' = im_info large /\
    quality' <= Z.max 85 95.
Proof.
  destruct (found (@search_loop Demo.codec 10%nat (VInt 153600) large 95))
    as [[image' quality'] | e] eqn:Hloop.
  - exists image', quality'. split; [reflexivity |].
    exact (@search_loop_shrinks Demo.codec 10%nat (VInt 153600) large image' 95 quality'
             Hloop).
  - vm_compute in Hloop. discriminate Hloop.
Defined.

Lemma search_loop_outcome_witness :
  exists (image' : Image) (quality' : Z),
    20 <= 95 /\
    found (@search_loop Demo.codec 10%nat (VInt 153600) large 95) = Ok (image', quality') /\
    (@converged Demo.codec (VInt 153600) image' quality' \/
     rounds (@search_loop Demo.codec 10%nat (VInt 153600) large 95) = 10%nat \/
     @stuck Demo.codec (VInt 153600) image' quality').
Proof.
  assert (Hq : 20 <= 95) by lia.
  destruct (found (@search_loop Demo.codec 10%nat (VInt 153600) large 95))
    as [[image' quality'] | e] eqn:Hloop.
  - exists image', quality'. split; [exact Hq |]. split; [reflexivity |].
    exact (@search_loop_outcome Demo.codec 10%nat (VInt 153600) large image' 95 quality'
             Hq Hloop).
  - vm_compute in Hloop. discriminate Hloop.
Defined.

Lemma first_round_convergence_witness :
  exists settings' : value,
    @auto_prepare Demo.codec small = Ok small /\
    get_default (VDict DEFAULT_SETTINGS) "targetFileSize" (VInt (150 * 1024))
    = Ok (VInt 153600) /\
    as_number (VInt 153600) = Ok 153600 /\
    @save_buffer Demo.codec small "WEBP" [("quality", VInt 95); ("optimize", VBool true)]
    = Ok 34200%N /\
    Z.of_N 34200 <= 153600 /\
    @search_loop Demo.codec max_iterations (VInt 153600) small 95
    = {| rounds := 1; found := Ok (small, 95) |} /\
    @_process_auto_mode Demo.codec small (VDict DEFAULT_SETTINGS) = Ok (small, settings') /\
    get_nested settings' "compression" "quality" = Ok (VInt 95).
Proof.
  assert (Hprep : @auto_prepare Demo.codec small = Ok small) by reflexivity.
  assert (Htarget : get_default (VDict DEFAULT_SETTINGS) "targetFileSize" (VInt (150 * 1024))
                    = Ok (VInt 153600)) by reflexivity.
  assert (Hnum : as_number (VInt 153600) = Ok 153600) by reflexivity.
  assert (Hsave : @save_buffer Demo.codec small "WEBP"
                    [("quality", VInt 95); ("optimize", VBool true)] = Ok 34200%N)
    by reflexivity.
  assert (Hfit : Z.of_N 34200 <= 153600) by (cbn; lia).
  destruct (@_process_auto_mode Demo.codec small (VDict DEFAULT_SETTINGS))
    as [[image' settings'] | e] eqn:Hauto.
  - pose proof (@first_round_convergence Demo.codec small small image'
                  (VDict DEFAULT_SETTINGS) settings' (VInt 153600) 34200%N 153600
                  Hprep Htarget Hnum Hsave Hfit) as [Hloop Hrest].
    destruct (Hrest Hauto) as [-> Hquality].
    exists settings'. repeat (split; [assumption || reflexivity |]). exact Hquality.
  - vm_compute in Hauto. discriminate Hauto.
Defined.

Lemma compress_image_fits_witness :
  exists image' : Image,
    get_default (VDict []) "maxWidth" (VInt 1920) = Ok (VInt 1920) /\
    as_number (VInt 1920) = Ok 1920 /\
    get_default (VDict []) "maxHeight" (VInt 1080) = Ok (VInt 1080) /\
    as_number (VInt 1080) = Ok 1080 /\
    0 < 1920 < 2 ^ 50 /\ 0 < 1080 < 2 ^ 50 /\
    0 < im_width large /\ 0 < im_height large /\
    @_compress_image Demo.codec large (VDict []) = Ok image' /\
    im_width image' <= 1920 /\
    im_height image' <= 1080 /\
    (im_width large <= 1920 -> im_height large <= 1080 -> image' = large) /\
    @_compress_image Demo.codec image' (VDict []) = Ok image'.
Proof.
  assert (Hw : 0 < 1920 < 2 ^ 50) by (split; reflexivity).
  assert (Hh : 0 < 1080 < 2 ^ 50) by (split; reflexivity).
  assert (Hiw : 0 < im_width large) by reflexivity.
  assert (Hih : 0 < im_height large) by reflexivity.
  destruct (@_compress_image Demo.codec large (VDict [])) as [image' | e] eqn:Hres.
  - exists image'.
    repeat (split; [assumption || reflexivity |]).
    exact (@compress_image_fits Demo.codec large image' (VDict []) (VInt 1920) (VInt 1080)
             1920 1080 eq_refl eq_refl eq_refl eq_refl Hw Hh Hiw Hih Hres).
  - vm_compute in Hres. discriminate Hres.
Defined.

Lemma resize_fits_box_witness :
  exists resized : Image,
    get_default box "width" VNone = Ok (VInt 800) /\ 0 < 800 < 2 ^ 50 /\
    get_default box "height" VNone = Ok (VInt 800) /\ 0 < 800 < 2 ^ 50 /\
    get_default box "maintainAspectRatio" (VBool true) = Ok (VBool true) /\
    truthy (VBool true) = true /\
    0 < im_width large /\ 0 < im_height large /\
    @_resize_image Demo.codec large box = Ok resized /\
    im_width resized <= 800 /\ im_height resized <= 800.
Proof.
  assert (Hb : 0 < 800 < 2 ^ 50) by (split; reflexivity).
  assert (Hiw : 0 < im_width large) by reflexivity.
  assert (Hih : 0 < im_height large) by reflexivity.
  destruct (@_resize_image Demo.codec large box) as [resized | e] eqn:Hres.
  - exists resized.
    repeat (split; [assumption || reflexivity |]).
    exact (@resize_fits_box Demo.codec large resized box (VBool true) 800 800
             eq_refl Hb eq_refl Hb eq_refl eq_refl Hiw Hih Hres).
  - vm_compute in Hres. discriminate Hres.
Defined.

Lemma auto_mode_within_2048_witness :
  0 < im_width (@_auto_orient Demo.codec huge) /\
  0 < im_height (@_auto_orient Demo.codec huge) /\
  (forall start : Image,
      @auto_prepare Demo.codec huge = Ok start ->
      im_width start <= 2048 /\ im_height start <= 2048 /\
      (im_width (@_auto_orient Demo.codec huge) <= 2048 ->
       im_height (@_auto_orient Demo.codec huge) <= 2048 ->
       start = @_auto_orient Demo.codec huge)) /\
  (forall (settings settings' : value) (image' : Image),
      @_process_auto_mode Demo.codec huge settings = Ok (image', settings') ->
      im_width image' <= 2048 /\ im_height image' <= 2048).
Proof.
  assert (Hw : 0 < im_width (@_auto_orient Demo.codec huge)) by reflexivity.
  assert (Hh : 0 < im_height (@_auto_orient Demo.codec huge)) by reflexivity.
  split; [exact Hw |]. split; [exact Hh |].
  exact (@auto_mode_within_2048 Demo.codec huge Hw Hh).
Defined.

Lemma determine_output_format_ignores_case_witness :
  dict_get "outputFormat" [("outputFormat", VStr "Png"); ("convertToWebp", VBool true)]
  = Some (VStr "Png") /\
  _determine_output_format (Some "JPEG")
    (VDict [("outputFormat", VStr "Png"); ("convertToWebp", VBool true)])
  = _determine_output_format (Some "JPEG") (VDict [("outputFormat", VStr (lower "Png"))]).
Proof.
  split; [reflexivity |].
  exact (@determine_output_format_ignores_case (Some "JPEG")
           [("outputFormat", VStr "Png"); ("convertToWebp", VBool true)] "Png" eq_refl).
Defined.

Lemma resize_image_edges_witness :
  get_default exact_size "width" VNone = Ok (VInt 640) /\
  get_default exact_size "height" VNone = Ok VNone /\
  get_default exact_size "maintainAspectRatio" (VBool true) = Ok (VBool false) /\
  (forall resized : Image,
      @_resize_image Demo.codec large exact_size = Ok resized ->
      as_number (VInt 640) = Ok (im_width resized) /\
      im_height resized = im_height large).
Proof.
  repeat (split; [reflexivity |]).
  exact (proj1 (proj2 (@resize_image_edges Demo.codec large exact_size (VInt 640) VNone
                         (VBool false) eq_refl eq_refl eq_refl))
           eq_refl eq_refl).
Defined.

Lemma auto_mode_final_save_witness :
  exists r : run,
    @stages Demo.codec DEFAULT_SETTINGS (Stream [400; 300]) png_no_optimization None r /\
    mode_is_auto (r_settings r) = true /\
    exists (quality : Z) (target_size : value) (start : Image),
      found (@search_loop Demo.codec max_iterations target_size start 95)
      = Ok (r_image r, quality) /\
      20 <= quality <= 95 /\
      get_nested (r_settings_used r) "compression" "quality" = Ok (VInt quality) /\
      r_format r = "WEBP" /\
      r_kwargs r = [("quality", VInt quality); ("optimize", VBool true)] /\
      r_saved r = @strip_metadata Demo.codec (r_image r) /\
      @r_filename Demo.codec (Stream [400; 300]) None r
      = @original_filename_of Demo.codec (Stream [400; 300]) ++ "_"
        ++ @timestamp Demo.codec ++ ".webp".
Proof.
  destruct (@demo_run (Stream [400; 300]) png_no_optimization None) as (r & Hst & _).
  { eexists. vm_compute. reflexivity. }
  exists r. split; [exact Hst |].
  assert (Hauto : mode_is_auto (r_settings r) = true).
  { destruct Hst as (Hps & _). cbn in Hps. injection Hps as <-. reflexivity. }
  split; [exact Hauto |].
  exact (@auto_mode_final_save Demo.codec DEFAULT_SETTINGS (Stream [400; 300])
           png_no_optimization None r Hst Hauto).
Defined.

Lemma stripping_drops_animation_witness :
  exists r : run,
    @stages Demo.codec DEFAULT_SETTINGS (Stream [400; 300])
      (VDict [("mode", VStr "manual")]) None r /\
    (forall remove_metadata : value,
        get_nested (r_settings_used r) "optimization" "removeMetadata"
        = Ok remove_metadata ->
        truthy remove_metadata = true ->
        save_all_frames (r_format r) (r_saved r) = false) /\
    (mode_is_auto (r_settings r) = true ->
     save_all_frames (r_format r) (r_saved r) = false) /\
    (save_all_frames (r_format r) (r_saved r) = true ->
     r_format r = "GIF" /\ r_saved r = r_image r /\ im_animated (r_image r) = true).
Proof.
  destruct (@demo_run (Stream [400; 300]) (VDict [("mode", VStr "manual")]) None)
    as (r & Hst & _).
  { eexists. vm_compute. reflexivity. }
  exists r. split; [exact Hst |].
  exact (@stripping_drops_animation Demo.codec DEFAULT_SETTINGS (Stream [400; 300])
           (VDict [("mode", VStr "manual")]) None r Hst).
Defined.

Lemma default_quality_is_overwritten_witness :
  exists (address : nat) (st' : Objects.store),
    truthy VNone = false /\
    @Objects.process_image_settings Demo.codec (Stream [400; 300]) VNone
      Objects.initial_store = (Ok address, st') /\
    exists quality : Z,
      20 <= quality <= 95 /\
      (Objects.read 2 st' (Objects.Ref Objects.DEFAULT_SETTINGS)
       = VDict (dict_set "compression"
                  (VDict [ ("enabled", VBool true);
                           ("quality", VInt quality);
                           ("maxWidth", VInt 1920);
                           ("maxHeight", VInt 1080) ])
                  DEFAULT_SETTINGS)) /\
      (Objects.read 2 st' (Objects.Ref address)
       = Objects.read 2 st' (Objects.Ref Objects.DEFAULT_SETTINGS)) /\
      (forall (later : source) (address' : nat) (st'' : Objects.store),
          @Objects.process_image_settings Demo.codec later
            (VDict [("mode", VStr "manual")]) st' = (Ok address', st'') ->
          get_nested (Objects.read 2 st'' (Objects.Ref address')) "compression" "quality"
          = Ok (VInt quality)).
Proof.
  destruct (@Objects.process_image_settings Demo.codec (Stream [400; 300]) VNone
              Objects.initial_store) as [[address | e] st'] eqn:Hcall.
  - exists address, st'. split; [reflexivity |]. split; [reflexivity |].
    exact (@default_quality_is_overwritten Demo.codec (Stream [400; 300]) VNone address st'
             eq_refl Hcall).
  - vm_compute in Hcall. discriminate Hcall.
Defined.

Lemma manual_call_only_adds_objects_witness :
  exists (processing_settings : nat) (st1 : Objects.store) (o : Objects.object),
    create_settings manual_only Objects.initial_store = (Ok processing_settings, st1) /\
    nth_error st1 processing_settings = Some o /\
    is_str (Objects.atom_of (Objects.obj_get "mode" o) VNone) "auto" = false /\
    snd (@Objects.process_image_settings Demo.codec (Stream [400; 300]) manual_only
           Objects.initial_store) = st1 /\
    exists added : Objects.store, st1 = (Objects.initial_store ++ added)%list.
Proof.
  destruct (create_settings manual_only Objects.initial_store)
    as [[processing_settings | e] st1] eqn:Hcreate;
    [| vm_compute in Hcreate; discriminate Hcreate].
  destruct (nth_error st1 processing_settings) as [o |] eqn:Ho.
  - assert (Hmode : is_str (Objects.atom_of (Objects.obj_get "mode" o) VNone) "auto" = false).
    { pose proof Hcreate as Hc. vm_compute in Hc. injection Hc as <- <-.
      vm_compute in Ho. injection Ho as <-. reflexivity. }
    exists processing_settings, st1, o.
    split; [reflexivity |]. split; [exact Ho |]. split; [exact Hmode |].
    exact (@manual_call_only_adds_objects Demo.codec (Stream [400; 300]) manual_only
             Objects.initial_store st1 processing_settings o Hcreate Ho Hmode).
  - exfalso. vm_compute in Hcreate. injection Hcreate as <- <-.
    vm_compute in Ho. discriminate Ho.
Defined.

Lemma manual_mode_capped_witness :
  exists image' : Image,
    get_nested wide_resize "compression" "enabled" = Ok (VBool true) /\
    truthy (VBool true) = true /\
    subscript wide_resize "compression"
    = Ok (VDict [ ("enabled", VBool true); ("quality", VInt 85);
                  ("maxWidth", VInt 1920); ("maxHeight", VInt 1080) ]) /\
    0 < 1920 < 2 ^ 50 /\ 0 < 1080 < 2 ^ 50 /\
    @manual_mode Demo.codec small wide_resize = Ok image' /\
    0 < im_width image' /\ 0 < im_height image' /\
    im_width image' <= 1920 /\ im_height image' <= 1080.
Proof.
  assert (Hw : 0 < 1920 < 2 ^ 50) by (split; reflexivity).
  assert (Hh : 0 < 1080 < 2 ^ 50) by (split; reflexivity).
  destruct (@manual_mode Demo.codec small wide_resize) as [image' | e] eqn:Hrun;
    [| vm_compute in Hrun; discriminate Hrun].
  assert (Hpos : 0 < im_width image' /\ 0 < im_height image').
  { pose proof Hrun as Hc. vm_compute in Hc. injection Hc as <-. split; reflexivity. }
  destruct Hpos as [Hpw Hph].
  exists image'.
  repeat (split; [assumption || reflexivity |]).
  exact (@manual_mode_capped Demo.codec small image' wide_resize (VBool true)
           (VDict [ ("enabled", VBool true); ("quality", VInt 85);
                    ("maxWidth", VInt 1920); ("maxHeight", VInt 1080) ])
           (VInt 1920) (VInt 1080) 1920 1080
           eq_refl eq_refl eq_refl eq_refl eq_refl eq_refl eq_refl Hw Hh Hrun Hpw Hph).
Defined.
